(** * py2deb: the conversion pipeline of [py2deb/converter.py] and of the
    older [py2deb/util/converter.py], embedded in Rocq.

    The pipeline is Python 2 code that talks to the outside world (pip-accel,
    stdeb, dpkg-buildpackage, the file system).  Pure parts are embedded as
    functions; stateful parts pass an explicit state and return a [result],
    whose [Raise] stands for a Python exception. *)

From stdpp Require Import gmap strings list relations pretty.
From Stdlib Require Import Ascii.
From Stdlib Require String.

Open Scope string_scope.
Open Scope list_scope.
Open Scope nat_scope.
Open Scope stdpp_scope.

(** ** Python exceptions and results *)

Inductive exn : Type :=
  | Exception (msg : string)
  | RuntimeError (msg : string)
  | AssertionError (msg : string)
  | ValueError (msg : string)
  | KeyError (key : string)
  | IOError (path : string)
  | OSError (path : string)
  | NoSectionError (section : string)
  | NoOptionError (option section : string)
  | DistributionNotFound
  | ShutilError (path : string)
  | DebError (path : string).

Inductive result (A : Type) : Type :=
  | Ok (a : A)
  | Raise (e : exn).
Arguments Ok {A} a.
Arguments Raise {A} e.

#[global] Instance result_ret : MRet result := λ A a, Ok a.
#[global] Instance result_bind : MBind result := λ A B f r,
  match r with
  | Ok a => f a
  | Raise e => Raise e
  end.

(** [acc.extend(f(x))] for every [x] of a list, stopping at the first
    exception. *)
Definition extend_each {A B : Type} (f : A → result (list B))
    : list A → result (list B) :=
  fix go (l : list A) : result (list B) :=
    match l with
    | [] => Ok []
    | x :: l' => r ← f x; rs ← go l'; Ok (r ++ rs)
    end.

(** ** Strings and paths *)

(** [s.endswith(suffix)]. *)
Fixpoint str_endswith (s suffix : string) : bool :=
  if String.eqb s suffix then true
  else match s with
       | EmptyString => false
       | String _ s' => str_endswith s' suffix
       end.

(** [s.startswith(prefix)]. *)
Definition str_startswith (s prefix : string) : bool := String.prefix prefix s.

(** [posixpath.join(a, b)]. *)
Definition os_path_join (a b : string) : string :=
  if str_startswith b "/" then b
  else if bool_decide (a = "") || str_endswith a "/" then a +:+ b
  else a +:+ "/" +:+ b.

(** ASCII lower-casing, as [str.lower] does on byte strings. *)
Definition ascii_lower (c : ascii) : ascii :=
  let n := nat_of_ascii c in
  if (65 <=? n) && (n <=? 90) then ascii_of_nat (n + 32) else c.

Fixpoint str_lower (s : string) : string :=
  match s with
  | EmptyString => EmptyString
  | String c s' => String (ascii_lower c) (str_lower s')
  end.

(** [posixpath.basename(p)]: what follows the last slash. *)
Fixpoint basename_go (cur : string) (s : string) : string :=
  match s with
  | EmptyString => cur
  | String c s' =>
      if Ascii.eqb c "/" then basename_go "" s'
      else basename_go (cur +:+ String c "") s'
  end.

Definition os_path_basename (p : string) : string := basename_go "" p.

(** Everything up to and including the last slash. *)
Fixpoint head_go (head cur : string) (s : string) : string :=
  match s with
  | EmptyString => head
  | String c s' =>
      if Ascii.eqb c "/" then head_go (head +:+ cur +:+ "/") "" s'
      else head_go head (cur +:+ String c "") s'
  end.

Fixpoint lstrip_slashes (s : string) : string :=
  match s with
  | String c s' => if Ascii.eqb c "/" then lstrip_slashes s' else s
  | EmptyString => EmptyString
  end.

(** [posixpath.dirname(p)]: the head, without trailing slashes unless it
    consists of slashes only. *)
Definition os_path_dirname (p : string) : string :=
  let head := head_go "" "" p in
  if String.eqb (lstrip_slashes head) "" then head
  else String.rev (lstrip_slashes (String.rev head)).

(** [fnmatch.fnmatch(name, pat)] on POSIX for patterns made of literal
    characters, [*] and [?].  Character classes in square brackets are not
    modelled: a bracket is matched literally, which is also what [fnmatch]
    does with a bracket that is never closed. *)
Fixpoint fnmatch_pat (pat : string) : string → bool :=
  match pat with
  | EmptyString => λ name, String.eqb name ""
  | String c pat' =>
      if Ascii.eqb c "*" then
        fix star (name : string) : bool :=
          fnmatch_pat pat' name ||
          match name with
          | EmptyString => false
          | String _ name' => star name'
          end
      else if Ascii.eqb c "?" then
        λ name, match name with
                | EmptyString => false
                | String _ name' => fnmatch_pat pat' name'
                end
      else
        λ name, match name with
                | EmptyString => false
                | String d name' => Ascii.eqb c d && fnmatch_pat pat' name'
                end
  end.

Definition fnmatch (name pat : string) : bool := fnmatch_pat pat name.

(** A pattern without [*] and [?]. *)
Fixpoint is_literal (pat : string) : Prop :=
  match pat with
  | EmptyString => True
  | String c pat' =>
      Ascii.eqb c "*" = false ∧ Ascii.eqb c "?" = false ∧ is_literal pat'
  end.

(** [substring in s]. *)
Fixpoint str_contains (s sub : string) : bool :=
  if String.prefix sub s then true
  else match s with
       | EmptyString => false
       | String _ s' => str_contains s' sub
       end.

Definition ascii_is_lower (c : ascii) : bool :=
  let n := nat_of_ascii c in (97 <=? n) && (n <=? 122).

Definition ascii_is_upper (c : ascii) : bool :=
  let n := nat_of_ascii c in (65 <=? n) && (n <=? 90).

Definition ascii_upper (c : ascii) : ascii :=
  if ascii_is_lower c then ascii_of_nat (nat_of_ascii c - 32) else c.

(** [s.title()] on a byte string: a letter that follows a letter is put in
    lower case, any other letter in upper case. *)
Fixpoint title_go (previous_is_cased : bool) (s : string) : string :=
  match s with
  | EmptyString => EmptyString
  | String c s' =>
      if ascii_is_lower c then
        String (if previous_is_cased then c else ascii_upper c)
               (title_go true s')
      else if ascii_is_upper c then
        String (if previous_is_cased then ascii_lower c else c)
               (title_go true s')
      else String c (title_go false s')
  end.

Definition str_title (s : string) : string := title_go false s.

(** [f.readlines()] on the content of a file: the lines, each with its
    newline except possibly the last. *)
Fixpoint readlines_go (cur : string) (s : string) : list string :=
  match s with
  | EmptyString => if bool_decide (cur = "") then [] else [cur]
  | String c s' =>
      if bool_decide (c = "010"%char)
      then (cur +:+ String c "") :: readlines_go "" s'
      else readlines_go (cur +:+ String c "") s'
  end.

Definition readlines (content : string) : list string :=
  readlines_go "" content.

(** Python's white space: space, tab, newline, vertical tab, form feed,
    carriage return. *)
Definition is_space (c : ascii) : bool :=
  let n := nat_of_ascii c in
  (n =? 32) || ((9 <=? n) && (n <=? 13)).

Fixpoint str_lstrip (s : string) : string :=
  match s with
  | String c s' => if is_space c then str_lstrip s' else s
  | EmptyString => EmptyString
  end.

(** [s.strip()]. *)
Definition str_strip (s : string) : string :=
  String.rev (str_lstrip (String.rev (str_lstrip s))).

(** The longest prefix of a list whose elements all satisfy [p]. *)
Fixpoint take_while {A : Type} (p : A → bool) (l : list A) : list A :=
  match l with
  | [] => []
  | x :: l' => if p x then x :: take_while p l' else []
  end.

(** [s.split()]: the runs of characters between white space. *)
Fixpoint split_go (cur : string) (s : string) : list string :=
  match s with
  | EmptyString => if bool_decide (cur = "") then [] else [cur]
  | String c s' =>
      if (nat_of_ascii c =? 32) || ((9 <=? nat_of_ascii c) && (nat_of_ascii c <=? 13))
      then (if bool_decide (cur = "") then [] else [cur]) ++ split_go "" s'
      else split_go (cur +:+ String c "") s'
  end.

Definition str_split (s : string) : list string := split_go "" s.

(** [l.insert(index, x)], with Python's reading of negative and too large
    indices. *)
Definition py_list_insert {A : Type} (index : Z) (x : A) (l : list A) : list A :=
  let n := Z.of_nat (length l) in
  let i := if bool_decide (index < 0)%Z then Z.max 0 (index + n) else Z.min index n in
  take (Z.to_nat i) l ++ x :: drop (Z.to_nat i) l.

(** [repr] of a tuple of plain strings. *)
Definition repr_tuple (items : list string) : string :=
  match items with
  | [item] => "('" +:+ item +:+ "',)"
  | _ => "(" +:+ String.concat ", " ((λ item, "'" +:+ item +:+ "'") <$> items)
         +:+ ")"
  end.

(** ** The file system *)

(** Regular files with their content, by path, and the directories. *)
Record filesystem : Type := {
  files : gmap string string;
  dirs : gset string
}.

Definition os_path_isfile (path : string) (fs : filesystem) : bool :=
  bool_decide (is_Some (files fs !! path)).

Definition os_path_isdir (path : string) (fs : filesystem) : bool :=
  bool_decide (path ∈ dirs fs).

(** [open(path).read()]. *)
Definition read_file (path : string) (fs : filesystem) : result string :=
  match files fs !! path with
  | Some content => Ok content
  | None => Raise (IOError path)
  end.

(** [open(path, 'w').write(content)]: the file is created or replaced; a
    directory cannot be opened for writing. *)
Definition write_file (path content : string) (fs : filesystem)
    : result filesystem :=
  if os_path_isdir path fs then Raise (IOError path)
  else Ok {| files := <[path := content]> (files fs); dirs := dirs fs |}.

(** [os.makedirs(path)], called on a path that is not a directory yet. *)
Definition os_makedirs (path : string) (fs : filesystem) : result filesystem :=
  if os_path_isfile path fs then Raise (OSError path)
  else Ok {| files := files fs; dirs := {[path]} ∪ dirs fs |}.

(** ** Debian control data (python-debian) *)

(** A [Deb822] paragraph: its fields in order.  Field names compare without
    regard to case. *)
Definition Deb822 : Type := list (string * string).

Definition field_eqb (a b : string) : bool :=
  String.eqb (str_lower a) (str_lower b).

(** [d[key]], [None] standing for [KeyError]. *)
Fixpoint deb822_get (key : string) (d : Deb822) : option string :=
  match d with
  | [] => None
  | (k, v) :: d' => if field_eqb k key then Some v else deb822_get key d'
  end.

(** python-debian is outside the repository: reading the control data out
    of the bytes of a .deb archive, and the text form of paragraphs. *)
Class DebianLib : Type := {
  deb_control_of : string → option Deb822;
  iter_paragraphs : string → list Deb822;
  deb822_dump : Deb822 → string
}.

(** [DebFile(path).debcontrol()]. *)
Definition DebFile_debcontrol `{DebianLib} (path : string) (fs : filesystem)
    : result Deb822 :=
  content ← read_file path fs;
  match deb_control_of content with
  | Some control => Ok control
  | None => Raise (DebError path)
  end.

(** ['%(Package)s (=%(Version)s)' % control]. *)
Definition format_dependency (control : Deb822) : result string :=
  match deb822_get "Package" control with
  | None => Raise (KeyError "Package")
  | Some package =>
      match deb822_get "Version" control with
      | None => Raise (KeyError "Version")
      | Some version => Ok (package +:+ " (=" +:+ version +:+ ")")
      end
  end.

(** [hashlib.sha1(data).hexdigest()]. *)
Class Hashlib : Type := { sha1_hexdigest : string → string }.

(** [d[key] = value]: the field of that name, if there is one, gets the new
    value and keeps its place and spelling; otherwise the field is appended.
    A paragraph holds each field once. *)
Definition deb822_set (key value : string) (d : Deb822) : Deb822 :=
  match deb822_get key d with
  | Some _ =>
      (λ kv : string * string,
         if field_eqb kv.1 key then (kv.1, value) else kv) <$> d
  | None => d ++ [(key, value)]
  end.

(** Assigning field after field. *)
Definition deb822_update (d : Deb822) (fields : list (string * string))
    : Deb822 :=
  foldl (λ d kv, deb822_set kv.1 kv.2 d) d fields.

(** The value that a run of assignments leaves in the field [key], if the
    run assigns to it at all. *)
Definition last_assigned (fields : list (string * string)) (key : string)
    : option string :=
  foldl (λ acc kv, if field_eqb kv.1 key then Some kv.2 else acc) None fields.

(** Each field name occurs once, whatever its spelling. *)
Definition deb822_wf (d : Deb822) : Prop := NoDup (str_lower <$> d.*1).

(** Modelled from the spec: [merge_control_fields(defaults, overrides)] of
    deb_pkg_tools, which is not part of the repository.  Spec 4.3: the patcher
    "merges" the given fields, "preserving any field already present unless
    explicitly overridden", and "re-applying the same override set yields the
    same paragraph". *)
Definition merge_control_fields (defaults overrides : Deb822) : Deb822 :=
  deb822_update defaults overrides.

(** Modelled from the spec: [Deb822.merge_fields(key, d1)] of python-debian,
    which is not part of the repository, read like [merge_control_fields]
    above, for the one field [key] of [d1]. *)
Definition merge_fields (key : string) (d1 : Deb822) (self : Deb822) : Deb822 :=
  match deb822_get key d1 with
  | Some value => deb822_set key value self
  | None => self
  end.

(** ** Configuration files *)

(** A [ConfigParser] after [read]: the options of each section.  Option
    names are stored in lower case; interpolation and the DEFAULT section are
    left out. *)
Abbreviation ConfigParser := (gmap string (gmap string string)).

Definition has_section (section : string) (config : ConfigParser) : bool :=
  bool_decide (is_Some (config !! section)).

Definition has_option (section option : string)
    (config : ConfigParser) : bool :=
  match config !! section with
  | None => false
  | Some options => bool_decide (is_Some (options !! str_lower option))
  end.

Definition config_get (section option : string)
    (config : ConfigParser) : result string :=
  match config !! section with
  | None => Raise (NoSectionError section)
  | Some options =>
      match options !! str_lower option with
      | Some value => Ok value
      | None => Raise (NoOptionError option section)
      end
  end.

Definition config_items (section : string)
    (config : ConfigParser)
    : result (list (string * string)) :=
  match config !! section with
  | None => Raise (NoSectionError section)
  | Some options => Ok (map_to_list options)
  end.

(** ** The machine the converter runs on *)

Inductive event : Type :=
  | Run (command directory : string)
  | Popen (args : list string) (cwd : string)
  | System (command : string)
  | Move (src dst : string)
  | Rmtree (path : string)
  | SanityCheck (name : string) (auto_install : bool)
  | Print (line : string).

(** The file system, the process environment and working directory, and the
    record of what has been run or printed, in order. *)
Record world : Type := {
  fs : filesystem;
  environ : gmap string string;
  cwd : string;
  log : list event
}.

Definition set_fs (fs' : filesystem) (w : world) : world :=
  {| fs := fs'; environ := environ w; cwd := cwd w; log := log w |}.

Definition set_environ (key value : string) (w : world) : world :=
  {| fs := fs w; environ := <[key := value]> (environ w); cwd := cwd w;
     log := log w |}.

Definition os_chdir (path : string) (w : world) : world :=
  {| fs := fs w; environ := environ w; cwd := path; log := log w |}.

Definition emit (e : event) (w : world) : world :=
  {| fs := fs w; environ := environ w; cwd := cwd w; log := log w ++ [e] |}.

(** The operating system and the programs it runs are outside the
    repository.  A process leaves a file system and an exit status behind
    ([Popen] also its output); listing and globbing read the file system. *)
Class Host : Type := {
  sys_prefix : string;
  os_system : string → filesystem → filesystem * Z;
  popen_wait : list string → string → filesystem → filesystem * string * Z;
  os_listdir : string → filesystem → list string;
  glob_glob : string → filesystem → list string;
  pipes_quote : string → string
}.

(** [shutil.move(src, dst)] for a regular file [src]: into [dst] when that is
    a directory, refusing to overwrite there. *)
Definition shutil_move (src dst : string) (fs : filesystem)
    : result filesystem :=
  match files fs !! src with
  | None => Raise (IOError src)
  | Some content =>
      if os_path_isdir dst fs then
        let real_dst := os_path_join dst (os_path_basename src) in
        if os_path_isfile real_dst fs || os_path_isdir real_dst fs
        then Raise (ShutilError real_dst)
        else Ok {| files := <[real_dst := content]> (delete src (files fs));
                   dirs := dirs fs |}
      else Ok {| files := <[dst := content]> (delete src (files fs));
                 dirs := dirs fs |}
  end.

(** [shutil.rmtree(path)]: the directory and all below it. *)
Definition shutil_rmtree (path : string) (fs : filesystem)
    : result filesystem :=
  if os_path_isdir path fs then
    Ok {| files := filter (λ kv, ¬ str_startswith kv.1 (path +:+ "/"))
                     (files fs);
          dirs := filter (λ d, d ≠ path ∧ ¬ str_startswith d (path +:+ "/"))
                    (dirs fs) |}
  else Raise (OSError path).

(** [py2deb/util/__init__.py] of the newer layout is not among the sources:
    [transform_package_name(prefix, name)] gives the Debian name, and
    [run(command, directory, verbose)] runs a shell command in a directory
    and returns its exit status. *)
Class Py2debUtil : Type := {
  transform_package_name : string → string → string;
  run : string → string → bool → filesystem → filesystem * Z
}.

(** [pip_accel.deps.sanity_check_dependencies(name, auto_install)]. *)
Class PipAccelDeps : Type := {
  sanity_check_dependencies :
    string → bool → filesystem → filesystem * result ()
}.

(** ** The interpreter state and pip-accel, as the fetcher sees them *)

(** The two output channels of the process. *)
Inductive stream : Type := fd_stdout | fd_stderr.

#[global] Instance stream_eq_dec : EqDecision stream.
Proof. solve_decision. Defined.

(** A source distribution as pip-accel reports it: name, version and the
    directory it was unpacked into. *)
Definition sdist : Type := string * string * string.

Inductive pip_call : Type :=
  | InitializeDirectories
  | UnpackSourceDists (pip_arguments : list string)
  | DownloadSourceDists (pip_arguments : list string).

#[global] Instance pip_call_eq_dec : EqDecision pip_call.
Proof. solve_decision. Defined.

(** [sys.stdout] and [sys.stderr] are module attributes that can be
    reassigned; [written] records every line with the channel it went to, and
    [calls] every call into pip-accel, both in order. *)
Record py_state : Type := {
  sys_stdout : stream;
  sys_stderr : stream;
  written : list (stream * string);
  calls : list pip_call
}.

(** pip-accel is outside the repository.  The k-th call of either entry point
    prints some diagnostic lines through [sys.stdout] and then returns or
    raises. *)
Class PipAccel : Type := {
  unpack_source_dists : list string → nat → list string * result (list sdist);
  download_source_dists : list string → nat → list string * result ()
}.

Definition set_sys_stdout (target : stream) (st : py_state) : py_state :=
  {| sys_stdout := target; sys_stderr := sys_stderr st;
     written := written st; calls := calls st |}.

(** Lines printed through whatever [sys.stdout] currently is. *)
Definition print_lines (lines : list string) (st : py_state) : py_state :=
  {| sys_stdout := sys_stdout st; sys_stderr := sys_stderr st;
     written := written st ++ ((λ line, (sys_stdout st, line)) <$> lines);
     calls := calls st |}.

Definition record_call (c : pip_call) (st : py_state) : py_state :=
  {| sys_stdout := sys_stdout st; sys_stderr := sys_stderr st;
     written := written st; calls := calls st ++ [c] |}.

Definition is_unpack (c : pip_call) : bool :=
  match c with UnpackSourceDists _ => true | _ => false end.

Definition is_download (c : pip_call) : bool :=
  match c with DownloadSourceDists _ => true | _ => false end.

Definition initialize_directories (st : py_state) : py_state :=
  record_call InitializeDirectories st.

Definition call_unpack `{PipAccel} (pip_arguments : list string)
    (st : py_state) : py_state * result (list sdist) :=
  let k := length (filter is_unpack (calls st)) in
  let '(lines, r) := unpack_source_dists pip_arguments k in
  (print_lines lines (record_call (UnpackSourceDists pip_arguments) st), r).

Definition call_download `{PipAccel} (pip_arguments : list string)
    (st : py_state) : py_state * result () :=
  let k := length (filter is_download (calls st)) in
  let '(lines, r) := download_source_dists pip_arguments k in
  (print_lines lines (record_call (DownloadSourceDists pip_arguments) st), r).

(** [try: return unpack_source_dists(...)
     except DistributionNotFound: download_source_dists(...)]:
    [inl] is the returned value, [inr] means the loop goes on. *)
Definition try_unpack `{PipAccel} (pip_arguments : list string)
    (st : py_state) : py_state * result (list sdist + ()) :=
  let '(st1, r) := call_unpack pip_arguments st in
  match r with
  | Ok sdists => (st1, Ok (inl sdists))
  | Raise DistributionNotFound =>
      let '(st2, r2) := call_download pip_arguments st1 in
      match r2 with
      | Ok _ => (st2, Ok (inr ()))
      | Raise e => (st2, Raise e)
      end
  | Raise e => (st1, Raise e)
  end.

(** ** [py2deb/converter.py] *)

Module converter.

(** The attributes of [py2deb.package.Package] that the converter reads.  The
    class itself lives in [py2deb/package.py]; its derived attributes are
    taken as given fields. *)
Record Package : Type := {
  name : string;
  version : string;
  directory : string;
  debian_name : string;
  debian_file_pattern : string;
  py_dependencies : list string;
  debian_dependencies : gmap string string → list string
}.

(** [get_related_packages(pkg_name, packages)].  The function calls itself
    once per declared dependency with no record of the names already seen;
    [limit] is the number of nested calls the interpreter still allows, and
    running out of it is Python's "maximum recursion depth exceeded". *)
Fixpoint get_related_packages (limit : nat) (pkg_name : string)
    (packages : gmap string Package) : result (list string) :=
  match limit with
  | 0 => Raise (RuntimeError "maximum recursion depth exceeded")
  | S limit' =>
      match packages !! pkg_name with
      | None => Ok []
      | Some package =>
          related ← extend_each
            (λ dependency, get_related_packages limit' dependency packages)
            (py_dependencies package);
          Ok (pkg_name :: related)
      end
  end.

(** [packages[package.name] = package] for every unpacked distribution. *)
Definition packages_dict (sdists : list Package) : gmap string Package :=
  foldl (λ packages package, <[name package := package]> packages) ∅ sdists.

(** The loop that fills [to_ignore]. *)
Fixpoint ignore_loop (limit : nat) (packages : gmap string Package)
    (replacements : gmap string string)
    (items : list (string * Package)) (to_ignore : list string)
    : result (list string) :=
  match items with
  | [] => Ok to_ignore
  | (pkg_name, _) :: items' =>
      if bool_decide (pkg_name ∈ dom replacements) then
        related ← get_related_packages limit pkg_name packages;
        ignore_loop limit packages replacements items' (to_ignore ++ related)
      else ignore_loop limit packages replacements items' to_ignore
  end.

(** The loop that fills [to_build]. *)
Fixpoint build_loop (to_ignore : list string)
    (items : list (string * Package)) (to_build : list Package)
    : list Package :=
  match items with
  | [] => to_build
  | (pkg_name, package) :: items' =>
      if bool_decide (pkg_name ∉ to_ignore)
      then build_loop to_ignore items' (to_build ++ [package])
      else build_loop to_ignore items' to_build
  end.

(** [get_required_packages], from the point where [get_source_dists] has
    returned and every tuple has been wrapped in a [Package].  The order of
    [packages.iteritems()] is the dictionary's own; here it is the order of
    [map_to_list]. *)
Definition get_required_packages (limit : nat) (sdists : list Package)
    (replacements : gmap string string) : result (list Package) :=
  let packages := packages_dict sdists in
  to_ignore ← ignore_loop limit packages replacements (map_to_list packages) [];
  Ok (build_loop to_ignore (map_to_list packages) []).

(** [with RedirectOutput(target): body].  [__init__] remembers the current
    [sys.stdout], [__enter__] installs [target], and [__exit__] puts the
    remembered stream back, whether the body returned or raised. *)
Definition with_RedirectOutput {A : Type} (target : stream)
    (body : py_state → py_state * result A) (st : py_state)
    : py_state * result A :=
  let stdout := sys_stdout st in
  let '(st', r) := body (set_sys_stdout target st) in
  (set_sys_stdout stdout st', r).

(** [for i in xrange(max_retries): ... else: raise ...], with [remaining]
    iterations still to run. *)
Fixpoint retry_for `{PipAccel} (remaining : nat) (pip_arguments : list string)
    (max_retries : nat) (st : py_state) : py_state * result (list sdist) :=
  match remaining with
  | 0 =>
      (st, Raise (Exception ("pip-accel failed to get the source dists "
                             +:+ pretty max_retries +:+ " times.")))
  | S remaining' =>
      let '(st', r) := try_unpack pip_arguments st in
      match r with
      | Ok (inl sdists) => (st', Ok sdists)
      | Ok (inr _) => retry_for remaining' pip_arguments max_retries st'
      | Raise e => (st', Raise e)
      end
  end.

Definition get_source_dists `{PipAccel} (pip_arguments : list string)
    (max_retries : nat) (st : py_state) : py_state * result (list sdist) :=
  with_RedirectOutput (sys_stderr st)
    (λ st, retry_for max_retries pip_arguments max_retries
             (initialize_directories st))
    st.

(** An opened [DebFile]: its path and the control data read from it. *)
Record DebFile : Type := {
  deb_path : string;
  deb_control : Deb822
}.

(** [DebFile(path)]; what [debcontrol()] will return is read on opening. *)
Definition DebFile_open `{DebianLib} (path : string) (fs : filesystem)
    : result DebFile :=
  control ← DebFile_debcontrol path fs;
  Ok {| deb_path := path; deb_control := control |}.

Definition find_build `{Host} (package : Package) (repository : string)
    (fs : filesystem) : list string :=
  glob_glob (os_path_join repository (debian_file_pattern package)) fs.

(** The module-level switches. *)
Definition IGNORE_INSTALL_REQUIRES : bool := true.
Definition NO_GUESSING_DEPS : bool := true.

Definition debianize `{Host, Py2debUtil} (package : Package) (verbose : bool)
    (w : world) : world * result () :=
  let python := os_path_join (os_path_join sys_prefix "bin") "python" in
  let command := [python; "setup.py"; "--command-packages=stdeb.command";
                  "debianize"]
                 ++ (if IGNORE_INSTALL_REQUIRES
                     then ["--ignore-install-requires"] else []) in
  let command := String.concat " " command in
  let '(fs', status) := run command (directory package) verbose (fs w) in
  let w' := emit (Run command (directory package)) (set_fs fs' w) in
  if bool_decide (status ≠ 0%Z)
  then (w', Raise (Exception ("Failed to debianize package! ("
                              +:+ name package +:+ ")")))
  else (w', Ok ()).

(** [control_patch_cfg(package, config)]: the fields configured in the
    section named after the package, without the [script] option. *)
Definition control_patch_cfg (package : Package) (config : ConfigParser)
    : Deb822 :=
  if has_section (name package) config then
    match config_items (name package) config with
    | Ok items =>
        foldl (λ config_fields kv,
                 if bool_decide (kv.1 ≠ "script")
                 then deb822_set kv.1 kv.2 config_fields
                 else config_fields)
              [] items
    | Raise _ => []
    end
  else [].

(** What [patch_control] makes of the binary package paragraph. *)
Definition patch_paragraph `{Py2debUtil} (package : Package)
    (replacements : gmap string string) (config : ConfigParser)
    (paragraph : Deb822) : result Deb822 :=
  virtual_prefix ← config_get "general" "virtual-prefix" config;
  custom_prefix ← config_get "general" "custom-prefix" config;
  let paragraph :=
    deb822_set "Package" (transform_package_name custom_prefix (name package))
      paragraph in
  let paragraph :=
    merge_control_fields paragraph
      [("Depends",
        String.concat ", " (debian_dependencies package replacements))] in
  Ok (merge_control_fields paragraph (control_patch_cfg package config)).

Definition control_file_of (package : Package) : string :=
  os_path_join (os_path_join (directory package) "debian") "control".

(** The text of a two-paragraph control file. *)
Definition control_text `{DebianLib} (source binary : Deb822) : string :=
  deb822_dump source +:+ String "010"%char "" +:+ deb822_dump binary.

(** [patch_control].  Opening the file with mode ['w'] empties it at once, so
    an exception raised while the fields are computed leaves it empty. *)
Definition patch_control `{DebianLib, Py2debUtil} (package : Package)
    (replacements : gmap string string) (config : ConfigParser)
    (fs : filesystem) : filesystem * result () :=
  let control_file := control_file_of package in
  match read_file control_file fs with
  | Raise e => (fs, Raise e)
  | Ok content =>
      match iter_paragraphs content with
      | [source; binary] =>
          match write_file control_file "" fs with
          | Raise e => (fs, Raise e)
          | Ok fs1 =>
              match patch_paragraph package replacements config binary with
              | Raise e => (fs1, Raise e)
              | Ok binary' =>
                  match write_file control_file (control_text source binary')
                          fs1 with
                  | Ok fs2 => (fs2, Ok ())
                  | Raise e => (fs1, Raise e)
                  end
              end
          end
      | _ => (fs, Raise (AssertionError
                           ("Unexpected control file format for "
                            +:+ name package +:+ ".")))
      end
  end.

Definition apply_script `{Py2debUtil} (package : Package)
    (config : ConfigParser) (verbose : bool) (w : world)
    : world * result () :=
  if has_option (name package) "script" config then
    match config_get (name package) "script" config with
    | Raise e => (w, Raise e)
    | Ok command =>
        let '(fs', status) := run command (directory package) verbose (fs w) in
        let w' := emit (Run command (directory package)) (set_fs fs' w) in
        if bool_decide (status ≠ 0%Z)
        then (w', Raise (Exception ("Failed to apply script on "
                                    +:+ name package)))
        else (w', Ok ())
    end
  else (w, Ok ()).

(** The scan of the parent directory at the end of [build], with the [else]
    branch of its [for] loop. *)
Fixpoint scan_for_build `{Host, DebianLib} (package : Package)
    (repository parent_directory : string) (filenames : list string)
    (w : world) : world * result DebFile :=
  match filenames with
  | [] => (w, Raise (Exception ("Could not find build of "
                                +:+ debian_name package)))
  | filename :: filenames' =>
      if str_endswith filename ".deb"
         && fnmatch filename (debian_name package +:+ "_*.deb") then
        let pathname := os_path_join parent_directory filename in
        let lintian := "lintian " +:+ pipes_quote pathname in
        let '(fs1, _) := os_system lintian (fs w) in
        let w1 := emit (System lintian) (set_fs fs1 w) in
        let w2 := emit (Move pathname repository) w1 in
        match shutil_move pathname repository (fs w2) with
        | Raise e => (w2, Raise e)
        | Ok fs2 =>
            (set_fs fs2 w2,
             DebFile_open (os_path_join repository filename) fs2)
        end
      else scan_for_build package repository parent_directory filenames' w
  end.

Definition build_command : string :=
  ". /etc/environment && dpkg-buildpackage -us -uc".

Definition build `{Host, DebianLib, Py2debUtil} (package : Package)
    (repository : string) (verbose : bool) (w : world)
    : world * result DebFile :=
  let w := if NO_GUESSING_DEPS
           then set_environ "DH_OPTIONS" "--no-guessing-deps" w else w in
  let '(fs', status) := run build_command (directory package) verbose (fs w) in
  let w := emit (Run build_command (directory package)) (set_fs fs' w) in
  if bool_decide (status ≠ 0%Z)
  then (w, Raise (Exception ("Failed to build " +:+ debian_name package)))
  else
    let parent_directory := os_path_dirname (directory package) in
    scan_for_build package repository parent_directory
      (os_listdir parent_directory (fs w)) w.

(** What [build] does with the first file name that matches. *)
Definition collected `{Host, DebianLib} (package : Package) (repository parent f : string)
    (w : world) (w' : world) (r : result DebFile) : Prop :=
  let pathname := os_path_join parent f in
  let lintian := "lintian " +:+ pipes_quote pathname in
  let fs1 := (os_system lintian (fs w)).1 in
  log w' = log w ++ [System lintian; Move pathname repository] ∧
  match shutil_move pathname repository fs1 with
  | Ok fs2 => fs w' = fs2 ∧ r = DebFile_open (os_path_join repository f) fs2
  | Raise e => fs w' = fs1 ∧ r = Raise e
  end.

(** The steps of [convert] for a package that has no build in the
    repository yet, up to the [DebFile] of the new build. *)
Definition convert_unbuilt `{Host, DebianLib, Py2debUtil, PipAccelDeps}
    (package : Package) (replacements : gmap string string)
    (config : ConfigParser) (repo_dir : string) (auto_install verbose : bool)
    (w : world) : world * result DebFile :=
  let '(w1, r) := debianize package verbose w in
  match r with
  | Raise e => (w1, Raise e)
  | Ok _ =>
      let '(fs2, r) := patch_control package replacements config (fs w1) in
      let w2 := set_fs fs2 w1 in
      match r with
      | Raise e => (w2, Raise e)
      | Ok _ =>
          let '(w3, r) := apply_script package config verbose w2 in
          match r with
          | Raise e => (w3, Raise e)
          | Ok _ =>
              let '(fs4, r) :=
                sanity_check_dependencies (name package) auto_install (fs w3) in
              let w4 := emit (SanityCheck (name package) auto_install)
                          (set_fs fs4 w3) in
              match r with
              | Raise e => (w4, Raise e)
              | Ok _ => build package repo_dir verbose w4
              end
          end
      end
  end.

(** The [for package in requirements] loop of [convert]. *)
Fixpoint convert_loop `{Host, DebianLib, Py2debUtil, PipAccelDeps}
    (requirements : list Package) (replacements : gmap string string)
    (config : ConfigParser) (repo_dir : string) (auto_install verbose : bool)
    (converted : list string) (w : world) : world * result (list string) :=
  match requirements with
  | [] => (w, Ok converted)
  | package :: requirements' =>
      let result := find_build package repo_dir (fs w) in
      let '(w', debfile) :=
        match result with
        | [] => convert_unbuilt package replacements config repo_dir
                  auto_install verbose w
        | _ => (w, DebFile_open (List.last result "") (fs w))
        end in
      match debfile ≫= λ debfile, format_dependency (deb_control debfile) with
      | Raise e => (w', Raise e)
      | Ok entry =>
          convert_loop requirements' replacements config repo_dir
            auto_install verbose (converted ++ [entry]) w'
      end
  end.

End converter.

(** ** [py2deb/util/converter.py] *)

Module util_converter.

(** [i = 1; while i < max_retries: ...; i += 1] followed by the [raise].
    [fuel] bounds the number of iterations; [max_retries] of it is enough. *)
Fixpoint retry_while `{PipAccel} (fuel : nat) (i : nat)
    (pip_arguments : list string) (max_retries : nat) (st : py_state)
    : option (py_state * result (list sdist)) :=
  if bool_decide (i < max_retries) then
    match fuel with
    | 0 => None
    | S fuel' =>
        let '(st', r) := try_unpack pip_arguments st in
        match r with
        | Ok (inl sdists) => Some (st', Ok sdists)
        | Ok (inr _) => retry_while fuel' (i + 1) pip_arguments max_retries st'
        | Raise e => Some (st', Raise e)
        end
    end
  else
    Some (st, Raise (Exception ("pip failed " +:+ pretty max_retries
                                +:+ " times!"))).

Definition get_source_dists `{PipAccel} (pip_arguments : list string)
    (max_retries : nat) (st : py_state)
    : option (py_state * result (list sdist)) :=
  retry_while max_retries 1 pip_arguments max_retries
    (initialize_directories st).

(** The constants of [py2deb/config.py]. *)
Class Py2debConfig : Type := {
  PKG_REPO : string;
  DEPENDENCY_STORE : string
}.

(** A requirement as [pkg_resources] parses it. *)
Record pkg_requirement : Type := {
  project_name : string;
  key : string;
  specs : list (string * string);
  extras : list string
}.

(** [pkg_resources] is outside the repository: [Requirement.parse(line)],
    [None] standing for its [ValueError], and the constructor
    [Requirement(name, specs, extras)]. *)
Class PkgResources : Type := {
  Requirement_parse : string → option pkg_requirement;
  Requirement_new :
    string → list (string * string) → list string → pkg_requirement
}.

(** [py2deb.util.package.Requirement(req, translatable=...)]. *)
Record Requirement : Type := {
  req : pkg_requirement;
  translatable : bool
}.

(** What the converter reads of [py2deb.util.package.Package], and the
    requirements that [add_requirement] collects in it. *)
Record Package : Type := {
  name : string;
  version : string;
  directory : string;
  plname : string;
  debfile : string;
  requirements : list Requirement
}.

Record Converter : Type := {
  packages : list Package;
  builddir : string;
  requirements_file : string;
  config : ConfigParser
}.

(** The store file that belongs to a requirement file of the given content. *)
Definition dependency_file_of `{Hashlib, Py2debConfig} (content : string)
    : string :=
  os_path_join DEPENDENCY_STORE (sha1_hexdigest content +:+ ".txt").

Definition find_dependency_file `{Hashlib, Py2debConfig} (self : Converter)
    (fs : filesystem) : filesystem * result string :=
  match read_file (requirements_file self) fs with
  | Raise e => (fs, Raise e)
  | Ok content =>
      if os_path_isdir DEPENDENCY_STORE fs
      then (fs, Ok (dependency_file_of content))
      else match os_makedirs DEPENDENCY_STORE fs with
           | Ok fs' => (fs', Ok (dependency_file_of content))
           | Raise e => (fs, Raise e)
           end
  end.

(** The loop of [persist_dependencies] that fills [deplist]. *)
Fixpoint collect_deplist `{DebianLib, Py2debConfig} (pkgs : list Package)
    (fs : filesystem) (deplist : list string) : result (list string) :=
  match pkgs with
  | [] => Ok deplist
  | pkg :: pkgs' =>
      control ← DebFile_debcontrol (os_path_join PKG_REPO (debfile pkg)) fs;
      entry ← format_dependency control;
      collect_deplist pkgs' fs (deplist ++ [entry])
  end.

Definition persist_dependencies `{Hashlib, DebianLib, Py2debConfig}
    (self : Converter) (fs : filesystem) : filesystem * result () :=
  match collect_deplist (packages self) fs [] with
  | Raise e => (fs, Raise e)
  | Ok deplist =>
      let '(fs1, r) := find_dependency_file self fs in
      match r with
      | Raise e => (fs1, Raise e)
      | Ok dependency_file =>
          match write_file dependency_file (String.concat ", " deplist) fs1 with
          | Ok fs2 => (fs2, Ok ())
          | Raise e => (fs1, Raise e)
          end
      end
  end.

(** [compact(text)] of [py2deb/util/__init__.py], which is not among the
    sources. *)
Class UtilModule : Type := { compact : string → string }.

Fixpoint spaces (n : nat) : string :=
  match n with
  | 0 => ""
  | S n' => String " " (spaces n')
  end.

(** The string literal handed to [compact] in [recall_dependencies]; its
    continuation lines are indented by 38 spaces. *)
Definition not_yet_converted_text : string :=
  "Could not recall dependencies: " +:+ spaces 38
  +:+ "This requirements file has not yet been " +:+ spaces 38
  +:+ "converted with py2deb on this machine.".

(** The exception that tells the caller to convert first. *)
Definition not_yet_converted `{UtilModule} : exn :=
  Exception (compact not_yet_converted_text).

Definition recall_dependencies `{Hashlib, Py2debConfig, UtilModule}
    (self : Converter) (fs : filesystem) : filesystem * result string :=
  let '(fs1, r) := find_dependency_file self fs in
  match r with
  | Raise e => (fs1, Raise e)
  | Ok dependency_file =>
      if negb (os_path_isfile dependency_file fs1)
      then (fs1, Raise not_yet_converted)
      else (fs1, read_file dependency_file fs1)
  end.

(** The properties and methods of [py2deb.util.package.Package] that the
    converter uses; [py2deb/util/package.py] is not among the sources. *)
Class PackageModule : Type := {
  is_built : Package → filesystem → bool;
  add_requirement : Package → Requirement → Package;
  control_patch : Package → Deb822
}.

Definition _install_build_dep `{Host} (pkgs : list string) (w : world)
    : world * result () :=
  let args := ["sudo"; "apt-get"; "install"; "-y"] ++ pkgs in
  let '(fs', _, returncode) := popen_wait args (cwd w) (fs w) in
  let w' := emit (Popen args (cwd w)) (set_fs fs' w) in
  if bool_decide (returncode > 0)%Z
  then (w', Raise (Exception ("Failed to install build dependencies: "
                              +:+ repr_tuple pkgs)))
  else (w', Ok ()).

Definition install_build_dep `{Host} (self : Converter) (package : Package)
    (w : world) : world * result () :=
  if has_option (name package) "build-depends" (config self) then
    match config_get (name package) "build-depends" (config self) with
    | Raise e => (w, Raise e)
    | Ok bdep => _install_build_dep (str_split bdep) w
    end
  else (w, Ok ()).

Definition apply_workarounds (package : Package) (w : world)
    : world * result () :=
  if bool_decide (str_lower (name package) = "fabric") then
    let directory := os_path_join (directory package) "paramiko" in
    if os_path_isdir directory (fs w) then
      match shutil_rmtree directory (fs w) with
      | Ok fs' => (emit (Rmtree directory) (set_fs fs' w), Ok ())
      | Raise e => (w, Raise e)
      end
    else (w, Ok ())
  else (w, Ok ()).

Definition debianize `{Host} (package : Package) (w : world)
    : world * result () :=
  let w := os_chdir (directory package) w in
  let python := os_path_join (os_path_join sys_prefix "bin") "python" in
  let args := [python; "setup.py"; "--command-packages=stdeb.command";
               "debianize"; "--ignore-install-requires"] in
  let '(fs', output, returncode) := popen_wait args (cwd w) (fs w) in
  let w := emit (Popen args (cwd w)) (set_fs fs' w) in
  if bool_decide (returncode > 0)%Z
  then (emit (Print output) w,
        Raise (Exception ("Failed to debianize " +:+ name package)))
  else (w, Ok ()).

(** The loop of [parse_egg_req] over the lines of requires.txt. *)
Fixpoint requires_loop `{PkgResources, PackageModule} (config : ConfigParser)
    (lines : list string) (package : Package) : Package * result () :=
  match lines with
  | [] => (package, Ok ())
  | line :: lines' =>
      if bool_decide (str_strip line = "") then
        requires_loop config lines' package
      else if str_startswith line "[" then (package, Ok ())
      else
        match Requirement_parse line with
        | None => (package, Raise (ValueError line))
        | Some req =>
            if has_option "replacements" (key req) config then
              match config_get "replacements" (key req) config with
              | Raise e => (package, Raise e)
              | Ok name =>
                  let req := Requirement_new name (specs req) (extras req) in
                  requires_loop config lines'
                    (add_requirement package
                       {| req := req; translatable := false |})
              end
            else
              requires_loop config lines'
                (add_requirement package {| req := req; translatable := true |})
        end
  end.

Definition egg_requires_pattern (package : Package) : string :=
  os_path_join (directory package) "pip-egg-info/*.egg-info/requires.txt".

Definition parse_egg_req `{Host, PkgResources, PackageModule}
    (self : Converter) (package : Package) (fs : filesystem)
    : Package * result () :=
  let matches := glob_glob (egg_requires_pattern package) fs in
  match matches with
  | [requires] =>
      match read_file requires fs with
      | Raise e => (package, Raise e)
      | Ok content => requires_loop (config self) (readlines content) package
      end
  | _ => (package, Ok ())
  end.

Definition rules_patch : string :=
  String "010"%char "override_dh_python2:" +:+ String "010"%char ""
  +:+ String "009"%char "dh_python2 --no-guessing-deps"
  +:+ String "010"%char "".

(** The search of [patch_rules] for the first line that holds "%:". *)
Fixpoint find_rule (i : nat) (remaining : list string) : option nat :=
  match remaining with
  | [] => None
  | line :: remaining' =>
      if str_contains line "%:" then Some i else find_rule (S i) remaining'
  end.

Definition patch_rules (package : Package) (fs : filesystem)
    : filesystem * result () :=
  let rules_file := os_path_join (os_path_join (directory package) "debian")
                      "rules" in
  match read_file rules_file fs with
  | Raise e => (fs, Raise e)
  | Ok content =>
      let lines := readlines content in
      match find_rule 0 lines with
      | None => (fs, Raise (Exception ("Failed to patch " +:+ rules_file)))
      | Some i =>
          let lines := py_list_insert (Z.of_nat i - 1) rules_patch lines in
          match write_file rules_file (String.concat "" lines) fs with
          | Ok fs' => (fs', Ok ())
          | Raise e => (fs, Raise e)
          end
      end
  end.

(** [_control_patch(pkg_name)]: the configured fields, their names in title
    case, without [build-depends]. *)
Definition _control_patch (self : Converter) (pkg_name : string) : Deb822 :=
  let fields :=
    if has_section pkg_name (config self) then
      match config_items pkg_name (config self) with
      | Ok items => items
      | Raise _ => []
      end
    else [] in
  foldl (λ d kv, deb822_set kv.1 kv.2 d) []
    ((λ kv : string * string, (str_title kv.1, kv.2))
       <$> filter (λ kv : string * string,
                     str_lower kv.1 ≠ "build-depends") fields).

(** [for field in d: paragraph.merge_fields(field, d)]. *)
Definition merge_each (d : Deb822) (paragraph : Deb822) : Deb822 :=
  foldl (λ paragraph kv, merge_fields kv.1 d paragraph) paragraph d.

Definition patch_paragraph `{PackageModule} (self : Converter)
    (package : Package) (paragraph : Deb822) : Deb822 :=
  let control_dict_conf := _control_patch self (name package) in
  let control_dict_pkg := control_patch package in
  let paragraph := merge_each control_dict_conf paragraph in
  let paragraph := merge_each control_dict_pkg paragraph in
  deb822_set "Package" (plname package) paragraph.

Definition control_file_of (package : Package) : string :=
  os_path_join (os_path_join (directory package) "debian") "control".

Definition patch_control `{DebianLib, PackageModule} (self : Converter)
    (package : Package) (fs : filesystem) : filesystem * result () :=
  let control_file := control_file_of package in
  match read_file control_file fs with
  | Raise e => (fs, Raise e)
  | Ok content =>
      match iter_paragraphs content with
      | [source; binary] =>
          match write_file control_file "" fs with
          | Raise e => (fs, Raise e)
          | Ok fs1 =>
              let binary' := patch_paragraph self package binary in
              match write_file control_file
                      (deb822_dump source +:+ String "010"%char ""
                       +:+ deb822_dump binary') fs1 with
              | Ok fs2 => (fs2, Ok ())
              | Raise e => (fs1, Raise e)
              end
          end
      | _ => (fs, Raise (AssertionError
                           ("Unexpected control file format for "
                            +:+ name package +:+ ".")))
      end
  end.

(** The scan of the top directory at the end of [build], with the [else]
    branch of its [for] loop. *)
Fixpoint scan_for_build `{Py2debConfig} (package : Package) (topdir : string)
    (items : list string) (w : world) : world * result () :=
  match items with
  | [] => (w, Raise (Exception ("Could not find build of "
                                +:+ plname package)))
  | item :: items' =>
      if fnmatch item (plname package +:+ "_*.deb") then
        let source := os_path_join topdir item in
        let w1 := emit (Move source PKG_REPO) w in
        match shutil_move source PKG_REPO (fs w1) with
        | Raise e => (w1, Raise e)
        | Ok fs' =>
            (emit (Print ("Moved " +:+ item +:+ " to " +:+ PKG_REPO))
               (set_fs fs' w1),
             Ok ())
        end
      else scan_for_build package topdir items' w
  end.

Definition build `{Host, Py2debConfig} (package : Package) (w : world)
    : world * result () :=
  let w := os_chdir (directory package) w in
  let args := ["dpkg-buildpackage"; "-us"; "-uc"] in
  let '(fs', _, returncode) := popen_wait args (cwd w) (fs w) in
  let w := emit (Popen args (cwd w)) (set_fs fs' w) in
  if bool_decide (returncode > 0)%Z
  then (w, Raise (Exception ("Failed to build " +:+ plname package)))
  else
    let topdir := os_path_dirname (directory package) in
    scan_for_build package topdir (os_listdir topdir (fs w)) w.

(** Lifting a step on the file system to the world. *)
Definition on_fs {A : Type} (step : filesystem → filesystem * result A)
    (w : world) : world * result A :=
  let '(fs', r) := step (fs w) in (set_fs fs' w, r).

(** The body of the loop of [convert] for a package that is not built. *)
Definition convert_package
    `{Host, DebianLib, Py2debConfig, PkgResources, PackageModule}
    (self : Converter) (package : Package) (w : world)
    : world * Package * result () :=
  let w := emit (Print ("Converting " +:+ name package +:+ "-"
                        +:+ version package +:+ " ...")) w in
  let '(w, r) := apply_workarounds package w in
  match r with Raise e => (w, package, Raise e) | Ok _ =>
  let '(w, r) := debianize package w in
  match r with Raise e => (w, package, Raise e) | Ok _ =>
  let '(package, r) := parse_egg_req self package (fs w) in
  match r with Raise e => (w, package, Raise e) | Ok _ =>
  let '(w, r) := on_fs (patch_rules package) w in
  match r with Raise e => (w, package, Raise e) | Ok _ =>
  let '(w, r) := on_fs (patch_control self package) w in
  match r with Raise e => (w, package, Raise e) | Ok _ =>
  let '(w, r) := install_build_dep self package w in
  match r with Raise e => (w, package, Raise e) | Ok _ =>
  let '(w, r) := build package w in
  match r with Raise e => (w, package, Raise e) | Ok _ =>
  (emit (Print ("Converted " +:+ name package +:+ "-" +:+ version package
                +:+ " to " +:+ debfile package)) w,
   package, Ok ())
  end end end end end end end.

(** The [for package in self.packages] loop of [convert]; [done] collects
    the packages already gone through, as [parse_egg_req] leaves them. *)
Fixpoint convert_loop
    `{Host, DebianLib, Py2debConfig, PkgResources, PackageModule}
    (self : Converter) (pkgs : list Package) (done : list Package) (w : world)
    : world * list Package * result () :=
  match pkgs with
  | [] => (w, done, Ok ())
  | package :: pkgs' =>
      if is_built package (fs w) then
        let w' := emit (Print (plname package
                               +:+ " is already built, skipping...")) w in
        convert_loop self pkgs' (done ++ [package]) w'
      else
        let '(w', package', r) := convert_package self package w in
        match r with
        | Raise e => (w', done ++ package' :: pkgs', Raise e)
        | Ok _ => convert_loop self pkgs' (done ++ [package']) w'
        end
  end.

(** The lines of requires.txt that stand for requirements: the lines before
    the first one that begins with a bracket, blank lines left out. *)
Definition requirement_lines (content : string) : list string :=
  filter (λ line, str_strip line ≠ "")
    (take_while (λ line, negb (str_startswith line "[")) (readlines content)).

(** The requirement recorded for a parsed line: under the replacement's name
    and not translatable when the configuration replaces it, as parsed and
    translatable otherwise. *)
Definition as_requirement `{PkgResources} (config : ConfigParser)
    (parsed : pkg_requirement) : Requirement :=
  match config !! "replacements" ≫= (λ options, options !! str_lower (key parsed)) with
  | Some replacement =>
      {| req := Requirement_new replacement (specs parsed) (extras parsed);
         translatable := false |}
  | None => {| req := parsed; translatable := true |}
  end.

End util_converter.

(** pip-accel finding nothing, ever, and a pip-accel that prints one line and
    succeeds at once. *)
Module fetcher_examples.

Definition always_not_found : PipAccel :=
  {| unpack_source_dists := λ _ _, ([], Raise DistributionNotFound);
     download_source_dists := λ _ _, ([], Ok ()) |}.

Definition chatty_pip : PipAccel :=
  {| unpack_source_dists := λ _ _,
       (["Unpacking ./alpha-1.0.tar.gz"],
        Ok [("alpha", "1.0", "/tmp/py2deb_build/alpha")]);
     download_source_dists := λ _ _, ([], Ok ()) |}.

Definition fresh_state : py_state :=
  {| sys_stdout := fd_stdout; sys_stderr := fd_stderr;
     written := []; calls := [] |}.

(** The calls of [n] failed attempts, each followed by a download. *)
Fixpoint failed_attempts (n : nat) (pip_arguments : list string)
    : list pip_call :=
  match n with
  | 0 => []
  | S n' => UnpackSourceDists pip_arguments
            :: DownloadSourceDists pip_arguments
            :: failed_attempts n' pip_arguments
  end.

End fetcher_examples.

(** ** The dependency closure, as a relation *)

Module closure.
Import converter.

(** [related packages a x]: [x] is in the closure of the candidate [a]:
    [a] itself, or in the closure of one of its declared dependencies. *)
Inductive related (packages : gmap string Package) : string → string → Prop :=
  | related_self a p :
      packages !! a = Some p → related packages a a
  | related_dep a p d x :
      packages !! a = Some p → d ∈ py_dependencies p →
      related packages d x → related packages a x.

(** [a] is a candidate and declares the dependency [b]. *)
Definition dep_edge (packages : gmap string Package) (a b : string) : Prop :=
  ∃ p, packages !! a = Some p ∧ b ∈ py_dependencies p.

Definition acyclic (packages : gmap string Package) : Prop :=
  ∀ a, ¬ tc (dep_edge packages) a a.

(** No dependency cycle can be reached from [root]. *)
Definition acyclic_from (packages : gmap string Package) (root : string)
    : Prop :=
  ∀ a, rtc (dep_edge packages) root a → ¬ tc (dep_edge packages) a a.

(** The names that [get_required_packages] must leave out. *)
Definition ignored (packages : gmap string Package)
    (replacements : gmap string string) (x : string) : Prop :=
  ∃ a, a ∈ dom replacements ∧ related packages a x.

End closure.

(** Small candidate maps used to exercise the resolver. *)
Module resolver_examples.
Import converter.

Definition candidate (n : string) (deps : list string) : Package :=
  {| name := n; version := "1.0"; directory := "/tmp/py2deb_build/" +:+ n;
     debian_name := "python-" +:+ n;
     debian_file_pattern := "python-" +:+ n +:+ "_*.deb";
     py_dependencies := deps;
     debian_dependencies := λ _, (λ d, "python-" +:+ d) <$> deps |}.

(** alpha depends on beta, and beta on alpha. *)
Definition cyclic_sdists : list Package :=
  [candidate "alpha" ["beta"]; candidate "beta" ["alpha"]].

(** gamma lists itself; delta stands alone. *)
Definition selfloop_sdists : list Package :=
  [candidate "gamma" ["gamma"]; candidate "delta" []].

(** alpha depends on beta; beta has no dependency. *)
Definition chain_sdists : list Package :=
  [candidate "alpha" ["beta"]; candidate "beta" []].

Definition rank_chain (n : string) : nat :=
  if String.eqb n "alpha" then 1 else 0.

End resolver_examples.

(** A small stand-in for python-debian, enough to run the converter on
    paragraphs whose fields fit on one line: a paragraph is written as
    "Name: value" lines and paragraphs are separated by an empty line. *)
Module simple_deb822.

Definition dump_field (kv : string * string) : string :=
  kv.1 +:+ ": " +:+ kv.2 +:+ String "010"%char "".

Definition dump (d : Deb822) : string := String.concat "" (dump_field <$> d).

(** Splits "Name: value" at the first colon. *)
Fixpoint parse_field_go (k : string) (s : string) : option (string * string) :=
  match s with
  | EmptyString => None
  | String c s' =>
      if bool_decide (c = ":"%char) then Some (k, str_strip s')
      else parse_field_go (k +:+ String c "") s'
  end.

Fixpoint parse_go (cur : Deb822) (lines : list string) : list Deb822 :=
  match lines with
  | [] => match cur with [] => [] | _ => [cur] end
  | line :: lines' =>
      if bool_decide (str_strip line = "") then
        match cur with
        | [] => parse_go [] lines'
        | _ => cur :: parse_go [] lines'
        end
      else match parse_field_go "" line with
           | Some kv => parse_go (cur ++ [kv]) lines'
           | None => parse_go cur lines'
           end
  end.

Definition parse (text : string) : list Deb822 := parse_go [] (readlines text).

(** The archive content is taken to be its control paragraph, as text. *)
Definition control_of (content : string) : option Deb822 :=
  match parse content with
  | [d] => Some d
  | _ => None
  end.

Definition lib : DebianLib :=
  {| deb_control_of := control_of; iter_paragraphs := parse;
     deb822_dump := dump |}.

End simple_deb822.

(** A requirement file, two built packages in the repository, and the
    converter that has just built them. *)
Module store_examples.
Import util_converter.

(** Not SHA-1: any function of the content will do to run the store. *)
Definition toy_digest : Hashlib :=
  {| sha1_hexdigest := λ content, "c0ffee" +:+ pretty (String.length content) |}.

(** Runs of white space become one space. *)
Definition squeeze : UtilModule :=
  {| compact := λ text, String.concat " " (str_split text) |}.

Definition paths : Py2debConfig :=
  {| PKG_REPO := "/var/repo"; DEPENDENCY_STORE := "/var/lib/py2deb" |}.

Definition alpha : Package :=
  {| name := "alpha"; version := "1.0";
     directory := "/tmp/py2deb_x/alpha"; plname := "pl-python-alpha";
     debfile := "pl-python-alpha_1.0-1_all.deb"; requirements := [] |}.

Definition beta : Package :=
  {| name := "beta"; version := "2.1";
     directory := "/tmp/py2deb_x/beta"; plname := "pl-python-beta";
     debfile := "pl-python-beta_2.1-1_all.deb"; requirements := [] |}.

Definition converter_self : Converter :=
  {| packages := [alpha; beta]; builddir := "/tmp/py2deb_x";
     requirements_file := "/src/requirements.txt"; config := ∅ |}.

Definition disk : filesystem :=
  {| files :=
       <["/src/requirements.txt" := "alpha==1.0"]>
       (<["/var/repo/pl-python-alpha_1.0-1_all.deb" :=
            simple_deb822.dump [("Package", "pl-python-alpha"); ("Version", "1.0-1")]]>
       (<["/var/repo/pl-python-beta_2.1-1_all.deb" :=
            simple_deb822.dump [("Package", "pl-python-beta"); ("Version", "2.1-1")]]>
        ∅));
     dirs := {["/var/repo"]} |}.

Definition content : string := "alpha==1.0".

Definition deplist : list string :=
  ["pl-python-alpha (=1.0-1)"; "pl-python-beta (=2.1-1)"].

Definition store_file : string := @dependency_file_of toy_digest paths content.

End store_examples.

(** A package unpacked under /tmp/py2deb_x, its control file as stdeb wrote
    it, and a configuration with a section for it. *)
Module patch_examples.
Import converter.

Definition util : Py2debUtil :=
  {| transform_package_name := λ prefix name, prefix +:+ "-" +:+ name;
     run := λ _ _ _ fs, (fs, 0%Z) |}.

Definition alpha : Package :=
  {| name := "alpha"; version := "1.0";
     directory := "/tmp/py2deb_x/alpha";
     debian_name := "python-alpha";
     debian_file_pattern := "python-alpha_*.deb";
     py_dependencies := ["beta"];
     debian_dependencies := λ _, ["python-beta"] |}.

Definition config : ConfigParser :=
  {[ "general" := {[ "virtual-prefix" := "python"; "custom-prefix" := "python" ]};
     "alpha" := {[ "section" := "misc"; "script" := "make clean" ]} ]}.

Definition source : Deb822 :=
  [("Source", "alpha"); ("Maintainer", "someone")].

Definition binary : Deb822 :=
  [("Package", "python-alpha"); ("Section", "python");
   ("Depends", "${misc:Depends}")].

Definition patched : Deb822 :=
  [("Package", "python-alpha"); ("Section", "misc");
   ("Depends", "python-beta")].

Definition disk : filesystem :=
  {| files := {[ "/tmp/py2deb_x/alpha/debian/control" :=
                   @control_text simple_deb822.lib source binary ]};
     dirs := {[ "/tmp/py2deb_x"; "/tmp/py2deb_x/alpha";
                "/tmp/py2deb_x/alpha/debian" ]} |}.

End patch_examples.

(** The older converter with a configuration that has a section for alpha. *)
Module legacy_examples.
Import util_converter.

Definition alpha : Package := store_examples.alpha.

Definition package_module : PackageModule :=
  {| is_built := λ pkg fs,
       os_path_isfile (os_path_join "/var/repo" (debfile pkg)) fs;
     add_requirement := λ pkg r,
       {| name := name pkg; version := version pkg;
          directory := directory pkg; plname := plname pkg;
          debfile := debfile pkg;
          requirements := requirements pkg ++ [r] |};
     control_patch := λ pkg, [("Depends", "pl-python-beta")] |}.

Definition self : Converter :=
  {| packages := [alpha]; builddir := "/tmp/py2deb_x";
     requirements_file := "/src/requirements.txt";
     config := {[ "alpha" := {[ "section" := "misc";
                                "script" := "make clean";
                                "build-depends" := "libfoo-dev" ]} ]} |}.

Definition binary : Deb822 :=
  [("Package", "python-alpha"); ("Section", "python")].

End legacy_examples.

(** A host whose listings are computed from the paths of the files, and a
    build command that leaves one package file next to the source
    directory. *)
Module build_examples.
Import converter.

Definition host : Host :=
  {| sys_prefix := "/usr";
     os_system := λ _ fs, (fs, 0%Z);
     popen_wait := λ _ _ fs, (fs, "", 0%Z);
     os_listdir := λ dir fs,
       os_path_basename <$>
         filter (λ p, os_path_dirname p = dir) (map_to_list (files fs)).*1;
     glob_glob := λ pattern fs,
       filter (λ p, fnmatch p pattern) (map_to_list (files fs)).*1;
     pipes_quote := λ s, s |}.

Definition built_control : Deb822 :=
  [("Package", "python-alpha"); ("Version", "1.0-1")].

Definition util : Py2debUtil :=
  {| transform_package_name := λ prefix name, prefix +:+ "-" +:+ name;
     run := λ command directory _ fs,
       if String.eqb command build_command then
         ({| files := <[os_path_join (os_path_dirname directory)
                          "python-alpha_1.0-1_all.deb"
                        := simple_deb822.dump built_control]> (files fs);
             dirs := dirs fs |}, 0%Z)
       else (fs, 0%Z) |}.

Definition deps : PipAccelDeps :=
  {| sanity_check_dependencies := λ _ _ fs, (fs, Ok ()) |}.

Definition alpha : Package := patch_examples.alpha.

Definition start : world :=
  {| fs := {| files := files patch_examples.disk;
              dirs := {["/var/repo"]} ∪ dirs patch_examples.disk |};
     environ := ∅; cwd := "/"; log := [] |}.

(** The repository already holds a build of alpha. *)
Definition stocked : world :=
  {| fs := {| files := <["/var/repo/python-alpha_0.9-1_all.deb" :=
                           simple_deb822.dump
                             [("Package", "python-alpha"); ("Version", "0.9-1")]]>
                       (files patch_examples.disk);
              dirs := {["/var/repo"]} ∪ dirs patch_examples.disk |};
     environ := ∅; cwd := "/"; log := [] |}.

End build_examples.

(** A package with one requires.txt under pip-egg-info, and a configuration
    that replaces beta. *)
Module egg_examples.
Import util_converter.

(** A parser for lines that hold a bare project name. *)
Definition resources : PkgResources :=
  {| Requirement_parse := λ line,
       let n := str_strip line in
       if bool_decide (n = "") then None
       else Some {| project_name := n; key := str_lower n;
                    specs := []; extras := [] |};
     Requirement_new := λ n sp ex,
       {| project_name := n; key := str_lower n; specs := sp; extras := ex |} |}.

Definition self : Converter :=
  {| packages := [legacy_examples.alpha]; builddir := "/tmp/py2deb_x";
     requirements_file := "/src/requirements.txt";
     config := {[ "replacements" := {[ "beta" := "libbeta" ]} ]} |}.

Definition requires_txt : string :=
  "Beta" +:+ String "010"%char "" +:+ String "010"%char ""
  +:+ "gamma" +:+ String "010"%char ""
  +:+ "[extra]" +:+ String "010"%char ""
  +:+ "delta" +:+ String "010"%char "".

Definition disk : filesystem :=
  {| files := {[ "/tmp/py2deb_x/alpha/pip-egg-info/alpha.egg-info/requires.txt"
                 := requires_txt ]};
     dirs := ∅ |}.

Definition parsed : list pkg_requirement :=
  [ {| project_name := "Beta"; key := "beta"; specs := []; extras := [] |};
    {| project_name := "gamma"; key := "gamma"; specs := []; extras := [] |} ].

End egg_examples.

(** A pip-accel that finds the distributions at its third attempt, and one
    whose first attempt fails for another reason. *)
Module retry_examples.

Definition found_at_third : PipAccel :=
  {| unpack_source_dists := λ _ k,
       if bool_decide (k < 2)
       then (["No distributions found"], Raise DistributionNotFound)
       else ([], Ok [("alpha", "1.0", "/tmp/py2deb_build/alpha")]);
     download_source_dists := λ _ _, (["Downloading alpha"], Ok ()) |}.

Definition broken_pip : PipAccel :=
  {| unpack_source_dists := λ _ _, ([], Raise (OSError "/root/.pip-accel"));
     download_source_dists := λ _ _, ([], Ok ()) |}.

End retry_examples.

(** ** [py2deb/converter.py], the remaining functions *)

Module converter_rest.
Import converter.

(** [patch_rules(package)]; [convert] has its call commented out.  The line
    search and the patch text are those of the older converter. *)
Definition patch_rules (package : Package) (fs : filesystem)
    : filesystem * result () :=
  let rules_file := os_path_join (os_path_join (directory package) "debian")
                      "rules" in
  match read_file rules_file fs with
  | Raise e => (fs, Raise e)
  | Ok content =>
      let lines := readlines content in
      match util_converter.find_rule 0 lines with
      | None => (fs, Raise (Exception ("Failed to patch " +:+ rules_file)))
      | Some i =>
          let lines := py_list_insert (Z.of_nat i - 1)
                         util_converter.rules_patch lines in
          match write_file rules_file (String.concat "" lines) fs with
          | Ok fs' => (fs', Ok ())
          | Raise e => (fs, Raise e)
          end
      end
  end.

(** [os.path.abspath(path)], which depends on the working directory. *)
Class OsPath : Type := { os_path_abspath : string → string → string }.

(** [convert] from [converted = []] on: the repository directory, the loop
    over the required packages, and the removal of the build directory,
    which is reached only when the loop has not raised. *)
Definition convert_tail
    `{Host, DebianLib, Py2debUtil, PipAccelDeps, OsPath}
    (requirements : list Package) (replacements : gmap string string)
    (config : ConfigParser) (build_dir : string)
    (auto_install verbose : bool) (w : world)
    : world * result (list string) :=
  match config_get "general" "repository" config with
  | Raise e => (w, Raise e)
  | Ok repository =>
      let repo_dir := os_path_abspath repository (cwd w) in
      let '(w1, r) := convert_loop requirements replacements config repo_dir
                        auto_install verbose [] w in
      match r with
      | Raise e => (w1, Raise e)
      | Ok converted =>
          match shutil_rmtree build_dir (fs w1) with
          | Raise e => (w1, Raise e)
          | Ok fs' => (emit (Rmtree build_dir) (set_fs fs' w1), Ok converted)
          end
      end
  end.

(** The events that the steps of the loop of [convert] record. *)
Definition loop_event (e : event) : Prop :=
  match e with
  | Run _ _ | System _ | Move _ _ | SanityCheck _ _ => True
  | _ => False
  end.

(** The log of [w'] is the log of [w] followed by events of the loop. *)
Definition extends_log (w w' : world) : Prop :=
  ∃ events, log w' = log w ++ events ∧ Forall loop_event events.

End converter_rest.

(** A configuration without the custom prefix, a stdeb that fails, and a
    working directory for absolute paths. *)
Module convert_examples.
Import converter converter_rest.

Definition config_without_prefix : ConfigParser :=
  {[ "general" := {[ "virtual-prefix" := "python" ]} ]}.

Definition config_with_repository : ConfigParser :=
  {[ "general" := {[ "virtual-prefix" := "python"; "custom-prefix" := "python";
                     "repository" := "/var/repo" ]} ]}.

Definition failing_util : Py2debUtil :=
  {| transform_package_name := λ prefix name, prefix +:+ "-" +:+ name;
     run := λ _ _ _ fs, (fs, 1%Z) |}.

Definition paths_from_cwd : OsPath :=
  {| os_path_abspath := λ path cwd,
       if str_startswith path "/" then path else os_path_join cwd path |}.

(** A control file with a single paragraph. *)
Definition one_paragraph_disk : filesystem :=
  {| files := {[ "/tmp/py2deb_x/alpha/debian/control" :=
                   simple_deb822.dump patch_examples.source ]};
     dirs := ∅ |}.

End convert_examples.

(** The rest of [py2deb/util/converter.py]. *)
Module util_converter_rest.
Import util_converter.

(** [preinstall]: the words of every value of the [preinstall] section, in
    one call of [_install_build_dep]. *)
Definition preinstall `{Host} (self : Converter) (w : world)
    : world * result () :=
  if has_section "preinstall" (config self) then
    match config_items "preinstall" (config self) with
    | Raise e => (w, Raise e)
    | Ok items =>
        let dependencies :=
          foldl (λ dependencies kv, dependencies ++ str_split kv.2) []
            items in
        _install_build_dep dependencies w
    end
  else (w, Ok ()).

Fixpoint has_space (s : string) : bool :=
  match s with
  | EmptyString => false
  | String c s' => is_space c || has_space s'
  end.

(** A word: not empty, and without white space. *)
Definition is_word (s : string) : Prop := s ≠ "" ∧ has_space s = false.

(** The index at which [patch_rules] inserts its patch, when [before] holds
    the lines above the first line with "%:" and [after] the lines below. *)
Definition patch_position (before after : list string) : nat :=
  match before with
  | [] => length after
  | _ :: _ => length before - 1
  end.

End util_converter_rest.

Module legacy_more_examples.
Import util_converter util_converter_rest.

Definition newline : string := String "010"%char "".

(** The repository without the build of beta. *)
Definition disk_without_beta : filesystem :=
  {| files := delete "/var/repo/pl-python-beta_2.1-1_all.deb"
                (files store_examples.disk);
     dirs := dirs store_examples.disk |}.

Definition rules_text : string :=
  "#!/usr/bin/make -f" +:+ newline +:+ newline
  +:+ "%:" +:+ newline
  +:+ String "009"%char "dh $@" +:+ newline.

Definition rules_disk : filesystem :=
  {| files := {[ "/tmp/py2deb_x/alpha/debian/rules" := rules_text ]};
     dirs := {[ "/tmp/py2deb_x/alpha/debian" ]} |}.

(** A rules file without a pattern rule. *)
Definition plain_rules_disk : filesystem :=
  {| files := {[ "/tmp/py2deb_x/alpha/debian/rules" :=
                   "all:" +:+ newline ]};
     dirs := {[ "/tmp/py2deb_x/alpha/debian" ]} |}.

Definition preinstall_self : Converter :=
  {| packages := []; builddir := "/tmp/py2deb_x";
     requirements_file := "/src/requirements.txt";
     config := {[ "preinstall" := {[ "mysql" := "libmysqlclient-dev  gcc" ]} ]} |}.

Definition at_root (fs0 : filesystem) : world :=
  {| fs := fs0; environ := ∅; cwd := "/"; log := [] |}.

Definition fabric : Package :=
  {| name := "Fabric"; version := "1.4";
     directory := "/tmp/py2deb_x/Fabric"; plname := "pl-python-fabric";
     debfile := "pl-python-fabric_1.4-1_all.deb"; requirements := [] |}.

Definition fabric_disk : filesystem :=
  {| files := {[ "/tmp/py2deb_x/Fabric/paramiko/agent.py" := "pass";
                 "/tmp/py2deb_x/Fabric/setup.py" := "pass" ]};
     dirs := {[ "/tmp/py2deb_x/Fabric"; "/tmp/py2deb_x/Fabric/paramiko" ]} |}.

End legacy_more_examples.

(** * Theorems *)

Section extend_each_facts.
Context {A B : Type} (f : A → result (list B)).

Lemma extend_each_Ok l r :
  extend_each f l = Ok r ↔
  ∃ rs, Forall2 (λ x rx, f x = Ok rx) l rs ∧ r = mjoin rs.
Proof.
  revert r; induction l as [|x l IH]; intros r; simpl.
  - split.
    + intros [= <-]. exists []. split; [constructor | done].
    + intros (rs & H & ->). by inversion H.
  - split.
    + destruct (f x) as [rx|] eqn:Hx; simpl; [|done].
      destruct (extend_each f l) as [rl|] eqn:Hl; simpl; [|done].
      intros [= <-]. destruct (proj1 (IH rl) eq_refl) as (rs & Hrs & ->).
      exists (rx :: rs). split; [by constructor | done].
    + intros (rs & H & ->). inversion H as [|? rx ? rs' Hx Hrs]; subst.
      rewrite Hx; simpl.
      rewrite (proj2 (IH (mjoin rs')) (ex_intro _ rs' (conj Hrs eq_refl))).
      done.
Qed.

Lemma extend_each_total l :
  (∀ x, x ∈ l → ∃ rx, f x = Ok rx) → ∃ r, extend_each f l = Ok r.
Proof.
  induction l as [|x l IH]; intros H; simpl; [by eexists|].
  destruct (H x) as [rx ->]; [left|]. simpl.
  destruct IH as [rl ->]; [intros; apply H; by right|]. simpl. by eexists.
Qed.
End extend_each_facts.

Section closure_facts.
Import converter closure.
Context (packages : gmap string Package).

Lemma related_candidate a x : related packages a x → is_Some (packages !! a).
Proof. destruct 1; eauto. Qed.

Lemma path_length_bound (path : list string) :
  NoDup path → (∀ x, x ∈ path → is_Some (packages !! x)) →
  length path ≤ size packages.
Proof.
  intros Hnd Hin. rewrite <- (size_dom (D := gset string)).
  apply (submseteq_length path (elements (dom packages))).
  apply NoDup_submseteq; [done|].
  intros x Hx. apply elem_of_elements, elem_of_dom. auto.
Qed.

(** Along any chain of nested calls the names are pairwise different when
    no cycle can be reached, so the chain is no longer than the map. *)
Lemma get_related_packages_returns_on_path limit root :
  acyclic_from packages root →
  ∀ (path : list string) (n : string),
    rtc (dep_edge packages) root n →
    NoDup path →
    (∀ x, x ∈ path → is_Some (packages !! x) ∧ tc (dep_edge packages) x n) →
    size packages < limit + length path →
    ∃ r, get_related_packages limit n packages = Ok r.
Proof.
  intros Hacyc. induction limit as [|limit IH];
    intros path n Hreach Hnd Hpath Hsz.
  - exfalso. pose proof (path_length_bound path Hnd) as Hle.
    specialize (Hle (λ x Hx, proj1 (Hpath x Hx))). simpl in Hsz. lia.
  - simpl. destruct (packages !! n) as [p|] eqn:Hn; [|by eexists].
    assert (n ∉ path) as Hfresh.
    { intros Hin. destruct (Hpath n Hin) as [_ Hcyc]. by apply (Hacyc n). }
    destruct (extend_each_total
      (λ dependency, get_related_packages limit dependency packages)
      (py_dependencies p)) as [rel Hrel].
    + intros d Hd. apply (IH (n :: path) d).
      * eapply rtc_r; [exact Hreach|]. by exists p.
      * by constructor.
      * intros x [->|Hx]%elem_of_cons.
        { split; [by eexists|]. apply tc_once. by exists p. }
        destruct (Hpath x Hx) as [Hc Htc]. split; [done|].
        eapply tc_r; [exact Htc|]. by exists p.
      * simpl. lia.
    + rewrite Hrel. simpl. by eexists.
Qed.

Lemma get_related_packages_returns limit n :
  acyclic_from packages n → size packages < limit →
  ∃ r, get_related_packages limit n packages = Ok r.
Proof.
  intros Hacyc Hsz.
  apply (get_related_packages_returns_on_path limit n Hacyc [] n).
  - done.
  - constructor.
  - intros x Hx. by apply elem_of_nil in Hx.
  - simpl. lia.
Qed.

(** Conversely, a call that returns has met no cycle. *)
Lemma get_related_packages_returned_acyclic limit :
  ∀ n r, get_related_packages limit n packages = Ok r →
         acyclic_from packages n.
Proof.
  induction limit as [|limit IH]; intros n r; simpl; [done|].
  destruct (packages !! n) as [p|] eqn:Hn.
  - destruct (extend_each _ _) as [rel|] eqn:Hrel; simpl; [|done].
    intros _. apply extend_each_Ok in Hrel as (rs & Hrs & _).
    assert (∀ d, d ∈ py_dependencies p → acyclic_from packages d) as Hdeps.
    { intros d [i Hi]%list_elem_of_lookup.
      destruct (Forall2_lookup_l _ _ _ _ _ Hrs Hi) as (l & _ & Hcall).
      by apply (IH d l). }
    intros a Hreach Hcyc.
    apply rtc_inv in Hreach as [<-|(d & (p' & Hp' & Hd) & Hda)].
    + inversion Hcyc as [? ? (p' & Hp' & Hd)|? d ? (p' & Hp' & Hd) Hdn];
        subst; assert (p' = p) as -> by congruence.
      * by apply (Hdeps n Hd n).
      * apply (Hdeps d Hd d); [done|].
        eapply tc_rtc_l; [apply tc_rtc, Hdn|]. apply tc_once. by exists p.
    + assert (p' = p) as -> by congruence. by apply (Hdeps d Hd a).
  - intros _ a Hreach Hcyc.
    assert (∀ x y, tc (dep_edge packages) x y → is_Some (packages !! x)) as Hsrc.
    { intros x y Hxy. destruct Hxy as [? ? (q & Hq & _)|? ? ? (q & Hq & _)];
        by eexists. }
    apply rtc_inv in Hreach as [<-|(d & (p' & Hp' & _) & _)]; [|congruence].
    destruct (Hsrc _ _ Hcyc). congruence.
Qed.

(** Whatever list the function returns holds exactly the closure. *)
Lemma get_related_packages_related limit :
  ∀ n r, get_related_packages limit n packages = Ok r →
         ∀ x, x ∈ r ↔ related packages n x.
Proof.
  induction limit as [|limit IH]; intros n r; simpl; [done|].
  destruct (packages !! n) as [p|] eqn:Hn.
  - destruct (extend_each _ _) as [rel|] eqn:Hrel; simpl; [|done].
    intros [= <-] x. apply extend_each_Ok in Hrel as (rs & Hrs & ->).
    rewrite elem_of_cons, list_elem_of_join. split.
    + intros [->|(l & Hxl & Hl)]; [by eapply related_self|].
      apply list_elem_of_lookup in Hl as [i Hi].
      destruct (Forall2_lookup_r _ _ _ _ _ Hrs Hi) as (d & Hd & Hcall).
      eapply related_dep; [done| |].
      * apply list_elem_of_lookup. eauto.
      * by apply (IH d l).
    + intros Hr. inversion Hr as [a p' Ha|a p' d x' Ha Hd Hdx]; subst;
        [by left|right].
      assert (p' = p) as -> by congruence.
      apply list_elem_of_lookup in Hd as [i Hi].
      destruct (Forall2_lookup_l _ _ _ _ _ Hrs Hi) as (l & Hl & Hcall).
      exists l. split; [by apply (IH d l)|].
      apply list_elem_of_lookup. eauto.
  - intros [= <-] x. split; [by intros ?%elem_of_nil|].
    intros Hr. inversion Hr; congruence.
Qed.
End closure_facts.

Section resolver_facts.
Import converter closure.
Context (packages : gmap string Package) (replacements : gmap string string).

Lemma acyclic_ranked (rank : string → nat) :
  (∀ a b, dep_edge packages a b → rank b < rank a) → acyclic packages.
Proof.
  intros Hrank a Hcyc.
  assert (∀ x y, tc (dep_edge packages) x y → rank y < rank x) as Hlt.
  { induction 1 as [x y Hxy|x y z Hxy _ IH]; [by apply Hrank|].
    specialize (Hrank _ _ Hxy). lia. }
  specialize (Hlt _ _ Hcyc). lia.
Qed.

Lemma ignore_loop_calls limit items :
  ∀ acc res,
    ignore_loop limit packages replacements items acc = Ok res →
    ∀ a, a ∈ items.*1 → a ∈ dom replacements →
         ∃ r, get_related_packages limit a packages = Ok r.
Proof.
  induction items as [|[n p] items IH]; intros acc res; simpl.
  - intros _ a Ha. by apply elem_of_nil in Ha.
  - case_bool_decide as Hn.
    + destruct (get_related_packages limit n packages) as [r|] eqn:Hr;
        simpl; [|done].
      intros Hloop a [->|Ha]%elem_of_cons Hrepl; [by eexists|]. eauto.
    + intros Hloop a [->|Ha]%elem_of_cons Hrepl; [done|]. eauto.
Qed.

Lemma ignore_loop_related limit items :
  ∀ acc res,
    ignore_loop limit packages replacements items acc = Ok res →
    ∀ x, x ∈ res ↔
         x ∈ acc ∨ ∃ a, a ∈ items.*1 ∧ a ∈ dom replacements ∧
                        related packages a x.
Proof.
  induction items as [|[n p] items IH]; intros acc res; simpl.
  - intros [= <-] x. split; [by left|].
    intros [?|(a & Ha & _)]; [done|]. by apply elem_of_nil in Ha.
  - case_bool_decide as Hn.
    + destruct (get_related_packages limit n packages) as [r|] eqn:Hr;
        simpl; [|done].
      intros Hloop x. rewrite (IH _ _ Hloop x), elem_of_app.
      rewrite (get_related_packages_related packages limit n r Hr x).
      split.
      * intros [[?|?]|(a & Ha & Hrepl & Hrel)]; [by left| |].
        { right. exists n. split; [left|done]. }
        right. exists a. split; [by right|done].
      * intros [?|(a & [->|Ha]%elem_of_cons & Hrepl & Hrel)];
          [by left; left|by left; right|].
        right. by exists a.
    + intros Hloop x. rewrite (IH _ _ Hloop x). split.
      * intros [?|(a & Ha & Hrepl & Hrel)]; [by left|].
        right. exists a. split; [by right|done].
      * intros [?|(a & [->|Ha]%elem_of_cons & Hrepl & Hrel)];
          [by left|done|].
        right. by exists a.
Qed.

Lemma ignore_loop_returns limit items :
  (∀ a, a ∈ dom replacements → acyclic_from packages a) →
  size packages < limit →
  ∀ acc, ∃ res, ignore_loop limit packages replacements items acc = Ok res.
Proof.
  intros Hacyc Hsz. induction items as [|[n p] items IH]; intros acc; simpl.
  - by eexists.
  - case_bool_decide as Hn; [|apply IH].
    destruct (get_related_packages_returns packages limit n (Hacyc n Hn) Hsz)
      as [r ->].
    simpl. apply IH.
Qed.

Lemma acyclic_acyclic_from root : acyclic packages → acyclic_from packages root.
Proof. intros Hacyc a _. apply Hacyc. Qed.

Lemma build_loop_filter to_ignore items :
  ∀ acc, build_loop to_ignore items acc =
         acc ++ (filter (λ it, it.1 ∉ to_ignore) items).*2.
Proof.
  induction items as [|[n p] items IH]; intros acc; simpl.
  - by rewrite app_nil_r.
  - rewrite filter_cons. simpl.
    destruct (decide (n ∉ to_ignore)) as [Hn|Hn].
    + rewrite bool_decide_eq_true_2 by done. rewrite IH. simpl.
      by rewrite <- app_assoc.
    + rewrite bool_decide_eq_false_2 by done. by rewrite IH.
Qed.
End resolver_facts.

Section resolver_examples_facts.
Import converter closure resolver_examples.

Lemma cyclic_never_returns limit :
  ∀ n, n = "alpha" ∨ n = "beta" →
       get_related_packages limit n (packages_dict cyclic_sdists) =
       Raise (RuntimeError "maximum recursion depth exceeded").
Proof.
  induction limit as [|limit IH]; intros n Hn; [done|].
  destruct Hn as [-> | ->]; cbn [get_related_packages].
  - replace (packages_dict cyclic_sdists !! "alpha")
      with (Some (candidate "alpha" ["beta"])) by (by vm_compute).
    cbn [py_dependencies candidate extend_each]. rewrite IH by auto. done.
  - replace (packages_dict cyclic_sdists !! "beta")
      with (Some (candidate "beta" ["alpha"])) by (by vm_compute).
    cbn [py_dependencies candidate extend_each]. rewrite IH by auto. done.
Qed.

Lemma selfloop_never_returns limit :
  get_related_packages limit "gamma" (packages_dict selfloop_sdists) =
  Raise (RuntimeError "maximum recursion depth exceeded").
Proof.
  induction limit as [|limit IH]; [done|]. cbn [get_related_packages].
  replace (packages_dict selfloop_sdists !! "gamma")
    with (Some (candidate "gamma" ["gamma"])) by (by vm_compute).
  cbn [py_dependencies candidate extend_each]. rewrite IH. done.
Qed.

Lemma chain_acyclic : acyclic (packages_dict chain_sdists).
Proof.
  apply (acyclic_ranked _ rank_chain). intros a b (p & Hp & Hb).
  unfold packages_dict, chain_sdists in Hp. simpl in Hp.
  apply lookup_insert_Some in Hp as [[<- <-]|[_ Hp]].
  { by apply elem_of_nil in Hb. }
  apply lookup_insert_Some in Hp as [[<- <-]|[_ Hp]]; [|done].
  simpl in Hb. apply list_elem_of_singleton in Hb as ->. vm_compute. lia.
Qed.
End resolver_examples_facts.

(** ** Dependency resolution: the claims *)

Section resolver_claims.
Import converter closure resolver_examples.

(** C1, as stated, fails: with "gamma" replaced and "gamma" listing itself
    as a dependency, [get_required_packages] returns no build set at all,
    whatever recursion depth the interpreter allows, although "delta" is
    outside every closure. *)
Lemma get_required_packages_selfloop_no_result :
  ¬ ∃ limit to_build,
      get_required_packages limit selfloop_sdists {["gamma" := "libgamma"]}
      = Ok to_build.
Proof.
  intros (limit & to_build & H). unfold get_required_packages in H.
  cbv zeta in H.
  destruct (ignore_loop limit (packages_dict selfloop_sdists)
              {["gamma" := "libgamma"]}
              (map_to_list (packages_dict selfloop_sdists)) [])
    as [ig|] eqn:Hig; [|done].
  destruct (ignore_loop_calls _ _ _ _ _ _ Hig "gamma") as [r Hr].
  - apply list_elem_of_fmap. exists ("gamma", candidate "gamma" ["gamma"]).
    split; [done|]. apply elem_of_map_to_list. by vm_compute.
  - apply elem_of_dom. rewrite lookup_singleton_eq. by eexists.
  - by rewrite selfloop_never_returns in Hr.
Qed.

(** C1, amended: when no dependency cycle can be reached from a name listed
    in the replacement map and the interpreter allows more nested calls than
    there are candidates, [get_required_packages] returns exactly the
    candidates whose names are in no closure of a candidate listed in the
    replacement map, each once. *)
Theorem get_required_packages_exact
    (limit : nat) (sdists : list Package)
    (replacements : gmap string string) :
  (∀ a, a ∈ dom replacements → acyclic_from (packages_dict sdists) a) →
  size (packages_dict sdists) < limit →
  ∃ kept : list (string * Package),
    get_required_packages limit sdists replacements = Ok (kept.*2) ∧
    NoDup (kept.*1) ∧
    ∀ n p, (n, p) ∈ kept ↔
           packages_dict sdists !! n = Some p ∧
           ¬ ignored (packages_dict sdists) replacements n.
Proof.
  intros Hacyc Hsz. set (packages := packages_dict sdists) in *.
  destruct (ignore_loop_returns packages replacements limit
              (map_to_list packages) Hacyc Hsz []) as [ig Hig].
  exists (filter (λ it, it.1 ∉ ig) (map_to_list packages)).
  split; [|split].
  - unfold get_required_packages. fold packages. cbv zeta.
    rewrite Hig. simpl. by rewrite build_loop_filter.
  - eapply sublist_NoDup; [apply (NoDup_fst_map_to_list packages)|].
    apply fmap_sublist, sublist_filter.
  - intros n p. rewrite list_elem_of_filter, elem_of_map_to_list. simpl.
    rewrite (ignore_loop_related _ _ _ _ _ _ Hig n).
    split.
    + intros [Hig' Hn]. split; [done|].
      intros (a & Ha & Hrel). apply Hig'. right. exists a.
      split; [|done].
      destruct (related_candidate _ _ _ Hrel) as [pa Hpa].
      apply list_elem_of_fmap. exists (a, pa).
      split; [done|]. by apply elem_of_map_to_list.
    + intros [Hn Hig']. split; [|done].
      intros [Hnil|(a & _ & Ha & Hrel)]; [by apply elem_of_nil in Hnil|].
      apply Hig'. by exists a.
Qed.

Lemma get_required_packages_exact_witness :
  (∀ a, a ∈ dom ({["beta" := "system-libbeta"]} : gmap string string) →
        acyclic_from (packages_dict chain_sdists) a) ∧
  size (packages_dict chain_sdists) < 3 ∧
  ∃ kept : list (string * Package),
    get_required_packages 3 chain_sdists {["beta" := "system-libbeta"]}
    = Ok (kept.*2) ∧
    NoDup (kept.*1) ∧
    ∀ n p, (n, p) ∈ kept ↔
           packages_dict chain_sdists !! n = Some p ∧
           ¬ ignored (packages_dict chain_sdists)
               {["beta" := "system-libbeta"]} n.
Proof.
  assert (size (packages_dict chain_sdists) < 3) as Hsz.
  { vm_compute. lia. }
  assert (∀ a, a ∈ dom ({["beta" := "system-libbeta"]} : gmap string string) →
               acyclic_from (packages_dict chain_sdists) a) as Hacyc.
  { intros a _. apply acyclic_acyclic_from, chain_acyclic. }
  split; [exact Hacyc|]. split; [exact Hsz|].
  exact (get_required_packages_exact 3 chain_sdists
           {["beta" := "system-libbeta"]} Hacyc Hsz).
Defined.

(** C2, as stated, fails: on the two-package cycle (alpha depends on beta,
    beta on alpha) [get_related_packages] keeps no record of visited names
    and never produces a closure; every recursion depth is used up. *)
Lemma get_related_packages_cycle_no_result :
  ¬ ∃ limit related,
      get_related_packages limit "alpha" (packages_dict cyclic_sdists)
      = Ok related.
Proof.
  intros (limit & related & H).
  rewrite cyclic_never_returns in H by auto. done.
Qed.

(** C2, amended: when no dependency cycle can be reached from the name,
    [get_related_packages] returns once the interpreter allows more nested
    calls than there are candidates, and the list it returns holds exactly
    the closure of that name.  ([get_related_packages_returned_acyclic] is the
    converse: a call that returns has met no cycle.) *)
Theorem get_related_packages_terminates_acyclic
    (packages : gmap string Package) (limit : nat) (pkg_name : string) :
  acyclic_from packages pkg_name →
  size packages < limit →
  ∃ related_names,
    get_related_packages limit pkg_name packages = Ok related_names ∧
    ∀ x, x ∈ related_names ↔ related packages pkg_name x.
Proof.
  intros Hacyc Hsz.
  destruct (get_related_packages_returns packages limit pkg_name Hacyc Hsz)
    as [r Hr].
  exists r. split; [done|].
  by apply (get_related_packages_related packages limit).
Qed.

Lemma get_related_packages_terminates_acyclic_witness :
  acyclic_from (packages_dict chain_sdists) "alpha" ∧
  size (packages_dict chain_sdists) < 3 ∧
  ∃ related_names,
    get_related_packages 3 "alpha" (packages_dict chain_sdists)
    = Ok related_names ∧
    ∀ x, x ∈ related_names ↔
         related (packages_dict chain_sdists) "alpha" x.
Proof.
  assert (size (packages_dict chain_sdists) < 3) as Hsz.
  { vm_compute. lia. }
  assert (acyclic_from (packages_dict chain_sdists) "alpha") as Hacyc
    by apply acyclic_acyclic_from, chain_acyclic.
  split; [exact Hacyc|]. split; [exact Hsz|].
  exact (get_related_packages_terminates_acyclic
           (packages_dict chain_sdists) 3 "alpha" Hacyc Hsz).
Defined.

(** The spec's scenario: alpha depends on beta and beta is replaced; only
    alpha is built. *)
Example replaced_dependency_scenario :
  get_required_packages 3 chain_sdists {["beta" := "system-libbeta"]}
  = Ok [candidate "alpha" ["beta"]].
Proof. by vm_compute. Qed.
End resolver_claims.

(** ** Fetching: retries and output redirection *)

Section fetcher_facts.
Import fetcher_examples.
Context `{PipAccel}.

(** One [try]/[except] round leaves [sys.stdout] and [sys.stderr] alone and
    prints only through the current [sys.stdout]. *)
Lemma try_unpack_prints pip_arguments st :
  ∀ st' r, try_unpack pip_arguments st = (st', r) →
    sys_stdout st' = sys_stdout st ∧ sys_stderr st' = sys_stderr st ∧
    ∃ lines, written st' = written st ++ ((λ l, (sys_stdout st, l)) <$> lines).
Proof.
  intros st' r. unfold try_unpack, call_unpack, call_download.
  destruct (unpack_source_dists _ _) as [lines1 [sd|e]]; simpl.
  - intros [= <- <-]. simpl. repeat split. by exists lines1.
  - destruct (download_source_dists _ _) as [lines2 [[]|e2]] eqn:Hd;
      destruct e; simpl; rewrite ?Hd; intros [= <- <-]; simpl;
      repeat split; try (by exists lines1).
    all: exists (lines1 ++ lines2); by rewrite fmap_app, app_assoc.
Qed.

Lemma retry_for_prints remaining pip_arguments max_retries :
  ∀ st st' r,
    converter.retry_for remaining pip_arguments max_retries st = (st', r) →
    sys_stdout st' = sys_stdout st ∧ sys_stderr st' = sys_stderr st ∧
    ∃ lines, written st' = written st ++ ((λ l, (sys_stdout st, l)) <$> lines).
Proof.
  induction remaining as [|n IH]; intros st st' r; simpl.
  - intros [= <- <-]. repeat split. exists []. by rewrite app_nil_r.
  - destruct (try_unpack pip_arguments st) as [st1 r1] eqn:Htry.
    destruct (try_unpack_prints _ _ _ _ Htry) as (Ho & He & lines1 & Hw).
    destruct r1 as [[sd|[]]|e].
    + intros [= <- <-]. repeat split; [done..|]. by exists lines1.
    + intros Hrec. destruct (IH _ _ _ Hrec) as (Ho' & He' & lines2 & Hw').
      repeat split; [congruence..|]. exists (lines1 ++ lines2).
      rewrite Hw', Hw, Ho, fmap_app. by rewrite app_assoc.
    + intros [= <- <-]. repeat split; [done..|]. by exists lines1.
Qed.

(** When every attempt raises [DistributionNotFound] (and the download that
    follows returns), the [for] loop makes one attempt per iteration. *)
Lemma retry_for_not_found remaining pip_arguments max_retries :
  (∀ k, (unpack_source_dists pip_arguments k).2 = Raise DistributionNotFound) →
  (∀ k, (download_source_dists pip_arguments k).2 = Ok ()) →
  ∀ st, ∃ st',
    converter.retry_for remaining pip_arguments max_retries st =
      (st', Raise (Exception ("pip-accel failed to get the source dists "
                              +:+ pretty max_retries +:+ " times."))) ∧
    calls st' = calls st ++ failed_attempts remaining pip_arguments.
Proof.
  intros Hnf Hdl. induction remaining as [|n IH]; intros st; simpl.
  - exists st. by rewrite app_nil_r.
  - unfold try_unpack, call_unpack.
    specialize (Hnf (length (filter is_unpack (calls st)))).
    destruct (unpack_source_dists _ _) as [lines1 r1]. simpl in Hnf. subst r1.
    unfold call_download. simpl.
    match goal with |- context [download_source_dists _ ?k] =>
      specialize (Hdl k); destruct (download_source_dists pip_arguments k)
        as [lines2 r2] end.
    simpl in Hdl. subst r2.
    match goal with |- context [converter.retry_for n _ _ ?s] =>
      destruct (IH s) as (st' & -> & Hc) end.
    exists st'. split; [done|]. rewrite Hc. simpl.
    by rewrite <- !app_assoc.
Qed.

(** The [while] loop of the older converter starts counting at 1 and stops
    before [max_retries], so it runs [max_retries - i] times. *)
Lemma retry_while_not_found fuel pip_arguments max_retries :
  (∀ k, (unpack_source_dists pip_arguments k).2 = Raise DistributionNotFound) →
  (∀ k, (download_source_dists pip_arguments k).2 = Ok ()) →
  ∀ i st, max_retries ≤ fuel + i → ∃ st',
    util_converter.retry_while fuel i pip_arguments max_retries st =
      Some (st', Raise (Exception ("pip failed " +:+ pretty max_retries
                                   +:+ " times!"))) ∧
    calls st' = calls st ++ failed_attempts (max_retries - i) pip_arguments.
Proof.
  intros Hnf Hdl. induction fuel as [|fuel IH]; intros i st Hfuel.
  - simpl. rewrite bool_decide_eq_false_2 by lia.
    exists st. replace (max_retries - i) with 0 by lia.
    by rewrite app_nil_r.
  - cbn [util_converter.retry_while]. case_bool_decide as Hi.
    + unfold try_unpack, call_unpack.
      specialize (Hnf (length (filter is_unpack (calls st)))).
      destruct (unpack_source_dists _ _) as [lines1 r1]. simpl in Hnf.
      subst r1. unfold call_download. simpl.
      match goal with |- context [download_source_dists _ ?k] =>
        specialize (Hdl k); destruct (download_source_dists pip_arguments k)
          as [lines2 r2] end.
      simpl in Hdl. subst r2.
      match goal with
      | |- context [util_converter.retry_while fuel _ _ _ ?s] =>
          destruct (IH (i + 1) s) as (st' & -> & Hc); [lia|]
      end.
      exists st'. split; [done|]. rewrite Hc. simpl.
      replace (max_retries - i) with (S (max_retries - (i + 1))) by lia.
      simpl. by rewrite <- !app_assoc.
    + exists st. replace (max_retries - i) with 0 by lia.
      by rewrite app_nil_r.
Qed.

Lemma failed_attempts_unpacks n pip_arguments :
  length (filter is_unpack (failed_attempts n pip_arguments)) = n.
Proof.
  induction n as [|n IH]; [done|]. cbn [failed_attempts].
  rewrite !filter_cons. simpl. by rewrite IH.
Qed.

Lemma failed_attempts_downloads n pip_arguments :
  length (filter is_download (failed_attempts n pip_arguments)) = n.
Proof.
  induction n as [|n IH]; [done|]. cbn [failed_attempts].
  rewrite !filter_cons. simpl. by rewrite IH.
Qed.
End fetcher_facts.

Lemma filter_none {A : Type} (P : A → Prop) `{!∀ x, Decision (P x)}
    (l : list A) :
  Forall (λ x, ¬ P x) l → filter P l = [].
Proof.
  induction 1 as [|x l Hx _ IH]; [done|]. by rewrite filter_cons_False.
Qed.

Section fetcher_claims.
Import fetcher_examples.

(** The module-level [get_source_dists] does what C3 says: with every attempt
    raising [DistributionNotFound] it makes [max_retries] attempts, each
    followed by a download, and then raises. *)
Lemma get_source_dists_attempts `{PipAccel} pip_arguments max_retries st :
  (∀ k, (unpack_source_dists pip_arguments k).2 = Raise DistributionNotFound) →
  (∀ k, (download_source_dists pip_arguments k).2 = Ok ()) →
  ∃ st',
    converter.get_source_dists pip_arguments max_retries st =
      (st', Raise (Exception ("pip-accel failed to get the source dists "
                              +:+ pretty max_retries +:+ " times."))) ∧
    calls st' = calls st ++ InitializeDirectories
                  :: failed_attempts max_retries pip_arguments.
Proof.
  intros Hnf Hdl. unfold converter.get_source_dists, converter.with_RedirectOutput.
  destruct (retry_for_not_found max_retries pip_arguments max_retries Hnf Hdl
              (initialize_directories (set_sys_stdout (sys_stderr st) st)))
    as (st' & -> & Hc).
  eexists. split; [done|]. simpl. rewrite Hc. simpl.
  by rewrite <- app_assoc.
Qed.

(** C3 (code bug): [Converter.get_source_dists] of [py2deb/util/converter.py],
    run with the default bound of 10 against a pip-accel that never finds the
    distributions, unpacks 9 times, not 10, and then reports that pip failed
    10 times. *)
Theorem Converter_get_source_dists_nine_attempts
    (pip_arguments : list string) (st : py_state) :
  ∃ st',
    @util_converter.get_source_dists always_not_found pip_arguments 10 st =
      Some (st', Raise (Exception "pip failed 10 times!")) ∧
    calls st' = calls st ++ InitializeDirectories
                  :: failed_attempts 9 pip_arguments ∧
    length (filter is_unpack (calls st')) =
      length (filter is_unpack (calls st)) + 9 ∧
    length (filter is_download (calls st')) =
      length (filter is_download (calls st)) + 9.
Proof.
  unfold util_converter.get_source_dists.
  destruct (@retry_while_not_found always_not_found 10 pip_arguments 10
              (λ _, eq_refl) (λ _, eq_refl) 1 (initialize_directories st))
    as (st' & Hrun & Hc); [lia|].
  exists st'. split; [exact Hrun|]. simpl in Hc.
  assert (calls st' = calls st ++ InitializeDirectories
                        :: failed_attempts 9 pip_arguments) as Hcalls.
  { rewrite Hc. by rewrite <- app_assoc. }
  split; [exact Hcalls|]. rewrite Hcalls, !filter_app, !length_app.
  change (filter is_unpack (InitializeDirectories :: ?l))
    with (filter is_unpack l).
  change (filter is_download (InitializeDirectories :: ?l))
    with (filter is_download l).
  by rewrite failed_attempts_unpacks, failed_attempts_downloads.
Qed.

(** The sibling function at the same input: ten attempts. *)
Lemma get_source_dists_ten_attempts (pip_arguments : list string) st :
  ∃ st',
    @converter.get_source_dists always_not_found pip_arguments 10 st =
      (st', Raise (Exception
                     "pip-accel failed to get the source dists 10 times.")) ∧
    calls st' = calls st ++ InitializeDirectories
                  :: failed_attempts 10 pip_arguments.
Proof.
  exact (@get_source_dists_attempts always_not_found pip_arguments 10 st
           (λ _, eq_refl) (λ _, eq_refl)).
Qed.

(** C9, as stated, fails for [Converter.get_source_dists] of
    [py2deb/util/converter.py]: it installs no redirection, so a line that
    pip-accel prints while unpacking lands on standard output. *)
Lemma Converter_get_source_dists_prints_on_stdout :
  ∃ st' r,
    @util_converter.get_source_dists chatty_pip
      ["install"; "--ignore-installed"] 10 fresh_state = Some (st', r) ∧
    (fd_stdout, "Unpacking ./alpha-1.0.tar.gz") ∈ written st'.
Proof.
  eexists _, _. split; [by vm_compute|]. simpl. by left.
Qed.

(** C9, amended to the module-level [get_source_dists] of
    [py2deb/converter.py]: every line pip-accel prints while the function runs
    goes to the stream that [sys.stderr] named at entry, nothing new reaches
    the stream that [sys.stdout] named at entry, and [sys.stdout] names that
    stream again afterwards, whether the function returned or raised. *)
Theorem get_source_dists_redirects_output `{PipAccel}
    (pip_arguments : list string) (max_retries : nat) (st : py_state) :
  sys_stderr st ≠ sys_stdout st →
  ∀ st' r,
    converter.get_source_dists pip_arguments max_retries st = (st', r) →
    sys_stdout st' = sys_stdout st ∧
    (∃ lines,
        written st' = written st ++ ((λ l, (sys_stderr st, l)) <$> lines)) ∧
    filter (λ w, w.1 = sys_stdout st) (written st') =
    filter (λ w, w.1 = sys_stdout st) (written st).
Proof.
  intros Hne st' r. unfold converter.get_source_dists, converter.with_RedirectOutput.
  destruct (converter.retry_for _ _ _ _) as [st1 r1] eqn:Hrun.
  intros [= <- <-].
  destruct (retry_for_prints _ _ _ _ _ _ Hrun) as (_ & _ & lines & Hw).
  simpl in Hw. split; [done|]. split; [by exists lines|].
  simpl. rewrite Hw, filter_app.
  rewrite (filter_none _ (_ <$> lines)), app_nil_r; [done|].
  apply Forall_fmap, Forall_forall. intros l _. simpl. done.
Qed.

Lemma get_source_dists_redirects_output_witness :
  sys_stderr fresh_state ≠ sys_stdout fresh_state ∧
  ∀ st' r,
    @converter.get_source_dists chatty_pip
      ["install"; "--ignore-installed"] 10 fresh_state = (st', r) →
    sys_stdout st' = sys_stdout fresh_state ∧
    (∃ lines,
        written st' =
        written fresh_state ++ ((λ l, (sys_stderr fresh_state, l)) <$> lines)) ∧
    filter (λ w, w.1 = sys_stdout fresh_state) (written st') =
    filter (λ w, w.1 = sys_stdout fresh_state) (written fresh_state).
Proof.
  assert (sys_stderr fresh_state ≠ sys_stdout fresh_state) as Hne by done.
  split; [exact Hne|].
  exact (@get_source_dists_redirects_output chatty_pip
           ["install"; "--ignore-installed"] 10 fresh_state Hne).
Defined.
End fetcher_claims.

(** ** The result store *)

Section result_store_facts.
Import util_converter.
Context `{Hashlib, DebianLib, Py2debConfig, UtilModule}.

Lemma find_dependency_file_ok self fs content :
  files fs !! requirements_file self = Some content →
  DEPENDENCY_STORE ∈ dirs fs ∨ files fs !! DEPENDENCY_STORE = None →
  ∃ fs', find_dependency_file self fs = (fs', Ok (dependency_file_of content)) ∧
         files fs' = files fs ∧ dirs fs' = {[DEPENDENCY_STORE]} ∪ dirs fs.
Proof.
  intros Hreq Hstore. unfold find_dependency_file, read_file. rewrite Hreq.
  unfold os_path_isdir. case_bool_decide as Hdir.
  - exists fs. repeat split. symmetry. apply subseteq_union_1_L.
    by apply singleton_subseteq_l.
  - destruct Hstore as [?|Hnone]; [done|].
    unfold os_makedirs, os_path_isfile.
    rewrite bool_decide_eq_false_2.
    + eexists. repeat split.
    + rewrite Hnone. by intros [? ?].
Qed.

Lemma recall_dependencies_hit self fs content stored :
  files fs !! requirements_file self = Some content →
  DEPENDENCY_STORE ∈ dirs fs →
  files fs !! dependency_file_of content = Some stored →
  recall_dependencies self fs = (fs, Ok stored).
Proof.
  intros Hreq Hdir Hfile. unfold recall_dependencies, find_dependency_file.
  unfold read_file at 1. rewrite Hreq. unfold os_path_isdir.
  rewrite bool_decide_eq_true_2 by done.
  unfold os_path_isfile. rewrite bool_decide_eq_true_2 by (by eexists).
  simpl. unfold read_file. by rewrite Hfile.
Qed.

Lemma recall_dependencies_miss self fs content :
  files fs !! requirements_file self = Some content →
  DEPENDENCY_STORE ∈ dirs fs ∨ files fs !! DEPENDENCY_STORE = None →
  files fs !! dependency_file_of content = None →
  ∃ fs', recall_dependencies self fs = (fs', Raise not_yet_converted)
         ∧ files fs' = files fs.
Proof.
  intros Hreq Hstore Hfile. unfold recall_dependencies.
  destruct (find_dependency_file_ok self fs content Hreq Hstore)
    as (fs' & -> & Hfiles & _).
  unfold os_path_isfile. rewrite Hfiles, Hfile.
  rewrite bool_decide_eq_false_2 by (by intros [? ?]).
  simpl. by exists fs'.
Qed.
End result_store_facts.

Section result_store_claims.
Import util_converter store_examples.

(** C4: persisting the converted dependencies writes the comma-joined
    "name (=version)" entries to the file of the dependency store named by the
    SHA-1 hex digest of the requirement file's content, and recalling with a
    requirement file of the same content returns exactly that string; with no
    file for the content in the store, recalling raises the "not yet
    converted" exception and returns nothing. *)
Theorem persist_then_recall `{Hashlib, DebianLib, Py2debConfig, UtilModule}
    (self : Converter) (fs : filesystem) (content : string)
    (deplist : list string) :
  files fs !! requirements_file self = Some content →
  collect_deplist (packages self) fs [] = Ok deplist →
  DEPENDENCY_STORE ∈ dirs fs ∨ files fs !! DEPENDENCY_STORE = None →
  dependency_file_of content ∉ dirs fs →
  dependency_file_of content ≠ DEPENDENCY_STORE →
  ∃ fs',
    persist_dependencies self fs = (fs', Ok ()) ∧
    files fs' !! os_path_join DEPENDENCY_STORE
                   (sha1_hexdigest content +:+ ".txt")
      = Some (String.concat ", " deplist) ∧
    (∀ self', files fs' !! requirements_file self' = Some content →
              recall_dependencies self' fs'
              = (fs', Ok (String.concat ", " deplist))) ∧
    (∀ self' fs0 content',
        files fs0 !! requirements_file self' = Some content' →
        DEPENDENCY_STORE ∈ dirs fs0 ∨ files fs0 !! DEPENDENCY_STORE = None →
        files fs0 !! dependency_file_of content' = None →
        ∃ fs1, recall_dependencies self' fs0
               = (fs1, Raise not_yet_converted)).
Proof.
  intros Hreq Hdeps Hstore Hnodir Hne. unfold persist_dependencies.
  rewrite Hdeps.
  destruct (find_dependency_file_ok self fs content Hreq Hstore)
    as (fs1 & -> & Hfiles & Hdirs).
  unfold write_file, os_path_isdir.
  rewrite bool_decide_eq_false_2.
  2:{ rewrite Hdirs. apply not_elem_of_union. split; [|done].
      by apply not_elem_of_singleton. }
  eexists. split; [done|]. simpl. split; [|split].
  - fold (dependency_file_of content). by rewrite lookup_insert_eq.
  - intros self' Hreq'. apply (recall_dependencies_hit self' _ content).
    + done.
    + simpl. rewrite Hdirs. by apply elem_of_union_l, elem_of_singleton.
    + simpl. by rewrite lookup_insert_eq.
  - intros self' fs0 content' Hreq' Hstore' Hnone.
    destruct (recall_dependencies_miss self' fs0 content' Hreq' Hstore' Hnone)
      as (fs1' & Hr & _).
    by exists fs1'.
Qed.

Lemma persist_then_recall_witness :
  files disk !! requirements_file converter_self = Some content ∧
  @collect_deplist simple_deb822.lib paths (packages converter_self) disk []
    = Ok deplist ∧
  ((@DEPENDENCY_STORE paths) ∈ dirs disk
   ∨ files disk !! (@DEPENDENCY_STORE paths) = None) ∧
  (store_file ∉ dirs disk) ∧
  store_file ≠ (@DEPENDENCY_STORE paths) ∧
  ∃ fs',
    @persist_dependencies toy_digest simple_deb822.lib paths converter_self disk
      = (fs', Ok ()) ∧
    files fs' !! "/var/lib/py2deb/c0ffee10.txt"
      = Some "pl-python-alpha (=1.0-1), pl-python-beta (=2.1-1)".
Proof.
  assert (files disk !! requirements_file converter_self = Some content)
    as H1 by (by vm_compute).
  assert (@collect_deplist simple_deb822.lib paths (packages converter_self)
            disk [] = Ok deplist) as H2 by (by vm_compute).
  assert ((@DEPENDENCY_STORE paths) ∈ dirs disk
          ∨ files disk !! (@DEPENDENCY_STORE paths) = None) as H3
    by (right; by vm_compute).
  assert (store_file ∉ dirs disk) as H4.
  { change (store_file ∉ ({["/var/repo"]} : gset string)).
    apply not_elem_of_singleton_2. by vm_compute. }
  assert (store_file ≠ (@DEPENDENCY_STORE paths)) as H5 by (by vm_compute).
  repeat (split; [assumption|]).
  destruct (@persist_then_recall toy_digest simple_deb822.lib paths squeeze
              converter_self disk content deplist H1 H2 H3 H4 H5)
    as (fs' & Hp & Hf & _).
  exists fs'. split; [exact Hp|exact Hf].
Defined.
End result_store_claims.

(** ** Control paragraphs *)

Section deb822_facts.
Implicit Types (d : Deb822) (k v : string) (kv : string * string).

Lemma field_eqb_eq a b : field_eqb a b = true ↔ str_lower a = str_lower b.
Proof. apply String.eqb_eq. Qed.

Lemma field_eqb_refl a : field_eqb a a = true.
Proof. by apply field_eqb_eq. Qed.

Lemma field_eqb_sym a b : field_eqb a b = field_eqb b a.
Proof. apply String.eqb_sym. Qed.

Lemma field_eqb_proper a b c :
  field_eqb a b = true → field_eqb a c = field_eqb b c.
Proof. intros Hab%field_eqb_eq. unfold field_eqb. by rewrite Hab. Qed.

Lemma deb822_get_proper k k' d :
  field_eqb k k' = true → deb822_get k d = deb822_get k' d.
Proof.
  intros Hk. induction d as [|[k1 v1] d IH]; simpl; [done|].
  rewrite IH. rewrite (field_eqb_sym k1 k), (field_eqb_sym k1 k').
  by rewrite (field_eqb_proper k k' k1 Hk).
Qed.

Lemma deb822_get_is_Some k d :
  is_Some (deb822_get k d) ↔ ∃ kv, kv ∈ d ∧ field_eqb kv.1 k = true.
Proof.
  induction d as [|[k1 v1] d IH]; simpl.
  - split; [by intros [? ?]|]. intros (kv & Hin & _). by apply elem_of_nil in Hin.
  - destruct (field_eqb k1 k) eqn:Hk1.
    + split; [|by eexists]. intros _. exists (k1, v1). split; [left|done].
    + rewrite IH. split.
      * intros (kv & Hin & Hkv). exists kv. split; [by right|done].
      * intros (kv & [->|Hin]%elem_of_cons & Hkv); [simpl in Hkv; congruence|].
        by exists kv.
Qed.

Lemma deb822_get_rewritten k0 v0 k d :
  deb822_get k ((λ kv, if field_eqb kv.1 k0 then (kv.1, v0) else kv) <$> d) =
  match deb822_get k d with
  | Some v => if field_eqb k0 k then Some v0 else Some v
  | None => None
  end.
Proof.
  induction d as [|[k1 v1] d IH]; simpl; [done|].
  destruct (field_eqb k1 k0) eqn:H10; simpl.
  - destruct (field_eqb k1 k) eqn:H1; [|exact IH].
    rewrite <- (field_eqb_proper k1 k0 k H10), H1. done.
  - destruct (field_eqb k1 k) eqn:H1; [|exact IH].
    rewrite (field_eqb_sym k0 k), <- (field_eqb_proper k1 k k0 H1), H10. done.
Qed.

Lemma deb822_get_app k d1 d2 :
  deb822_get k (d1 ++ d2) =
  match deb822_get k d1 with Some v => Some v | None => deb822_get k d2 end.
Proof.
  induction d1 as [|[k1 v1] d1 IH]; simpl; [done|].
  by destruct (field_eqb k1 k).
Qed.

(** Reading a field after an assignment. *)
Lemma deb822_get_set k0 v0 k d :
  deb822_get k (deb822_set k0 v0 d) =
  if field_eqb k0 k then Some v0 else deb822_get k d.
Proof.
  unfold deb822_set. destruct (deb822_get k0 d) as [v|] eqn:H0.
  - rewrite deb822_get_rewritten. destruct (field_eqb k0 k) eqn:Hk.
    + by rewrite <- (deb822_get_proper k0 k d Hk), H0.
    + by destruct (deb822_get k d).
  - rewrite deb822_get_app. simpl. destruct (field_eqb k0 k) eqn:Hk.
    + by rewrite <- (deb822_get_proper k0 k d Hk), H0.
    + by destruct (deb822_get k d).
Qed.

(** The entries after an assignment: the assigned field with its new value,
    every other entry as it was. *)
Lemma deb822_set_entries k0 v0 d kv :
  kv ∈ deb822_set k0 v0 d →
  (field_eqb kv.1 k0 = true ∧ kv.2 = v0) ∨
  (field_eqb kv.1 k0 = false ∧ kv ∈ d).
Proof.
  unfold deb822_set. destruct (deb822_get k0 d) as [v|] eqn:H0.
  - intros ([k1 v1] & -> & Hin)%list_elem_of_fmap. simpl.
    destruct (field_eqb k1 k0) eqn:H1; simpl; [by left|].
    right. by rewrite H1.
  - intros [Hin| ->%list_elem_of_singleton]%elem_of_app.
    + right. split; [|done]. destruct (field_eqb kv.1 k0) eqn:H1; [|done].
      assert (is_Some (deb822_get k0 d)) as [? ?]; [|congruence].
      apply deb822_get_is_Some. by exists kv.
    + left. simpl. by rewrite field_eqb_refl.
Qed.

Lemma deb822_set_present k0 v0 d :
  is_Some (deb822_get k0 d) →
  deb822_set k0 v0 d =
  (λ kv, if field_eqb kv.1 k0 then (kv.1, v0) else kv) <$> d.
Proof. intros [v Hv]. unfold deb822_set. by rewrite Hv. Qed.

Lemma last_assigned_cons kv0 fields k :
  last_assigned (kv0 :: fields) k =
  match last_assigned fields k with
  | Some v => Some v
  | None => if field_eqb kv0.1 k then Some kv0.2 else None
  end.
Proof.
  unfold last_assigned. simpl.
  generalize (if field_eqb kv0.1 k then Some kv0.2 else None) as acc.
  induction fields as [|kv1 fields IH]; intros acc; simpl.
  - by destruct acc.
  - rewrite IH. rewrite (IH (if field_eqb kv1.1 k then Some kv1.2 else None)).
    destruct (foldl _ None fields); [done|].
    by destruct (field_eqb kv1.1 k), acc.
Qed.

(** Reading a field after a run of assignments. *)
Lemma deb822_get_update fields :
  ∀ d k, deb822_get k (deb822_update d fields) =
         match last_assigned fields k with
         | Some v => Some v
         | None => deb822_get k d
         end.
Proof.
  induction fields as [|kv0 fields IH]; intros d k; [done|].
  rewrite last_assigned_cons. cbn [deb822_update foldl].
  fold (deb822_update (deb822_set kv0.1 kv0.2 d) fields).
  rewrite IH, deb822_get_set.
  destruct (last_assigned fields k); [done|]. by destruct (field_eqb kv0.1 k).
Qed.

Lemma deb822_update_untouched fields :
  ∀ d kv, kv ∈ deb822_update d fields →
          last_assigned fields kv.1 = None → kv ∈ d.
Proof.
  induction fields as [|kv0 fields IH]; intros d kv; [done|].
  rewrite last_assigned_cons. cbn [deb822_update foldl].
  fold (deb822_update (deb822_set kv0.1 kv0.2 d) fields).
  intros Hin Hlast. destruct (last_assigned fields kv.1) eqn:Hl; [done|].
  destruct (field_eqb kv0.1 kv.1) eqn:H0; [done|].
  destruct (deb822_set_entries _ _ _ _ (IH _ _ Hin Hl)) as [[H1 _]|[_ ?]];
    [|done].
  rewrite field_eqb_sym in H1. congruence.
Qed.

Lemma deb822_update_assigned fields :
  ∀ d kv v, kv ∈ deb822_update d fields →
            last_assigned fields kv.1 = Some v → kv.2 = v.
Proof.
  induction fields as [|kv0 fields IH]; intros d kv v; [done|].
  rewrite last_assigned_cons. cbn [deb822_update foldl].
  fold (deb822_update (deb822_set kv0.1 kv0.2 d) fields).
  intros Hin Hlast. destruct (last_assigned fields kv.1) eqn:Hl.
  - injection Hlast as <-. by apply (IH _ _ _ Hin).
  - destruct (field_eqb kv0.1 kv.1) eqn:H0; [|done]. injection Hlast as <-.
    pose proof (deb822_update_untouched _ _ _ Hin Hl) as Hset.
    destruct (deb822_set_entries _ _ _ _ Hset) as [[_ ?]|[H1 _]]; [done|].
    rewrite field_eqb_sym in H1. congruence.
Qed.

(** When every assigned field is there already, the run rewrites values in
    place. *)
Lemma deb822_update_in_place fields :
  ∀ d, (∀ kv, kv ∈ fields → is_Some (deb822_get kv.1 d)) →
       deb822_update d fields =
       (λ kv, (kv.1, default kv.2 (last_assigned fields kv.1))) <$> d.
Proof.
  induction fields as [|kv0 fields IH]; intros d Hpresent.
  - transitivity (id <$> d); [by rewrite list_fmap_id|].
    apply Forall_fmap_ext_1, Forall_forall. by intros [k1 v1] _.
  - cbn [deb822_update foldl].
    fold (deb822_update (deb822_set kv0.1 kv0.2 d) fields).
    rewrite IH.
    + rewrite deb822_set_present by (apply Hpresent; left).
      rewrite <- list_fmap_compose. apply list_fmap_ext.
      intros i [k1 v1] _. simpl. rewrite last_assigned_cons.
      destruct (field_eqb k1 kv0.1) eqn:H1; simpl.
      * rewrite (field_eqb_sym kv0.1 k1), H1.
        by destruct (last_assigned fields k1).
      * rewrite (field_eqb_sym kv0.1 k1), H1.
        by destruct (last_assigned fields k1).
    + intros kv Hin. rewrite deb822_get_set.
      destruct (field_eqb kv0.1 kv.1); [by eexists|].
      apply Hpresent. by right.
Qed.

Lemma last_assigned_elem fields kv :
  kv ∈ fields → is_Some (last_assigned fields kv.1).
Proof.
  induction fields as [|kv0 fields IH]; [by intros ?%elem_of_nil|].
  rewrite last_assigned_cons. intros [->|Hin]%elem_of_cons.
  - rewrite field_eqb_refl. destruct (last_assigned fields kv0.1); by eexists.
  - destruct (IH Hin) as [v ->]. by eexists.
Qed.

(** Assigning the same fields a second time changes nothing. *)
Lemma deb822_update_idempotent fields d :
  deb822_update (deb822_update d fields) fields = deb822_update d fields.
Proof.
  rewrite deb822_update_in_place.
  - transitivity (id <$> deb822_update d fields); [|by rewrite list_fmap_id].
    apply Forall_fmap_ext_1, Forall_forall. intros [k1 v1] Hin. simpl.
    destruct (last_assigned fields k1) as [v|] eqn:Hl; [|done]. simpl.
    pose proof (deb822_update_assigned fields d (k1, v1) v Hin Hl) as Hv.
    simpl in Hv. by subst.
  - intros kv Hin. rewrite deb822_get_update.
    destruct (last_assigned_elem fields kv Hin) as [v ->]. by eexists.
Qed.

Lemma deb822_update_app d fields1 fields2 :
  deb822_update d (fields1 ++ fields2) =
  deb822_update (deb822_update d fields1) fields2.
Proof. apply foldl_app. Qed.
End deb822_facts.

(** ** Patching the control file *)

Section patch_control_facts.
Import converter.
Context `{DebianLib, Py2debUtil}.

(** The binary paragraph is patched by a run of assignments that does not
    depend on the paragraph. *)
Lemma patch_paragraph_update package replacements config binary binary' :
  patch_paragraph package replacements config binary = Ok binary' →
  ∃ fields, ∀ b, patch_paragraph package replacements config b
                 = Ok (deb822_update b fields).
Proof.
  unfold patch_paragraph.
  destruct (config_get "general" "virtual-prefix" config); [|done].
  destruct (config_get "general" "custom-prefix" config) as [prefix|]; [|done].
  intros _. simpl.
  exists ([("Package", transform_package_name prefix (name package))]
          ++ [("Depends",
               String.concat ", " (debian_dependencies package replacements))]
          ++ control_patch_cfg package config).
  intros b. by rewrite !deb822_update_app.
Qed.

Lemma patch_paragraph_idempotent package replacements config binary binary' :
  patch_paragraph package replacements config binary = Ok binary' →
  patch_paragraph package replacements config binary' = Ok binary'.
Proof.
  intros Hp. destruct (patch_paragraph_update _ _ _ _ _ Hp) as [fields Hf].
  rewrite Hf in Hp. injection Hp as <-.
  by rewrite Hf, deb822_update_idempotent.
Qed.
End patch_control_facts.

Section patch_control_claims.
Import converter patch_examples.

(** C6: when [patch_control] has patched a two-paragraph control file and the
    text it wrote reads back as the two paragraphs written, patching again
    with the same replacements and configuration leaves the file, and the
    whole file system, exactly as the first run left it. *)
Theorem patch_control_idempotent `{DebianLib, Py2debUtil}
    (package : Package) (replacements : gmap string string)
    (config : ConfigParser) (fs : filesystem)
    (content : string) (source binary binary' : Deb822) :
  read_file (control_file_of package) fs = Ok content →
  iter_paragraphs content = [source; binary] →
  os_path_isdir (control_file_of package) fs = false →
  patch_paragraph package replacements config binary = Ok binary' →
  iter_paragraphs (control_text source binary') = [source; binary'] →
  ∃ fs1,
    patch_control package replacements config fs = (fs1, Ok ()) ∧
    read_file (control_file_of package) fs1
      = Ok (control_text source binary') ∧
    patch_control package replacements config fs1 = (fs1, Ok ()).
Proof.
  intros Hread Hparse Hdir Hpatch Hback.
  pose proof (patch_paragraph_idempotent _ _ _ _ _ Hpatch) as Hagain.
  unfold patch_control. rewrite Hread, Hparse.
  unfold write_file at 1. rewrite Hdir.
  rewrite Hpatch. unfold write_file at 1. unfold os_path_isdir in *.
  simpl. rewrite Hdir. eexists. split; [done|].
  unfold read_file. simpl. rewrite !lookup_insert_eq.
  split; [done|]. rewrite Hback.
  unfold write_file, os_path_isdir. simpl. rewrite Hdir, Hagain. simpl.
  rewrite Hdir. by rewrite !insert_insert_eq.
Qed.

Lemma patch_control_idempotent_witness :
  read_file (control_file_of alpha) disk
    = Ok (@control_text simple_deb822.lib source binary) ∧
  simple_deb822.parse (@control_text simple_deb822.lib source binary)
    = [source; binary] ∧
  os_path_isdir (control_file_of alpha) disk = false ∧
  @patch_paragraph util alpha ∅ config binary = Ok patched ∧
  simple_deb822.parse (@control_text simple_deb822.lib source patched)
    = [source; patched] ∧
  ∃ fs1,
    @patch_control simple_deb822.lib util alpha ∅ config disk = (fs1, Ok ()) ∧
    read_file (control_file_of alpha) fs1
      = Ok (@control_text simple_deb822.lib source patched) ∧
    @patch_control simple_deb822.lib util alpha ∅ config fs1 = (fs1, Ok ()).
Proof.
  assert (read_file (control_file_of alpha) disk
          = Ok (@control_text simple_deb822.lib source binary)) as H1
    by (by vm_compute).
  assert (simple_deb822.parse (@control_text simple_deb822.lib source binary)
          = [source; binary]) as H2 by (by vm_compute).
  assert (os_path_isdir (control_file_of alpha) disk = false) as H3
    by (by vm_compute).
  assert (@patch_paragraph util alpha ∅ config binary = Ok patched) as H4
    by (by vm_compute).
  assert (simple_deb822.parse (@control_text simple_deb822.lib source patched)
          = [source; patched]) as H5 by (by vm_compute).
  repeat (split; [assumption|]).
  exact (@patch_control_idempotent simple_deb822.lib util alpha ∅ config disk
           _ source binary patched H1 H2 H3 H4 H5).
Defined.
End patch_control_claims.

(** ** Configured fields *)

Section configured_fields_facts.
Implicit Types (d : Deb822) (k v : string) (kv : string * string).

Lemma last_assigned_None fields k :
  last_assigned fields k = None ↔
  ∀ kv, kv ∈ fields → field_eqb kv.1 k = false.
Proof.
  induction fields as [|kv0 fields IH].
  - split; [|done]. intros _ kv Hin. by apply elem_of_nil in Hin.
  - rewrite last_assigned_cons. split.
    + destruct (last_assigned fields k) eqn:Hl; [done|].
      destruct (field_eqb kv0.1 k) eqn:H0; [done|].
      intros _ kv [->|Hin]%elem_of_cons; [done|]. by apply IH.
    + intros Hall. rewrite (proj2 IH).
      * rewrite (Hall kv0); [done|left].
      * intros kv Hin. apply Hall. by right.
Qed.

Lemma last_assigned_Some fields k v :
  last_assigned fields k = Some v →
  ∃ kv, kv ∈ fields ∧ field_eqb kv.1 k = true ∧ kv.2 = v.
Proof.
  induction fields as [|kv0 fields IH]; [done|].
  rewrite last_assigned_cons.
  destruct (last_assigned fields k) as [w|] eqn:Hl.
  - intros [= <-]. destruct (IH eq_refl) as (kv & Hin & Hk & Hv).
    exists kv. split; [by right|done].
  - destruct (field_eqb kv0.1 k) eqn:H0; [|done].
    intros [= <-]. exists kv0. split; [left|done].
Qed.

Lemma deb822_wf_set k v d : deb822_wf d → deb822_wf (deb822_set k v d).
Proof.
  unfold deb822_wf, deb822_set. intros Hwf.
  destruct (deb822_get k d) as [w|] eqn:Hk.
  - replace (((λ kv, if field_eqb kv.1 k then (kv.1, v) else kv) <$> d).*1)
      with (d.*1); [done|].
    rewrite <- list_fmap_compose. apply Forall_fmap_ext_1, Forall_forall.
    intros [k1 v1] _. simpl. by destruct (field_eqb k1 k).
  - rewrite !fmap_app. simpl. apply NoDup_app. split; [done|].
    split; [|apply NoDup_singleton].
    intros x Hx ->%list_elem_of_singleton.
    apply list_elem_of_fmap in Hx as (k1 & Hk1 & Hin).
    apply list_elem_of_fmap in Hin as (kv & -> & Hin).
    assert (is_Some (deb822_get k d)) as [? ?]; [|congruence].
    apply deb822_get_is_Some. exists kv. split; [done|].
    by apply field_eqb_eq.
Qed.

Lemma deb822_wf_update fields : ∀ d, deb822_wf d → deb822_wf (deb822_update d fields).
Proof.
  induction fields as [|kv0 fields IH]; intros d Hwf; [done|].
  apply (IH (deb822_set kv0.1 kv0.2 d)). by apply deb822_wf_set.
Qed.

Lemma deb822_wf_last_assigned d k :
  deb822_wf d → last_assigned d k = deb822_get k d.
Proof.
  unfold deb822_wf. induction d as [|[k1 v1] d IH]; [done|].
  rewrite last_assigned_cons. simpl. intros [Hnotin Hwf]%NoDup_cons.
  destruct (field_eqb k1 k) eqn:H1.
  - rewrite (proj2 (last_assigned_None d k)); [done|].
    intros kv Hin. destruct (field_eqb kv.1 k) eqn:Hkv; [|done].
    exfalso. apply Hnotin. apply list_elem_of_fmap. exists kv.1.
    split; [|apply list_elem_of_fmap; by exists kv].
    apply field_eqb_eq in H1, Hkv. congruence.
  - rewrite (IH Hwf). by destruct (deb822_get k d).
Qed.

(** Reading a field of a merged paragraph: the override if there is one,
    the field as it was otherwise. *)
Lemma deb822_get_merge defaults overrides k :
  deb822_wf overrides →
  deb822_get k (merge_control_fields defaults overrides) =
  match deb822_get k overrides with
  | Some v => Some v
  | None => deb822_get k defaults
  end.
Proof.
  intros Hwf. unfold merge_control_fields.
  by rewrite deb822_get_update, deb822_wf_last_assigned.
Qed.
End configured_fields_facts.

Section control_patch_cfg_facts.
Import converter.

Lemma control_patch_cfg_update package config options :
  config !! name package = Some options →
  control_patch_cfg package config =
  deb822_update [] (filter (λ kv, kv.1 ≠ "script") (map_to_list options)).
Proof.
  intros Hsec. unfold control_patch_cfg, has_section, config_items.
  rewrite Hsec. rewrite bool_decide_eq_true_2 by (by eexists).
  generalize (@nil (string * string)) as acc.
  induction (map_to_list options) as [|kv items IH]; intros acc; [done|].
  rewrite filter_cons. cbn [foldl].
  destruct (decide (kv.1 ≠ "script")) as [Hk|Hk].
  - rewrite bool_decide_eq_true_2 by done. apply IH.
  - rewrite bool_decide_eq_false_2 by done. apply IH.
Qed.

Lemma control_patch_cfg_wf package config :
  deb822_wf (control_patch_cfg package config).
Proof.
  destruct (config !! name package) as [options|] eqn:Hsec.
  - rewrite (control_patch_cfg_update _ _ _ Hsec).
    apply deb822_wf_update. constructor.
  - unfold control_patch_cfg, has_section. rewrite Hsec.
    rewrite bool_decide_eq_false_2 by (by intros [? ?]). constructor.
Qed.

Lemma deb822_set_keys k0 v0 (d : Deb822) (kv : string * string) :
  kv ∈ deb822_set k0 v0 d → kv.1 = k0 ∨ kv.1 ∈ d.*1.
Proof.
  unfold deb822_set. destruct (deb822_get k0 d).
  - intros (kv1 & -> & Hin)%list_elem_of_fmap. right.
    apply list_elem_of_fmap. exists kv1. split; [|done].
    by destruct (field_eqb kv1.1 k0).
  - intros [Hin| ->%list_elem_of_singleton]%elem_of_app; [right|by left].
    apply list_elem_of_fmap. by exists kv.
Qed.

Lemma deb822_update_keys fields :
  ∀ (d : Deb822) (kv : string * string),
    kv ∈ deb822_update d fields → kv.1 ∈ d.*1 ∨ kv.1 ∈ fields.*1.
Proof.
  induction fields as [|kv0 fields IH]; intros d kv Hin.
  { left. apply list_elem_of_fmap. by exists kv. }
  destruct (IH _ _ Hin) as [Hset|Hf].
  - apply list_elem_of_fmap in Hset as (kv1 & Heq & Hset). rewrite Heq.
    destruct (deb822_set_keys _ _ _ _ Hset) as [->|?]; [|by left].
    right. left.
  - right. by right.
Qed.

Lemma control_patch_cfg_no_script package config (kv : string * string) :
  kv ∈ control_patch_cfg package config → kv.1 ≠ "script".
Proof.
  destruct (config !! name package) as [options|] eqn:Hsec.
  - rewrite (control_patch_cfg_update _ _ _ Hsec). intros Hin.
    destruct (deb822_update_keys _ _ _ Hin) as [Hnil|Hf].
    + by apply elem_of_nil in Hnil.
    + apply list_elem_of_fmap in Hf as (kv1 & Heq & Hf). rewrite Heq.
      by apply list_elem_of_filter in Hf as [? _].
  - unfold control_patch_cfg, has_section. rewrite Hsec.
    rewrite bool_decide_eq_false_2 by (by intros [? ?]).
    by intros ?%elem_of_nil.
Qed.

(** With option names in lower case, as [ConfigParser] stores them, the
    configured fields read back as configured. *)
Lemma control_patch_cfg_get package config options k :
  config !! name package = Some options →
  map_Forall (λ k _, str_lower k = k) options →
  deb822_get k (control_patch_cfg package config) =
  if bool_decide (str_lower k = "script") then None
  else options !! str_lower k.
Proof.
  intros Hsec Hlower. rewrite (control_patch_cfg_update _ _ _ Hsec).
  rewrite deb822_get_update. simpl.
  set (F := filter (λ kv : string * string, kv.1 ≠ "script")
              (map_to_list options)).
  assert (∀ kv, kv ∈ F → field_eqb kv.1 k = true →
                kv.1 = str_lower k ∧ kv.1 ≠ "script" ∧
                options !! kv.1 = Some kv.2) as HF.
  { intros [k1 v1] [Hne Hin]%list_elem_of_filter Hk. simpl in *.
    apply elem_of_map_to_list in Hin.
    apply field_eqb_eq in Hk. rewrite (Hlower _ _ Hin) in Hk. by subst. }
  destruct (last_assigned F k) as [v|] eqn:Hl.
  - apply last_assigned_Some in Hl as (kv & Hin & Hk & <-).
    destruct (HF kv Hin Hk) as (Heq & Hne & Hopt).
    rewrite bool_decide_eq_false_2 by congruence. by rewrite <- Heq.
  - case_bool_decide as Hs; [done|].
    destruct (options !! str_lower k) as [v|] eqn:Hopt; [|done].
    exfalso. pose proof (proj1 (last_assigned_None F k) Hl) as Hnone.
    specialize (Hnone (str_lower k, v)). simpl in Hnone.
    assert (field_eqb (str_lower k) k = true) as Hk.
    { apply field_eqb_eq. by apply (Hlower _ _ Hopt). }
    rewrite Hk in Hnone. discriminate Hnone.
    apply list_elem_of_filter. split; [done|].
    by apply elem_of_map_to_list.
Qed.
End control_patch_cfg_facts.

Section configured_fields_claims.
Import converter patch_examples.

(** C8, as stated, fails for [Converter._control_patch] of
    [py2deb/util/converter.py]: the option it leaves out is [build-depends],
    not [script], so a configured [script] ends up in the binary paragraph as
    the field "Script", while the configured [build-depends] is not merged. *)
Lemma Converter_control_patch_writes_script :
  util_converter._control_patch legacy_examples.self "alpha"
  = [("Script", "make clean"); ("Section", "misc")] ∧
  deb822_get "script"
    (@util_converter.patch_paragraph legacy_examples.package_module
       legacy_examples.self legacy_examples.alpha legacy_examples.binary)
  = Some "make clean" ∧
  deb822_get "build-depends"
    (@util_converter.patch_paragraph legacy_examples.package_module
       legacy_examples.self legacy_examples.alpha legacy_examples.binary)
  = None.
Proof. repeat split; by vm_compute. Qed.

(** C8, amended to [py2deb/converter.py]: for a package whose name is a
    section of the configuration (option names in lower case, as
    [ConfigParser] stores them), merging [control_patch_cfg] into a paragraph
    gives every configured option other than [script] as a field with the
    configured value, never writes a field from the [script] option, and
    leaves every field that no configured option names as it was. *)
Theorem control_patch_cfg_merged
    (package : Package) (config : ConfigParser)
    (options : gmap string string) (paragraph : Deb822) :
  config !! name package = Some options →
  map_Forall (λ k _, str_lower k = k) options →
  let merged :=
    merge_control_fields paragraph (control_patch_cfg package config) in
  (∀ k v, options !! k = Some v → k ≠ "script" →
          deb822_get k merged = Some v) ∧
  (∀ kv : string * string,
      kv ∈ control_patch_cfg package config → kv.1 ≠ "script") ∧
  (∀ k, str_lower k = "script" →
        deb822_get k merged = deb822_get k paragraph) ∧
  (∀ k, options !! str_lower k = None →
        deb822_get k merged = deb822_get k paragraph).
Proof.
  intros Hsec Hlower merged.
  assert (∀ k, deb822_get k merged =
               match deb822_get k (control_patch_cfg package config) with
               | Some v => Some v
               | None => deb822_get k paragraph
               end) as Hget.
  { intros k. apply deb822_get_merge, control_patch_cfg_wf. }
  repeat split.
  - intros k v Hk Hne. rewrite Hget.
    rewrite (control_patch_cfg_get _ _ _ k Hsec Hlower).
    rewrite (Hlower _ _ Hk). rewrite bool_decide_eq_false_2 by done.
    by rewrite Hk.
  - intros kv. apply control_patch_cfg_no_script.
  - intros k Hk. rewrite Hget.
    rewrite (control_patch_cfg_get _ _ _ k Hsec Hlower).
    by rewrite bool_decide_eq_true_2.
  - intros k Hk. rewrite Hget.
    rewrite (control_patch_cfg_get _ _ _ k Hsec Hlower).
    rewrite Hk. by case_bool_decide.
Qed.

Lemma control_patch_cfg_merged_witness :
  config !! name alpha
    = Some {[ "section" := "misc"; "script" := "make clean" ]} ∧
  map_Forall (λ k _, str_lower k = k)
    ({[ "section" := "misc"; "script" := "make clean" ]}
       : gmap string string) ∧
  deb822_get "section"
    (merge_control_fields binary (control_patch_cfg alpha config))
    = Some "misc" ∧
  deb822_get "Script"
    (merge_control_fields binary (control_patch_cfg alpha config))
    = deb822_get "Script" binary.
Proof.
  assert (config !! name alpha
          = Some {[ "section" := "misc"; "script" := "make clean" ]}) as H1
    by (by vm_compute).
  assert (map_Forall (λ k _, str_lower k = k)
            ({[ "section" := "misc"; "script" := "make clean" ]}
               : gmap string string)) as H2.
  { apply map_Forall_insert_2; [done|]. by apply map_Forall_singleton. }
  split; [exact H1|]. split; [exact H2|].
  destruct (control_patch_cfg_merged alpha config _ binary H1 H2)
    as (Hconf & _ & Hscript & _).
  split.
  - apply Hconf; [by vm_compute|done].
  - by apply Hscript.
Defined.
End configured_fields_claims.

(** ** Collecting the build *)

Section fnmatch_facts.

Lemma str_endswith_refl s : str_endswith s s = true.
Proof. destruct s; simpl; by rewrite ?String.eqb_refl, ?Ascii.eqb_refl. Qed.

Lemma str_endswith_cons a s suffix :
  str_endswith s suffix = true → str_endswith (String a s) suffix = true.
Proof.
  intros Hs.
  change (str_endswith (String a s) suffix)
    with (if String.eqb (String a s) suffix then true
          else str_endswith s suffix).
  rewrite Hs. by destruct (String.eqb (String a s) suffix).
Qed.

(** A pattern without [*] and [?] matches itself only. *)
Lemma fnmatch_pat_literal pat :
  is_literal pat → ∀ name, fnmatch_pat pat name = true → name = pat.
Proof.
  induction pat as [|c pat IH]; simpl.
  - intros _ name. by intros ->%String.eqb_eq.
  - intros (Hstar & Hany & Hlit) name. rewrite Hstar, Hany.
    destruct name as [|d name]; [done|].
    intros [->%Ascii.eqb_eq Hrest]%andb_true_iff. f_equal. by apply IH.
Qed.

Lemma fnmatch_pat_unfold c pat name :
  fnmatch_pat (String c pat) name =
  if Ascii.eqb c "*" then
    fnmatch_pat pat name ||
    match name with
    | EmptyString => false
    | String _ name' => fnmatch_pat (String c pat) name'
    end
  else if Ascii.eqb c "?" then
    match name with
    | EmptyString => false
    | String _ name' => fnmatch_pat pat name'
    end
  else
    match name with
    | EmptyString => false
    | String d name' => Ascii.eqb c d && fnmatch_pat pat name'
    end.
Proof.
  cbn [fnmatch_pat]. destruct (Ascii.eqb c "*"); [by destruct name|].
  by destruct (Ascii.eqb c "?").
Qed.

(** Whatever a pattern starts with, a name it matches ends the way the end
    of the pattern requires. *)
Lemma fnmatch_pat_suffix pat rest suffix :
  (∀ name, fnmatch_pat rest name = true → str_endswith name suffix = true) →
  ∀ name, fnmatch_pat (pat +:+ rest) name = true →
          str_endswith name suffix = true.
Proof.
  intros Hrest. induction pat as [|c pat IH]; [exact Hrest|].
  change (String c pat +:+ rest) with (String c (pat +:+ rest)).
  intros name. induction name as [|d name IHname];
    rewrite fnmatch_pat_unfold;
    destruct (Ascii.eqb c "*"), (Ascii.eqb c "?"); try done.
  - intros [?|?]%orb_true_iff; [by apply IH|done].
  - intros [?|?]%orb_true_iff; [by apply IH|done].
  - intros [?|?]%orb_true_iff; [by apply IH|].
    by apply str_endswith_cons, IHname.
  - intros [?|?]%orb_true_iff; [by apply IH|].
    by apply str_endswith_cons, IHname.
  - intros ?. by apply str_endswith_cons, IH.
  - intros [_ ?]%andb_true_iff. by apply str_endswith_cons, IH.
Qed.

Lemma fnmatch_deb_suffix debian_name filename :
  fnmatch filename (debian_name +:+ "_*.deb") = true →
  str_endswith filename ".deb" = true.
Proof.
  unfold fnmatch. apply fnmatch_pat_suffix.
  apply (fnmatch_pat_suffix "_*" ".deb" ".deb").
  intros name ->%fnmatch_pat_literal; [apply str_endswith_refl|].
  simpl. repeat split.
Qed.
End fnmatch_facts.

Section build_facts.
Import converter.
Context `{Host, DebianLib, Py2debUtil}.

Lemma scan_for_build_not_found package repository parent filenames w :
  (∀ f, f ∈ filenames →
        fnmatch f (debian_name package +:+ "_*.deb") = false) →
  scan_for_build package repository parent filenames w =
  (w, Raise (Exception ("Could not find build of " +:+ debian_name package))).
Proof.
  induction filenames as [|f filenames IH]; intros Hnone; [done|].
  cbn [scan_for_build]. rewrite (Hnone f) by left.
  rewrite andb_false_r. apply IH. intros f' Hf'. apply Hnone. by right.
Qed.

Lemma scan_for_build_found package repository parent filenames w :
  (∃ f, f ∈ filenames ∧
        fnmatch f (debian_name package +:+ "_*.deb") = true) →
  ∃ f w' r,
    scan_for_build package repository parent filenames w = (w', r) ∧
    f ∈ filenames ∧ fnmatch f (debian_name package +:+ "_*.deb") = true ∧
    collected package repository parent f w w' r.
Proof.
  induction filenames as [|f filenames IH].
  { intros (f & Hin & _). by apply elem_of_nil in Hin. }
  intros Hsome. cbn [scan_for_build].
  destruct (fnmatch f (debian_name package +:+ "_*.deb")) eqn:Hf.
  - rewrite (fnmatch_deb_suffix _ _ Hf). cbn [andb].
    destruct (os_system _ (fs w)) as [fs1 status] eqn:Hsys.
    exists f. unfold collected. rewrite Hsys. simpl.
    destruct (shutil_move _ _ fs1) as [fs2|e] eqn:Hmove;
      eexists _, _; (split; [done|]); (split; [left|]); (split; [done|]);
      simpl; by rewrite <- app_assoc.
  - rewrite andb_false_r.
    destruct IH as (f' & w' & r & Hscan & Hin & Hf' & Hc).
    + destruct Hsome as (f' & [->|Hin]%elem_of_cons & Hf'); [congruence|].
      by exists f'.
    + exists f', w', r. split; [done|]. split; [by right|done].
Qed.

Lemma DebFile_open_not_Exception path fs0 msg :
  DebFile_open path fs0 ≠ Raise (Exception msg).
Proof.
  unfold DebFile_open, DebFile_debcontrol, read_file.
  destruct (files fs0 !! path); simpl; [|done].
  by destruct (deb_control_of _).
Qed.

Lemma shutil_move_not_Exception src dst fs0 msg :
  shutil_move src dst fs0 ≠ Raise (Exception msg).
Proof.
  unfold shutil_move. destruct (files fs0 !! src); [|done].
  destruct (os_path_isdir dst fs0); [|done].
  by destruct (_ || _).
Qed.
End build_facts.

Section build_claims.
Import converter build_examples.

(** C7: once the build command has exited with status 0, [build] looks in the
    parent of the source directory for a name matching "<debian_name>_*.deb".
    With no such name it raises "Could not find build of ...", which is not
    the exception of a failed build command; with such a name it raises no
    such exception, runs lintian on the first match and moves that file to
    the repository, where it is opened. *)
Theorem build_collects_artifact `{Host, DebianLib, Py2debUtil}
    (package : Package) (repository : string) (verbose : bool) (w : world) :
  let w0 := set_environ "DH_OPTIONS" "--no-guessing-deps" w in
  let ran := run build_command (directory package) verbose (fs w0) in
  let w1 := emit (Run build_command (directory package)) (set_fs ran.1 w0) in
  let parent := os_path_dirname (directory package) in
  let pattern := debian_name package +:+ "_*.deb" in
  let not_found :=
    Exception ("Could not find build of " +:+ debian_name package) in
  ran.2 = 0%Z →
  ((∀ f, f ∈ os_listdir parent ran.1 → fnmatch f pattern = false) →
   build package repository verbose w = (w1, Raise not_found)) ∧
  ((∃ f, f ∈ os_listdir parent ran.1 ∧ fnmatch f pattern = true) →
   ∃ f w' r,
     build package repository verbose w = (w', r) ∧
     f ∈ os_listdir parent ran.1 ∧ fnmatch f pattern = true ∧
     collected package repository parent f w1 w' r ∧
     r ≠ Raise not_found) ∧
  not_found ≠ Exception ("Failed to build " +:+ debian_name package).
Proof.
  intros w0 ran w1 parent pattern not_found Hran.
  assert (build package repository verbose w =
          scan_for_build package repository parent
            (os_listdir parent ran.1) w1) as Hbuild.
  { unfold build. cbn [NO_GUESSING_DEPS]. fold w0. subst w1 ran.
    destruct (run build_command (directory package) verbose (fs w0))
      as [fs' status].
    simpl in *. subst status.
    rewrite bool_decide_eq_false_2; [done|]. intros Hne. by apply Hne. }
  split; [|split].
  - intros Hnone. rewrite Hbuild. by apply scan_for_build_not_found.
  - intros Hsome. rewrite Hbuild.
    destruct (scan_for_build_found package repository parent _ w1 Hsome)
      as (f & w' & r & Hscan & Hin & Hf & Hc).
    exists f, w', r. repeat (split; [done|]).
    destruct Hc as [_ Hc].
    destruct (shutil_move _ _ _) as [fs2|e] eqn:Hmove.
    + destruct Hc as [_ ->]. apply DebFile_open_not_Exception.
    + destruct Hc as [_ ->]. intros [= ->].
      by apply shutil_move_not_Exception in Hmove.
  - intros Heq. by injection Heq.
Qed.

Lemma build_collects_artifact_witness :
  (@run util build_command (directory alpha) false
     (fs (set_environ "DH_OPTIONS" "--no-guessing-deps" start))).2 = 0%Z ∧
  ∃ f w' r,
    @build host simple_deb822.lib util alpha "/var/repo" false start = (w', r) ∧
    fnmatch f "python-alpha_*.deb" = true ∧
    r ≠ Raise (Exception "Could not find build of python-alpha").
Proof.
  assert ((@run util build_command (directory alpha) false
             (fs (set_environ "DH_OPTIONS" "--no-guessing-deps" start))).2
          = 0%Z) as Hran by (by vm_compute).
  split; [exact Hran|].
  destruct (@build_collects_artifact host simple_deb822.lib util
              alpha "/var/repo" false start Hran) as (_ & Hfound & _).
  destruct Hfound as (f & w' & r & Hb & _ & Hf & _ & Hr).
  - exists "python-alpha_1.0-1_all.deb". split; [|by vm_compute].
    apply list_elem_of_In. vm_compute. by left.
  - exists f, w', r. split; [exact Hb|]. split; [exact Hf|exact Hr].
Defined.
End build_claims.

(** ** Requirements from the egg metadata *)

Section egg_facts.
Import util_converter.
Context `{Host, PkgResources, PackageModule}.

Lemma rev_app_lstrip_nonempty s acc :
  str_lstrip acc ≠ "" → str_lstrip (String.rev_app s acc) ≠ "".
Proof.
  revert acc. induction s as [|c s IH]; intros acc Hacc; [done|].
  simpl. apply IH. simpl. by destruct (is_space c).
Qed.

Lemma rev_app_nonempty s acc : acc ≠ "" → String.rev_app s acc ≠ "".
Proof.
  revert acc. induction s as [|c s IH]; intros acc Hacc; [done|].
  simpl. by apply IH.
Qed.

(** A line that begins with a bracket is not blank. *)
Lemma bracket_line_not_blank line :
  str_startswith line "[" = true → str_strip line ≠ "".
Proof.
  destruct line as [|c line]; [done|]. unfold str_startswith.
  cbn [String.prefix].
  destruct (ascii_dec "[" c) as [<-|]; [|done]. intros _.
  unfold str_strip, String.rev. cbn [str_lstrip is_space].
  change (is_space "[") with false. cbn iota.
  destruct (str_lstrip (String.rev_app (String "[" line) "")) as [|d rest] eqn:Hl.
  - exfalso. revert Hl. simpl. by apply rev_app_lstrip_nonempty.
  - cbn [String.rev_app]. by apply rev_app_nonempty.
Qed.

Lemma has_option_get (config : ConfigParser) section option :
  has_option section option config = true →
  ∃ value, config_get section option config = Ok value ∧
           config !! section ≫= (λ options, options !! str_lower option)
           = Some value.
Proof.
  unfold has_option, config_get. destruct (config !! section) as [options|];
    [|done].
  simpl. intros [value Hv]%bool_decide_eq_true. rewrite Hv. by exists value.
Qed.

Lemma has_option_false (config : ConfigParser) section option :
  has_option section option config = false →
  config !! section ≫= (λ options, options !! str_lower option) = None.
Proof.
  unfold has_option. destruct (config !! section) as [options|]; [|done].
  simpl. intros Hv%bool_decide_eq_false.
  destruct (options !! str_lower option); [|done]. exfalso. by apply Hv.
Qed.

Lemma requires_loop_requirements (config : ConfigParser) lines :
  ∀ package reqs,
    Forall2 (λ line parsed, Requirement_parse line = Some parsed)
      (filter (λ line, str_strip line ≠ "")
         (take_while (λ line, negb (str_startswith line "[")) lines))
      reqs →
    requires_loop config lines package =
    (foldl add_requirement package (as_requirement config <$> reqs), Ok ()).
Proof.
  induction lines as [|line lines IH]; intros package reqs Hparse.
  { simpl in Hparse. by inversion Hparse. }
  cbn [requires_loop]. cbn [take_while] in Hparse.
  destruct (decide (str_strip line = "")) as [Hblank|Hblank].
  - rewrite bool_decide_eq_true_2 by done.
    destruct (str_startswith line "[") eqn:Hb.
    { by apply bracket_line_not_blank in Hb. }
    cbn [negb] in Hparse. rewrite filter_cons_False in Hparse by auto.
    by apply IH.
  - rewrite bool_decide_eq_false_2 by done.
    destruct (str_startswith line "[") eqn:Hb; cbn [negb] in Hparse.
    { simpl in Hparse. by inversion Hparse. }
    rewrite filter_cons_True in Hparse by done.
    inversion Hparse as [|? parsed ? reqs' Hline Hrest]; subst.
    rewrite Hline. cbn [fmap list_fmap foldl]. unfold as_requirement at 1.
    destruct (has_option "replacements" (key parsed) config) eqn:Hopt.
    + destruct (has_option_get _ _ _ Hopt) as (value & -> & ->).
      by apply IH.
    + rewrite (has_option_false _ _ _ Hopt). by apply IH.
Qed.
End egg_facts.

Section egg_claims.
Import util_converter egg_examples.

(** C10: [parse_egg_req] touches the package only when the glob
    "pip-egg-info/*.egg-info/requires.txt" under the package directory has
    exactly one match.  Then the non-blank lines before the first line that
    begins with a bracket, and no others, are parsed and added in order; a
    requirement whose key is an option of the [replacements] section is added
    under the replacement's name and not translatable, every other one as
    parsed and translatable. *)
Theorem parse_egg_req_requirements `{Host, PkgResources, PackageModule}
    (self : Converter) (package : Package) (fs : filesystem) :
  let matches := glob_glob (egg_requires_pattern package) fs in
  (length matches ≠ 1 → parse_egg_req self package fs = (package, Ok ())) ∧
  (∀ requires content reqs,
      matches = [requires] →
      read_file requires fs = Ok content →
      Forall2 (λ line parsed, Requirement_parse line = Some parsed)
        (requirement_lines content) reqs →
      parse_egg_req self package fs =
      (foldl add_requirement package (as_requirement (config self) <$> reqs),
       Ok ())).
Proof.
  intros matches. split.
  - intros Hlen. unfold parse_egg_req. fold matches.
    by destruct matches as [|? [|? ?]].
  - intros requires content reqs Hm Hread Hparse.
    unfold parse_egg_req. fold matches. rewrite Hm, Hread.
    by apply requires_loop_requirements.
Qed.

Lemma parse_egg_req_requirements_witness :
  @glob_glob build_examples.host (egg_requires_pattern legacy_examples.alpha)
    disk
  = ["/tmp/py2deb_x/alpha/pip-egg-info/alpha.egg-info/requires.txt"] ∧
  Forall2 (λ line parsed, @Requirement_parse resources line = Some parsed)
    (requirement_lines requires_txt) parsed ∧
  requirements
    (@parse_egg_req build_examples.host resources
       legacy_examples.package_module self legacy_examples.alpha disk).1
  = [ {| req := {| project_name := "libbeta"; key := "libbeta";
                   specs := []; extras := [] |};
         translatable := false |};
      {| req := {| project_name := "gamma"; key := "gamma";
                   specs := []; extras := [] |};
         translatable := true |} ].
Proof.
  assert (@glob_glob build_examples.host
            (egg_requires_pattern legacy_examples.alpha) disk
          = ["/tmp/py2deb_x/alpha/pip-egg-info/alpha.egg-info/requires.txt"])
    as Hglob by (by vm_compute).
  assert (Forall2 (λ line parsed,
                     @Requirement_parse resources line = Some parsed)
            (requirement_lines requires_txt) parsed) as Hparse.
  { replace (requirement_lines requires_txt)
      with ["Beta" +:+ String "010"%char ""; "gamma" +:+ String "010"%char ""]
      by (by vm_compute).
    repeat constructor. }
  split; [exact Hglob|]. split; [exact Hparse|].
  destruct (@parse_egg_req_requirements build_examples.host resources
              legacy_examples.package_module self legacy_examples.alpha disk)
    as [_ Hone].
  rewrite (Hone _ requires_txt parsed Hglob); [by vm_compute|by vm_compute|].
  exact Hparse.
Defined.
End egg_claims.

(** ** Skipping packages that are built already *)

Section convert_claims.
Import converter build_examples.

(** C5: when [find_build] finds files matching the package's pattern in the
    repository, the loop of [convert] goes on to the next package with the
    world exactly as it was (nothing is debianized, patched, run, installed
    or built) and with the entry made from the name and version that the last
    file found declares; if that file cannot be read as a package the loop
    stops with the exception and the world is still untouched. *)
Theorem convert_skips_existing_build
    `{Host, DebianLib, Py2debUtil, PipAccelDeps}
    (package : Package) (requirements' : list Package)
    (replacements : gmap string string) (config : ConfigParser)
    (repo_dir : string) (auto_install verbose : bool)
    (converted : list string) (w : world) :
  find_build package repo_dir (fs w) ≠ [] →
  convert_loop (package :: requirements') replacements config repo_dir
    auto_install verbose converted w =
  match DebFile_debcontrol
          (List.last (find_build package repo_dir (fs w)) "") (fs w)
        ≫= format_dependency with
  | Ok entry =>
      convert_loop requirements' replacements config repo_dir
        auto_install verbose (converted ++ [entry]) w
  | Raise e => (w, Raise e)
  end.
Proof.
  intros Hfound. cbn [convert_loop].
  destruct (find_build package repo_dir (fs w)) as [|first rest] eqn:Hfb;
    [done|].
  unfold DebFile_open.
  by destruct (DebFile_debcontrol _ (fs w)) as [control|e].
Qed.

Lemma convert_skips_existing_build_witness :
  @find_build host alpha "/var/repo" (fs stocked) ≠ [] ∧
  @convert_loop host simple_deb822.lib util deps [alpha] ∅
    patch_examples.config "/var/repo" false false [] stocked
  = (stocked, Ok ["python-alpha (=0.9-1)"]).
Proof.
  assert (@find_build host alpha "/var/repo" (fs stocked) ≠ []) as Hfound
    by (by vm_compute).
  split; [exact Hfound|].
  rewrite (@convert_skips_existing_build host simple_deb822.lib util deps
             alpha [] ∅ patch_examples.config "/var/repo" false false []
             stocked Hfound).
  by vm_compute.
Defined.
End convert_claims.

(** ** The older converter on the same claims *)

Section legacy_facts.
Import util_converter.
Context `{Host, DebianLib, Py2debConfig, PkgResources, PackageModule}.

(** The skip of [Converter.convert]: a package that [is_built] costs one
    printed line and nothing else. *)
Lemma Converter_convert_skips_built self package pkgs done w :
  is_built package (fs w) = true →
  convert_loop self (package :: pkgs) done w =
  convert_loop self pkgs (done ++ [package])
    (emit (Print (plname package +:+ " is already built, skipping...")) w).
Proof. intros Hbuilt. cbn [convert_loop]. by rewrite Hbuilt. Qed.

Lemma merge_each_update (d : Deb822) :
  ∀ paragraph,
    merge_each d paragraph =
    deb822_update paragraph
      ((λ kv, (kv.1, default kv.2 (deb822_get kv.1 d))) <$> d).
Proof.
  unfold merge_each.
  assert (∀ l paragraph,
            (∀ kv, kv ∈ l → is_Some (deb822_get kv.1 d)) →
            foldl (λ paragraph kv, merge_fields kv.1 d paragraph) paragraph l =
            deb822_update paragraph
              ((λ kv, (kv.1, default kv.2 (deb822_get kv.1 d))) <$> l)) as Hl.
  { induction l as [|kv l IH]; intros paragraph Hin; [done|].
    cbn [foldl fmap list_fmap deb822_update]. unfold merge_fields at 2.
    destruct (Hin kv) as [v Hv]; [left|]. rewrite Hv. simpl.
    apply IH. intros kv' Hkv'. apply Hin. by right. }
  intros paragraph. apply Hl. intros kv Hin.
  apply deb822_get_is_Some. exists kv. split; [done|apply field_eqb_refl].
Qed.

(** [Converter.patch_control] patches the binary paragraph by a run of
    assignments too, so patching a patched paragraph changes nothing. *)
Lemma Converter_patch_paragraph_idempotent self package paragraph :
  patch_paragraph self package (patch_paragraph self package paragraph)
  = patch_paragraph self package paragraph.
Proof.
  assert (∃ fields, ∀ b, patch_paragraph self package b
                         = deb822_update b fields) as [fields Hf].
  { eexists. intros b. unfold patch_paragraph.
    rewrite !merge_each_update.
    change (deb822_set "Package" (plname package) ?x)
      with (deb822_update x [("Package", plname package)]).
    rewrite <- !deb822_update_app. reflexivity. }
  by rewrite !Hf, deb822_update_idempotent.
Qed.

Lemma Converter_scan_not_found package topdir items w :
  (∀ item, item ∈ items →
           fnmatch item (plname package +:+ "_*.deb") = false) →
  scan_for_build package topdir items w =
  (w, Raise (Exception ("Could not find build of " +:+ plname package))).
Proof.
  induction items as [|item items IH]; intros Hnone; [done|].
  cbn [scan_for_build]. rewrite (Hnone item) by left.
  apply IH. intros item' Hin. apply Hnone. by right.
Qed.

Lemma Converter_scan_found package topdir items w :
  (∃ item, item ∈ items ∧
           fnmatch item (plname package +:+ "_*.deb") = true) →
  ∃ item w' r,
    scan_for_build package topdir items w = (w', r) ∧
    item ∈ items ∧ fnmatch item (plname package +:+ "_*.deb") = true ∧
    Move (os_path_join topdir item) PKG_REPO ∈ log w' ∧
    r ≠ Raise (Exception ("Could not find build of " +:+ plname package)).
Proof.
  induction items as [|item items IH].
  { intros (item & Hin & _). by apply elem_of_nil in Hin. }
  intros Hsome. cbn [scan_for_build].
  destruct (fnmatch item (plname package +:+ "_*.deb")) eqn:Hitem.
  - exists item.
    destruct (shutil_move _ _ _) as [fs'|e] eqn:Hmove; eexists _, _;
      (split; [done|]); (split; [left|]); (split; [done|]).
    + split; [|done]. simpl. rewrite !elem_of_app. left. right. left.
    + split; [simpl; rewrite elem_of_app; right; left|].
      intros [= ->]. by apply shutil_move_not_Exception in Hmove.
  - destruct IH as (item' & w' & r & Hscan & Hin & Hmatch & Hrest).
    + destruct Hsome as (item' & [->|Hin]%elem_of_cons & Hmatch);
        [congruence|].
      by exists item'.
    + exists item', w', r. split; [done|]. split; [by right|done].
Qed.

(** [Converter.build] after a build command that did not fail: without a
    matching name the "Could not find build" exception, with one the move
    into the repository and no such exception. *)
Lemma Converter_build_collects package w :
  let w0 := os_chdir (directory package) w in
  let args := ["dpkg-buildpackage"; "-us"; "-uc"] in
  let ran := popen_wait args (cwd w0) (fs w0) in
  let topdir := os_path_dirname (directory package) in
  let pattern := plname package +:+ "_*.deb" in
  let not_found :=
    Exception ("Could not find build of " +:+ plname package) in
  (ran.2 ≤ 0)%Z →
  ((∀ item, item ∈ os_listdir topdir ran.1.1 → fnmatch item pattern = false) →
   (build package w).2 = Raise not_found) ∧
  ((∃ item, item ∈ os_listdir topdir ran.1.1 ∧ fnmatch item pattern = true) →
   ∃ item, item ∈ os_listdir topdir ran.1.1 ∧ fnmatch item pattern = true ∧
           Move (os_path_join topdir item) PKG_REPO ∈ log (build package w).1 ∧
           (build package w).2 ≠ Raise not_found).
Proof.
  intros w0 args ran topdir pattern not_found Hran.
  assert (build package w =
          scan_for_build package topdir (os_listdir topdir ran.1.1)
            (emit (Popen args (cwd w0)) (set_fs ran.1.1 w0))) as Hbuild.
  { unfold build. fold w0. fold args. subst ran.
    destruct (popen_wait args (cwd w0) (fs w0)) as [[fs' output] returncode].
    simpl in *. rewrite bool_decide_eq_false_2 by lia. done. }
  rewrite Hbuild. split.
  - intros Hnone. by rewrite Converter_scan_not_found.
  - intros Hsome.
    destruct (Converter_scan_found package topdir _
                (emit (Popen args (cwd w0)) (set_fs ran.1.1 w0)) Hsome)
      as (item & w' & r & -> & Hin & Hmatch & Hmove & Hr).
    by exists item.
Qed.
End legacy_facts.


(** * Further properties of the code *)

(** ** The fetcher under any pip-accel *)

Section fetcher_more.
Import fetcher_examples.
Context `{PipAccel}.

Lemma count_unpack_snoc cs c :
  length (filter is_unpack (cs ++ [c])) =
  length (filter is_unpack cs) + (if is_unpack c then 1 else 0).
Proof.
  rewrite filter_app, length_app. f_equal. by destruct c.
Qed.

Lemma count_download_snoc cs c :
  length (filter is_download (cs ++ [c])) =
  length (filter is_download cs) + (if is_download c then 1 else 0).
Proof.
  rewrite filter_app, length_app. f_equal. by destruct c.
Qed.

(** One round: what it calls, by outcome of the unpack. *)
Lemma try_unpack_calls pip_arguments st :
  let u := length (filter is_unpack (calls st)) in
  let d := length (filter is_download (calls st)) in
  let '(st', r) := try_unpack pip_arguments st in
  match (unpack_source_dists pip_arguments u).2 with
  | Ok sdists =>
      r = Ok (inl sdists) ∧
      calls st' = calls st ++ [UnpackSourceDists pip_arguments]
  | Raise DistributionNotFound =>
      calls st' = calls st ++ [UnpackSourceDists pip_arguments;
                               DownloadSourceDists pip_arguments] ∧
      match (download_source_dists pip_arguments d).2 with
      | Ok _ => r = Ok (inr ())
      | Raise e => r = Raise e
      end
  | Raise e =>
      r = Raise e ∧ calls st' = calls st ++ [UnpackSourceDists pip_arguments]
  end.
Proof.
  intros u d. unfold try_unpack, call_unpack. fold u.
  destruct (unpack_source_dists pip_arguments u) as [lines1 [sd|e]]; simpl.
  - done.
  - unfold call_download. simpl.
    replace (length (filter is_download
                       (calls st ++ [UnpackSourceDists pip_arguments])))
      with d by (rewrite count_download_snoc; simpl; lia).
    destruct (download_source_dists pip_arguments d) as [lines2 [[]|e2]];
      destruct e; simpl; try done; by rewrite <- app_assoc.
Qed.
End fetcher_more.

Section fetcher_more_claims.
Import fetcher_examples retry_examples.

Lemma retry_for_first_success `{PipAccel} pip_arguments max_retries k sdists :
  ∀ remaining st,
    k < remaining →
    (∀ j, j < k →
          (unpack_source_dists pip_arguments
             (length (filter is_unpack (calls st)) + j)).2
          = Raise DistributionNotFound) →
    (∀ j, j < k →
          (download_source_dists pip_arguments
             (length (filter is_download (calls st)) + j)).2 = Ok ()) →
    (unpack_source_dists pip_arguments
       (length (filter is_unpack (calls st)) + k)).2 = Ok sdists →
    ∃ st',
      converter.retry_for remaining pip_arguments max_retries st
      = (st', Ok sdists) ∧
      calls st' = calls st ++ failed_attempts k pip_arguments
                    ++ [UnpackSourceDists pip_arguments].
Proof.
  induction k as [|k IH]; intros remaining st Hk Hnf Hdl Hok;
    (destruct remaining as [|remaining]; [lia|]); cbn [converter.retry_for];
    pose proof (try_unpack_calls pip_arguments st) as Htry;
    cbv zeta in Htry;
    destruct (try_unpack pip_arguments st) as [st1 r1].
  - rewrite Nat.add_0_r in Hok. rewrite Hok in Htry.
    destruct Htry as [-> Hc]. by exists st1.
  - rewrite <- (Nat.add_0_r (length (filter is_unpack (calls st)))) in Htry.
    rewrite (Hnf 0) in Htry by lia. destruct Htry as [Hc Hd].
    rewrite <- (Nat.add_0_r (length (filter is_download (calls st)))) in Hd.
    rewrite (Hdl 0) in Hd by lia. subst r1.
    assert (length (filter is_unpack (calls st1))
            = S (length (filter is_unpack (calls st)))) as Hu.
    { rewrite Hc, filter_app, length_app. simpl. lia. }
    assert (length (filter is_download (calls st1))
            = S (length (filter is_download (calls st)))) as Hdn.
    { rewrite Hc, filter_app, length_app. simpl. lia. }
    destruct (IH remaining st1) as (st' & Hrun & Hcalls).
    + lia.
    + intros j Hj. rewrite Hu.
      replace (S (length (filter is_unpack (calls st))) + j)
        with (length (filter is_unpack (calls st)) + S j) by lia.
      apply Hnf. lia.
    + intros j Hj. rewrite Hdn.
      replace (S (length (filter is_download (calls st))) + j)
        with (length (filter is_download (calls st)) + S j) by lia.
      apply Hdl. lia.
    + rewrite Hu.
      replace (S (length (filter is_unpack (calls st))) + k)
        with (length (filter is_unpack (calls st)) + S k) by lia.
      exact Hok.
    + exists st'. split; [done|]. rewrite Hcalls, Hc. simpl.
      by rewrite <- !app_assoc.
Qed.

(** X1: when the first [k] attempts raise [DistributionNotFound] (each
    followed by a download that returns) and the next attempt succeeds, with
    [k < max_retries], [get_source_dists] returns what that attempt
    unpacked, after exactly those calls and no more. *)
Theorem get_source_dists_first_success `{PipAccel}
    (pip_arguments : list string) (max_retries k : nat)
    (sdists : list sdist) (st : py_state) :
  k < max_retries →
  (∀ j, j < k →
        (unpack_source_dists pip_arguments
           (length (filter is_unpack (calls st)) + j)).2
        = Raise DistributionNotFound) →
  (∀ j, j < k →
        (download_source_dists pip_arguments
           (length (filter is_download (calls st)) + j)).2 = Ok ()) →
  (unpack_source_dists pip_arguments
     (length (filter is_unpack (calls st)) + k)).2 = Ok sdists →
  ∃ st',
    converter.get_source_dists pip_arguments max_retries st = (st', Ok sdists) ∧
    calls st' = calls st ++ InitializeDirectories
                  :: failed_attempts k pip_arguments
                  ++ [UnpackSourceDists pip_arguments].
Proof.
  intros Hk Hnf Hdl Hok.
  unfold converter.get_source_dists, converter.with_RedirectOutput.
  destruct (retry_for_first_success pip_arguments max_retries k sdists
              max_retries
              (initialize_directories (set_sys_stdout (sys_stderr st) st)))
    as (st' & Hrun & Hc).
  - done.
  - intros j Hj. simpl. rewrite count_unpack_snoc. simpl.
    rewrite Nat.add_0_r. by apply Hnf.
  - intros j Hj. simpl. rewrite count_download_snoc. simpl.
    rewrite Nat.add_0_r. by apply Hdl.
  - simpl. rewrite count_unpack_snoc. simpl. by rewrite Nat.add_0_r.
  - rewrite Hrun. eexists. split; [done|]. simpl. rewrite Hc. simpl.
    by rewrite <- app_assoc.
Qed.

Lemma get_source_dists_first_success_witness :
  2 < 10 ∧
  ∃ st',
    @converter.get_source_dists found_at_third ["alpha==1.0"] 10 fresh_state
    = (st', Ok [("alpha", "1.0", "/tmp/py2deb_build/alpha")]) ∧
    calls st' = calls fresh_state ++ InitializeDirectories
                  :: failed_attempts 2 ["alpha==1.0"]
                  ++ [UnpackSourceDists ["alpha==1.0"]].
Proof.
  assert (2 < 10) as Hk by lia. split; [exact Hk|].
  apply (@get_source_dists_first_success found_at_third ["alpha==1.0"] 10 2
           _ fresh_state Hk).
  - intros j Hj. simpl. by rewrite bool_decide_eq_true_2.
  - done.
  - done.
Defined.

(** X2: an exception of the first attempt other than
    [DistributionNotFound] leaves [get_source_dists] at once: it is raised to
    the caller after one unpack call, with no download and no retry. *)
Theorem get_source_dists_other_error `{PipAccel}
    (pip_arguments : list string) (max_retries : nat) (e : exn)
    (st : py_state) :
  0 < max_retries →
  (unpack_source_dists pip_arguments
     (length (filter is_unpack (calls st)))).2 = Raise e →
  e ≠ DistributionNotFound →
  ∃ st',
    converter.get_source_dists pip_arguments max_retries st = (st', Raise e) ∧
    calls st' = calls st ++ [InitializeDirectories;
                             UnpackSourceDists pip_arguments].
Proof.
  intros Hm He Hne.
  unfold converter.get_source_dists, converter.with_RedirectOutput.
  destruct max_retries as [|m]; [lia|]. cbn [converter.retry_for].
  pose proof (try_unpack_calls pip_arguments
                (initialize_directories (set_sys_stdout (sys_stderr st) st)))
    as Htry.
  cbv zeta in Htry.
  destruct (try_unpack _ _) as [st1 r1].
  simpl in Htry. rewrite count_unpack_snoc in Htry. simpl in Htry.
  rewrite Nat.add_0_r, He in Htry.
  assert (r1 = Raise e ∧
          calls st1 = (calls st ++ [InitializeDirectories])
                        ++ [UnpackSourceDists pip_arguments]) as [-> Hc].
  { by destruct e. }
  eexists. split; [done|]. simpl. rewrite Hc. by rewrite <- app_assoc.
Qed.

Lemma get_source_dists_other_error_witness :
  0 < 10 ∧
  ∃ st',
    @converter.get_source_dists broken_pip ["alpha==1.0"] 10 fresh_state
    = (st', Raise (OSError "/root/.pip-accel")) ∧
    calls st' = calls fresh_state ++ [InitializeDirectories;
                                      UnpackSourceDists ["alpha==1.0"]].
Proof.
  assert (0 < 10) as Hm by lia. split; [exact Hm|].
  by apply (@get_source_dists_other_error broken_pip ["alpha==1.0"] 10
              (OSError "/root/.pip-accel") fresh_state Hm).
Defined.
End fetcher_more_claims.

Section fetcher_bounds.
Import fetcher_examples.
Context `{PipAccel}.

Lemma try_unpack_one_attempt pip_arguments st :
  ∃ cs, calls (try_unpack pip_arguments st).1 = calls st ++ cs ∧
        length (filter is_unpack cs) = 1 ∧
        length (filter is_download cs) ≤ 1.
Proof.
  pose proof (try_unpack_calls pip_arguments st) as Htry. cbv zeta in Htry.
  destruct (try_unpack pip_arguments st) as [st1 r1]. simpl.
  destruct (unpack_source_dists _ _).2 as [sd|e].
  - destruct Htry as [_ ->]. eexists. split; [done|]. simpl. lia.
  - destruct e; try (destruct Htry as [_ ->]; eexists; split; [done|];
                     simpl; lia).
    destruct Htry as [-> _]. eexists. split; [done|]. simpl. lia.
Qed.

Lemma retry_for_call_bound pip_arguments max_retries remaining :
  ∀ st, ∃ cs,
    calls (converter.retry_for remaining pip_arguments max_retries st).1
    = calls st ++ cs ∧
    length (filter is_unpack cs) ≤ remaining ∧
    length (filter is_download cs) ≤ length (filter is_unpack cs).
Proof.
  induction remaining as [|remaining IH]; intros st.
  - exists []. simpl. by rewrite app_nil_r.
  - cbn [converter.retry_for].
    destruct (try_unpack_one_attempt pip_arguments st) as (cs1 & Hc1 & Hu1 & Hd1).
    destruct (try_unpack pip_arguments st) as [st1 r1]. simpl in Hc1.
    destruct r1 as [[sd|[]]|e]; simpl.
    + exists cs1. split; [done|]. lia.
    + destruct (IH st1) as (cs2 & Hc2 & Hu2 & Hd2).
      exists (cs1 ++ cs2). rewrite Hc2, Hc1, <- app_assoc.
      split; [done|]. rewrite !filter_app, !length_app. lia.
    + exists cs1. split; [done|]. lia.
Qed.

Lemma retry_while_call_bound pip_arguments max_retries fuel :
  ∀ i st, max_retries ≤ fuel + i →
    ∃ st' r cs,
      util_converter.retry_while fuel i pip_arguments max_retries st
      = Some (st', r) ∧
      calls st' = calls st ++ cs ∧
      length (filter is_unpack cs) ≤ max_retries - i ∧
      length (filter is_download cs) ≤ length (filter is_unpack cs).
Proof.
  induction fuel as [|fuel IH]; intros i st Hfuel.
  - simpl. rewrite bool_decide_eq_false_2 by lia.
    eexists _, _, []. rewrite app_nil_r. split; [done|]. split; [done|].
    simpl. lia.
  - cbn [util_converter.retry_while]. case_bool_decide as Hi.
    + destruct (try_unpack_one_attempt pip_arguments st)
        as (cs1 & Hc1 & Hu1 & Hd1).
      destruct (try_unpack pip_arguments st) as [st1 r1]. simpl in Hc1.
      destruct r1 as [[sd|[]]|e].
      * eexists _, _, cs1. split; [done|]. split; [done|]. lia.
      * destruct (IH (i + 1) st1) as (st' & r & cs2 & Hrun & Hc2 & Hu2 & Hd2);
          [lia|].
        exists st', r, (cs1 ++ cs2). rewrite Hrun, Hc2, Hc1, <- app_assoc.
        split; [done|]. split; [done|].
        rewrite !filter_app, !length_app. lia.
      * eexists _, _, cs1. split; [done|]. split; [done|]. lia.
    + eexists _, _, []. rewrite app_nil_r. split; [done|]. split; [done|].
      simpl. lia.
Qed.
End fetcher_bounds.

Section fetcher_bounds_claims.

(** X3: whatever pip-accel does, [get_source_dists] calls
    [unpack_source_dists] at most [max_retries] times, and never downloads
    more often than it has tried to unpack. *)
Theorem get_source_dists_call_bound `{PipAccel}
    (pip_arguments : list string) (max_retries : nat) (st : py_state) :
  ∃ cs,
    calls (converter.get_source_dists pip_arguments max_retries st).1
    = calls st ++ InitializeDirectories :: cs ∧
    length (filter is_unpack cs) ≤ max_retries ∧
    length (filter is_download cs) ≤ length (filter is_unpack cs).
Proof.
  unfold converter.get_source_dists, converter.with_RedirectOutput.
  destruct (retry_for_call_bound pip_arguments max_retries max_retries
              (initialize_directories (set_sys_stdout (sys_stderr st) st)))
    as (cs & Hc & Hu & Hd).
  destruct (converter.retry_for _ _ _ _) as [st1 r1]. simpl in *.
  exists cs. rewrite Hc, <- app_assoc. done.
Qed.

(** X4: whatever pip-accel does, the [while] loop of
    [Converter.get_source_dists] ends, after at most [max_retries - 1] calls
    of [unpack_source_dists] and no more downloads than unpacks. *)
Theorem Converter_get_source_dists_call_bound `{PipAccel}
    (pip_arguments : list string) (max_retries : nat) (st : py_state) :
  ∃ st' r cs,
    util_converter.get_source_dists pip_arguments max_retries st
    = Some (st', r) ∧
    calls st' = calls st ++ InitializeDirectories :: cs ∧
    length (filter is_unpack cs) ≤ max_retries - 1 ∧
    length (filter is_download cs) ≤ length (filter is_unpack cs).
Proof.
  unfold util_converter.get_source_dists.
  destruct (retry_while_call_bound pip_arguments max_retries max_retries 1
              (initialize_directories st)) as (st' & r & cs & Hrun & Hc & Hb);
    [lia|].
  exists st', r, cs. split; [done|]. simpl in Hc.
  rewrite Hc, <- app_assoc. done.
Qed.
End fetcher_bounds_claims.

(** ** The resolver beyond the closure *)

Section resolver_more.
Import converter closure.

Lemma ignore_loop_no_replacement limit packages
    (replacements : gmap string string) items :
  (∀ n, n ∈ items.*1 → n ∉ dom replacements) →
  ∀ acc, ignore_loop limit packages replacements items acc = Ok acc.
Proof.
  induction items as [|[n p] items IH]; intros Hnone acc; [done|].
  cbn [ignore_loop]. rewrite bool_decide_eq_false_2.
  - apply IH. intros n' Hn'. apply Hnone. by right.
  - apply Hnone. left.
Qed.

Lemma build_loop_nothing_ignored items :
  ∀ acc, build_loop [] items acc = acc ++ items.*2.
Proof.
  induction items as [|[n p] items IH]; intros acc.
  - by rewrite app_nil_r.
  - cbn [build_loop]. rewrite bool_decide_eq_true_2 by apply not_elem_of_nil.
    rewrite IH. simpl. by rewrite <- app_assoc.
Qed.

Lemma packages_dict_snoc sdists package :
  packages_dict (sdists ++ [package]) =
  <[name package := package]> (packages_dict sdists).
Proof. unfold packages_dict. by rewrite foldl_app. Qed.

Lemma get_related_packages_mono limit :
  ∀ limit' n packages r,
    get_related_packages limit n packages = Ok r →
    limit ≤ limit' →
    get_related_packages limit' n packages = Ok r.
Proof.
  induction limit as [|limit IH]; intros limit' n packages r; [done|].
  destruct limit' as [|limit']; [lia|]. simpl.
  destruct (packages !! n) as [p|]; [|done].
  destruct (extend_each _ (py_dependencies p)) as [rel|] eqn:Hrel;
    simpl; [|done].
  intros [= <-] Hle. apply extend_each_Ok in Hrel as (rs & Hrs & ->).
  rewrite (proj2 (extend_each_Ok
    (λ dependency, get_related_packages limit' dependency packages)
    (py_dependencies p) (mjoin rs))); [done|].
  exists rs. split; [|done].
  eapply Forall2_impl; [exact Hrs|]. simpl. intros d l Hd.
  apply (IH limit' d packages l Hd). lia.
Qed.
End resolver_more.

Section resolver_more_claims.
Import converter closure resolver_examples.

(** X5: when no candidate is named in the replacement map,
    [get_required_packages] looks at no dependency at all: it returns every
    candidate, whatever the recursion allowance and whether or not the
    dependencies form a cycle. *)
Theorem get_required_packages_no_replacement
    (limit : nat) (sdists : list Package)
    (replacements : gmap string string) :
  (∀ n, n ∈ dom (packages_dict sdists) → n ∉ dom replacements) →
  get_required_packages limit sdists replacements
  = Ok ((map_to_list (packages_dict sdists)).*2).
Proof.
  intros Hnone. unfold get_required_packages. cbv zeta.
  rewrite ignore_loop_no_replacement.
  - simpl. by rewrite build_loop_nothing_ignored.
  - intros n ([n' p] & -> & Hin)%list_elem_of_fmap. apply Hnone.
    apply elem_of_map_to_list in Hin. apply elem_of_dom. by eexists.
Qed.

Lemma get_required_packages_no_replacement_witness :
  (∀ n, n ∈ dom (packages_dict cyclic_sdists) →
        n ∉ dom ({["gamma" := "libgamma"]} : gmap string string)) ∧
  get_required_packages 0 cyclic_sdists {["gamma" := "libgamma"]}
  = Ok ((map_to_list (packages_dict cyclic_sdists)).*2).
Proof.
  assert (∀ n, n ∈ dom (packages_dict cyclic_sdists) →
               n ∉ dom ({["gamma" := "libgamma"]} : gmap string string))
    as Hnone.
  { intros n Hn. rewrite dom_singleton_L. apply not_elem_of_singleton_2.
    intros ->. apply elem_of_dom in Hn as [p Hp]. by vm_compute in Hp. }
  split; [exact Hnone|].
  exact (get_required_packages_no_replacement 0 cyclic_sdists
           {["gamma" := "libgamma"]} Hnone).
Defined.

(** X6: the dictionary built from the unpacked distributions maps a name to
    the last distribution of that name in pip-accel's list, and to nothing
    when there is none. *)
Theorem packages_dict_last (sdists : list Package) (n : string) :
  packages_dict sdists !! n = last (filter (λ p, name p = n) sdists).
Proof.
  induction sdists as [|package sdists IH] using rev_ind; [done|].
  rewrite packages_dict_snoc, filter_app, filter_cons, filter_nil.
  destruct (decide (name package = n)) as [<-|Hne].
  - by rewrite lookup_insert_eq, last_snoc.
  - rewrite lookup_insert_ne by done. by rewrite app_nil_r.
Qed.

(** X7: a closure that [get_related_packages] returns does not depend on
    the recursion allowance: every larger allowance gives the same list. *)
Theorem get_related_packages_limit_independent
    (limit limit' : nat) (pkg_name : string)
    (packages : gmap string Package) (related_names : list string) :
  get_related_packages limit pkg_name packages = Ok related_names →
  limit ≤ limit' →
  get_related_packages limit' pkg_name packages = Ok related_names.
Proof. intros Hr Hle. by apply (get_related_packages_mono limit). Qed.

Lemma get_related_packages_limit_independent_witness :
  get_related_packages 2 "alpha" (packages_dict chain_sdists)
  = Ok ["alpha"; "beta"] ∧
  2 ≤ 1000 ∧
  get_related_packages 1000 "alpha" (packages_dict chain_sdists)
  = Ok ["alpha"; "beta"].
Proof.
  assert (get_related_packages 2 "alpha" (packages_dict chain_sdists)
          = Ok ["alpha"; "beta"]) as Hr by (by vm_compute).
  assert (2 ≤ 1000) as Hle by lia.
  split; [exact Hr|]. split; [exact Hle|].
  exact (get_related_packages_limit_independent 2 1000 "alpha"
           (packages_dict chain_sdists) ["alpha"; "beta"] Hr Hle).
Defined.
End resolver_more_claims.

(** ** [patch_control], [apply_script] and [build]: errors and side effects *)

Section patch_control_more.
Import converter.
Context `{DebianLib, Py2debUtil}.

Lemma config_get_without_option (config : ConfigParser) section option :
  has_option section option config = false →
  config_get section option config = Raise (NoSectionError section) ∨
  config_get section option config = Raise (NoOptionError option section).
Proof.
  unfold has_option, config_get.
  destruct (config !! section) as [options|]; [|by left].
  intros Hopt%bool_decide_eq_false. right.
  destruct (options !! str_lower option); [|done].
  exfalso. by apply Hopt.
Qed.

Lemma patch_paragraph_without_prefix package replacements config binary :
  has_option "general" "virtual-prefix" config
  && has_option "general" "custom-prefix" config = false →
  ∃ e, patch_paragraph package replacements config binary = Raise e ∧
       (e = NoSectionError "general" ∨
        e = NoOptionError "virtual-prefix" "general" ∨
        e = NoOptionError "custom-prefix" "general").
Proof.
  intros Hopt. unfold patch_paragraph.
  destruct (has_option "general" "virtual-prefix" config) eqn:Hv.
  - destruct (has_option_get _ _ _ Hv) as (v & -> & _). simpl in *.
    destruct (config_get_without_option _ _ _ Hopt) as [-> | ->];
      eexists; split; eauto.
  - destruct (config_get_without_option _ _ _ Hv) as [-> | ->];
      eexists; split; eauto.
Qed.

Lemma write_file_other path content fs0 fs1 :
  write_file path content fs0 = Ok fs1 →
  delete path (files fs1) = delete path (files fs0) ∧ dirs fs1 = dirs fs0.
Proof.
  unfold write_file. destruct (os_path_isdir path fs0); [done|].
  intros [= <-]. simpl. by rewrite delete_insert_eq.
Qed.
End patch_control_more.

Section patch_control_more_claims.
Import converter patch_examples convert_examples.

(** X8: a control file that does not hold exactly two paragraphs makes
    [patch_control] raise the assertion error that names the package, and
    the file system is left as it was: the file is not emptied. *)
Theorem patch_control_rejects_format `{DebianLib, Py2debUtil}
    (package : Package) (replacements : gmap string string)
    (config : ConfigParser) (fs : filesystem) (content : string) :
  read_file (control_file_of package) fs = Ok content →
  length (iter_paragraphs content) ≠ 2 →
  patch_control package replacements config fs =
  (fs, Raise (AssertionError ("Unexpected control file format for "
                              +:+ name package +:+ "."))).
Proof.
  intros Hread Hlen. unfold patch_control. rewrite Hread.
  by destruct (iter_paragraphs content) as [|? [|? [|? ?]]].
Qed.

Lemma patch_control_rejects_format_witness :
  read_file (control_file_of alpha) one_paragraph_disk
    = Ok (simple_deb822.dump source) ∧
  length (simple_deb822.parse (simple_deb822.dump source)) ≠ 2 ∧
  @patch_control simple_deb822.lib util alpha ∅ config one_paragraph_disk =
  (one_paragraph_disk,
   Raise (AssertionError "Unexpected control file format for alpha.")).
Proof.
  assert (read_file (control_file_of alpha) one_paragraph_disk
          = Ok (simple_deb822.dump source)) as Hread by (by vm_compute).
  assert (length (simple_deb822.parse (simple_deb822.dump source)) ≠ 2)
    as Hlen by (by vm_compute).
  split; [exact Hread|]. split; [exact Hlen|].
  exact (@patch_control_rejects_format simple_deb822.lib util alpha ∅ config
           one_paragraph_disk _ Hread Hlen).
Defined.

(** X9: when the [general] section lacks [virtual-prefix] or
    [custom-prefix], [patch_control] of a well-formed control file raises the
    configuration error after it has opened the file for writing: the control
    file is left empty. *)
Theorem patch_control_config_error_empties_file `{DebianLib, Py2debUtil}
    (package : Package) (replacements : gmap string string)
    (config : ConfigParser) (fs : filesystem)
    (content : string) (source binary : Deb822) :
  read_file (control_file_of package) fs = Ok content →
  iter_paragraphs content = [source; binary] →
  os_path_isdir (control_file_of package) fs = false →
  has_option "general" "virtual-prefix" config
  && has_option "general" "custom-prefix" config = false →
  ∃ fs' e,
    patch_control package replacements config fs = (fs', Raise e) ∧
    (e = NoSectionError "general" ∨
     e = NoOptionError "virtual-prefix" "general" ∨
     e = NoOptionError "custom-prefix" "general") ∧
    read_file (control_file_of package) fs' = Ok "".
Proof.
  intros Hread Hparse Hdir Hopt.
  destruct (patch_paragraph_without_prefix package replacements config binary
              Hopt) as (e & He & Hkind).
  unfold patch_control. rewrite Hread, Hparse. unfold write_file.
  rewrite Hdir, He. eexists _, e. split; [done|]. split; [done|].
  unfold read_file. simpl. by rewrite lookup_insert_eq.
Qed.

Lemma patch_control_config_error_empties_file_witness :
  read_file (control_file_of alpha) disk
    = Ok (@control_text simple_deb822.lib source binary) ∧
  simple_deb822.parse (@control_text simple_deb822.lib source binary)
    = [source; binary] ∧
  os_path_isdir (control_file_of alpha) disk = false ∧
  has_option "general" "virtual-prefix" config_without_prefix
  && has_option "general" "custom-prefix" config_without_prefix = false ∧
  ∃ fs' e,
    @patch_control simple_deb822.lib util alpha ∅ config_without_prefix disk
    = (fs', Raise e) ∧
    read_file (control_file_of alpha) fs' = Ok "".
Proof.
  assert (read_file (control_file_of alpha) disk
          = Ok (@control_text simple_deb822.lib source binary)) as H1
    by (by vm_compute).
  assert (simple_deb822.parse (@control_text simple_deb822.lib source binary)
          = [source; binary]) as H2 by (by vm_compute).
  assert (os_path_isdir (control_file_of alpha) disk = false) as H3
    by (by vm_compute).
  assert (has_option "general" "virtual-prefix" config_without_prefix
          && has_option "general" "custom-prefix" config_without_prefix
          = false) as H4 by (by vm_compute).
  repeat (split; [assumption|]).
  destruct (@patch_control_config_error_empties_file simple_deb822.lib util
              alpha ∅ config_without_prefix disk _ source binary H1 H2 H3 H4)
    as (fs' & e & Hrun & _ & Hempty).
  exists fs', e. split; [exact Hrun|exact Hempty].
Defined.

(** X10: whatever its outcome, [patch_control] touches no path but the
    control file of the package: every other file keeps its content and the
    directories stay the same. *)
Theorem patch_control_frame `{DebianLib, Py2debUtil}
    (package : Package) (replacements : gmap string string)
    (config : ConfigParser) (fs : filesystem) :
  delete (control_file_of package)
    (files (patch_control package replacements config fs).1)
  = delete (control_file_of package) (files fs) ∧
  dirs (patch_control package replacements config fs).1 = dirs fs.
Proof.
  unfold patch_control.
  destruct (read_file (control_file_of package) fs) as [content|e]; [|done].
  destruct (iter_paragraphs content) as [|source [|binary [|? ?]]]; try done.
  destruct (write_file (control_file_of package) "" fs) as [fs1|e] eqn:Hw1;
    [|done].
  destruct (write_file_other _ _ _ _ Hw1) as [Hf1 Hd1].
  destruct (patch_paragraph package replacements config binary)
    as [binary'|e]; [|done].
  destruct (write_file (control_file_of package) _ fs1) as [fs2|e] eqn:Hw2;
    [|done].
  destruct (write_file_other _ _ _ _ Hw2) as [Hf2 Hd2].
  simpl. split; congruence.
Qed.

(** X11: [apply_script] never fails on the configuration: it returns, or
    raises "Failed to apply script on ..." when the command exits with a
    non-zero status.  Without a [script] option for the package it runs
    nothing and changes nothing; with one it runs that command once, in the
    package directory. *)
Theorem apply_script_outcomes `{Py2debUtil}
    (package : Package) (config : ConfigParser) (verbose : bool) (w : world) :
  let w' := (apply_script package config verbose w).1 in
  let r := (apply_script package config verbose w).2 in
  (r = Ok () ∨
   r = Raise (Exception ("Failed to apply script on " +:+ name package))) ∧
  match config !! name package ≫= (λ options, options !! "script") with
  | None => w' = w ∧ r = Ok ()
  | Some command =>
      log w' = log w ++ [Run command (directory package)] ∧
      fs w' = (run command (directory package) verbose (fs w)).1 ∧
      (r = Ok () ↔
       (run command (directory package) verbose (fs w)).2 = 0%Z)
  end.
Proof.
  intros w' r. subst w' r. unfold apply_script.
  destruct (has_option (name package) "script" config) eqn:Hopt.
  - destruct (has_option_get _ _ _ Hopt) as (command & -> & Hcmd).
    change (str_lower "script") with "script" in Hcmd. rewrite Hcmd.
    destruct (run command (directory package) verbose (fs w))
      as [fs' status]. simpl.
    destruct (decide (status = 0%Z)) as [Hstatus|Hstatus].
    + rewrite bool_decide_eq_false_2 by (by intros ?). simpl.
      split; [by left|]. by split; [|split].
    + rewrite bool_decide_eq_true_2 by done. simpl.
      split; [by right|]. split; [done|]. split; [done|]. by split.
  - pose proof (has_option_false _ _ _ Hopt) as Hnone.
    change (str_lower "script") with "script" in Hnone. rewrite Hnone.
    simpl. split; [by left|done].
Qed.
End patch_control_more_claims.

(** ** [convert], [debianize] and [build]: what a run leaves behind *)

Section convert_more.
Import converter converter_rest.
Context `{Host, DebianLib, Py2debUtil, PipAccelDeps, OsPath}.

Lemma extends_log_refl w : extends_log w w.
Proof. exists []. by rewrite app_nil_r. Qed.

Lemma extends_log_trans w1 w2 w3 :
  extends_log w1 w2 → extends_log w2 w3 → extends_log w1 w3.
Proof.
  intros (l1 & Ha & Fa) (l2 & Hb & Fb). exists (l1 ++ l2).
  split; [by rewrite Hb, Ha, app_assoc | by apply Forall_app].
Qed.

Lemma extends_log_emit e w w' :
  loop_event e → extends_log w w' → extends_log w (emit e w').
Proof.
  intros He (l & Hl & Fl). exists (l ++ [e]). simpl.
  split; [by rewrite Hl, app_assoc|].
  apply Forall_app. split; [done|]. by constructor.
Qed.

Lemma extends_log_set_fs fs' w w' :
  extends_log w w' → extends_log w (set_fs fs' w').
Proof. by intros (l & Hl & Fl); exists l. Qed.

Lemma extends_log_set_environ k v w w' :
  extends_log w w' → extends_log w (set_environ k v w').
Proof. by intros (l & Hl & Fl); exists l. Qed.

Lemma debianize_log package verbose w :
  extends_log w (debianize package verbose w).1.
Proof.
  unfold debianize.
  destruct (run _ (directory package) verbose (fs w)) as [fs' status].
  destruct (bool_decide (status ≠ 0%Z)); simpl;
    by apply extends_log_emit, extends_log_set_fs, extends_log_refl.
Qed.

Lemma apply_script_log package config verbose w :
  extends_log w (apply_script package config verbose w).1.
Proof.
  unfold apply_script.
  destruct (has_option (name package) "script" config);
    [|apply extends_log_refl].
  destruct (config_get (name package) "script" config) as [command|e];
    [|apply extends_log_refl].
  destruct (run command (directory package) verbose (fs w)) as [fs' status].
  destruct (bool_decide (status ≠ 0%Z)); simpl;
    by apply extends_log_emit, extends_log_set_fs, extends_log_refl.
Qed.

Lemma scan_for_build_log package repository parent filenames w :
  extends_log w (scan_for_build package repository parent filenames w).1.
Proof.
  induction filenames as [|f filenames IH]; simpl; [apply extends_log_refl|].
  destruct (str_endswith f ".deb" && fnmatch f _); [|done].
  destruct (os_system _ (fs w)) as [fs1 status].
  destruct (shutil_move _ repository _) as [fs2|e]; simpl.
  - apply extends_log_set_fs.
    by do 2 (apply extends_log_emit; [done|]);
      apply extends_log_set_fs, extends_log_refl.
  - by do 2 (apply extends_log_emit; [done|]);
      apply extends_log_set_fs, extends_log_refl.
Qed.

Lemma build_log package repository verbose w :
  extends_log w (build package repository verbose w).1.
Proof.
  unfold build. simpl.
  destruct (run build_command (directory package) verbose _)
    as [fs' status].
  destruct (bool_decide (status ≠ 0%Z)); simpl.
  - by apply extends_log_emit, extends_log_set_fs, extends_log_set_environ,
      extends_log_refl.
  - eapply extends_log_trans; [|apply scan_for_build_log].
    by apply extends_log_emit, extends_log_set_fs, extends_log_set_environ,
      extends_log_refl.
Qed.

Lemma convert_unbuilt_log package replacements config repo_dir
    auto_install verbose w :
  extends_log w
    (convert_unbuilt package replacements config repo_dir auto_install
       verbose w).1.
Proof.
  unfold convert_unbuilt.
  pose proof (debianize_log package verbose w) as Hd.
  destruct (debianize package verbose w) as [w1 [[]|e]]; simpl in *; [|done].
  destruct (patch_control package replacements config (fs w1))
    as [fs2 [[]|e]]; simpl; [|by apply extends_log_set_fs].
  pose proof (apply_script_log package config verbose (set_fs fs2 w1)) as Hs.
  destruct (apply_script package config verbose (set_fs fs2 w1))
    as [w3 [[]|e]]; simpl in *.
  2:{ eapply extends_log_trans; [|exact Hs]. by apply extends_log_set_fs. }
  destruct (sanity_check_dependencies (name package) auto_install (fs w3))
    as [fs4 [[]|e]]; simpl.
  - eapply extends_log_trans; [|apply build_log].
    apply extends_log_emit; [done|]. apply extends_log_set_fs.
    eapply extends_log_trans; [|exact Hs]. by apply extends_log_set_fs.
  - apply extends_log_emit; [done|]. apply extends_log_set_fs.
    eapply extends_log_trans; [|exact Hs]. by apply extends_log_set_fs.
Qed.

Lemma convert_loop_log requirements replacements config repo_dir
    auto_install verbose converted w :
  extends_log w
    (convert_loop requirements replacements config repo_dir auto_install
       verbose converted w).1.
Proof.
  revert converted w.
  induction requirements as [|package requirements IH]; intros converted w;
    cbn [convert_loop]; [apply extends_log_refl|].
  destruct (find_build package repo_dir (fs w)) as [|first rest].
  - pose proof (convert_unbuilt_log package replacements config repo_dir
                  auto_install verbose w) as Hu.
    destruct (convert_unbuilt package replacements config repo_dir
                auto_install verbose w) as [w' debfile]; simpl in Hu.
    destruct (debfile ≫= _) as [entry|e]; [|done].
    eapply extends_log_trans; [exact Hu|apply IH].
  - destruct (DebFile_open _ (fs w) ≫= _) as [entry|e];
      [apply IH|apply extends_log_refl].
Qed.

Lemma scan_for_build_environ package repository parent filenames w :
  environ (scan_for_build package repository parent filenames w).1
  = environ w.
Proof.
  induction filenames as [|f filenames IH]; simpl; [done|].
  destruct (str_endswith f ".deb" && fnmatch f _); [|done].
  destruct (os_system _ (fs w)) as [fs1 status].
  by destruct (shutil_move _ repository _) as [fs2|e].
Qed.
End convert_more.

Section convert_more_claims.
Import converter converter_rest build_examples convert_examples.

(** X12: the build directory is removed only at the end of a conversion
    that succeeded: [Rmtree build_dir] is recorded exactly when the part of
    [convert] from the repository lookup on returns the list of converted
    packages, and never when it raises. *)
Theorem convert_removes_build_dir_iff_success
    `{Host, DebianLib, Py2debUtil, PipAccelDeps, OsPath}
    (requirements : list Package) (replacements : gmap string string)
    (config : ConfigParser) (build_dir : string)
    (auto_install verbose : bool) (w : world) :
  Rmtree build_dir ∉ log w →
  let w' := (convert_tail requirements replacements config build_dir
               auto_install verbose w).1 in
  let r := (convert_tail requirements replacements config build_dir
              auto_install verbose w).2 in
  Rmtree build_dir ∈ log w' ↔ ∃ converted, r = Ok converted.
Proof.
  intros Hfresh w' r. subst w' r. unfold convert_tail.
  destruct (config_get "general" "repository" config) as [repository|e];
    simpl.
  2:{ split; [done|]. by intros [? ?]. }
  pose proof (convert_loop_log requirements replacements config
                (os_path_abspath repository (cwd w)) auto_install verbose []
                w) as (events & Hlog & Hev).
  destruct (convert_loop requirements replacements config _ auto_install
              verbose [] w) as [w1 [converted|e]]; simpl in *.
  - destruct (shutil_rmtree build_dir (fs w1)) as [fs'|e]; simpl.
    + split; [by eexists|]. intros _. apply elem_of_app. right.
      apply list_elem_of_singleton. done.
    + split; [|by intros [? ?]]. rewrite Hlog. intros [?|Hin]%elem_of_app;
        [done|].
      by apply (proj1 (Forall_forall _ _) Hev) in Hin.
  - split; [|by intros [? ?]]. rewrite Hlog. intros [?|Hin]%elem_of_app;
      [done|].
    by apply (proj1 (Forall_forall _ _) Hev) in Hin.
Qed.

Lemma convert_removes_build_dir_iff_success_witness :
  (Rmtree "/tmp/py2deb_x" ∉ log start) ∧
  (Rmtree "/tmp/py2deb_x"
     ∈ log (@convert_tail host simple_deb822.lib failing_util deps
              paths_from_cwd [alpha] ∅ config_with_repository
              "/tmp/py2deb_x" false false start).1
   ↔ ∃ converted,
       (@convert_tail host simple_deb822.lib failing_util deps
          paths_from_cwd [alpha] ∅ config_with_repository
          "/tmp/py2deb_x" false false start).2 = Ok converted).
Proof.
  assert (Rmtree "/tmp/py2deb_x" ∉ log start) as Hfresh
    by (simpl; apply not_elem_of_nil).
  split; [exact Hfresh|].
  exact (@convert_removes_build_dir_iff_success host simple_deb822.lib
           failing_util deps paths_from_cwd [alpha] ∅ config_with_repository
           "/tmp/py2deb_x" false false start Hfresh).
Defined.

(** X13: a package without a build in the repository whose [setup.py
    debianize] command exits with a non-zero status stops the loop of
    [convert]: the exception "Failed to debianize package! (name)" is raised,
    the debianize command is the only thing that was run, and no later
    package is looked at. *)
Theorem convert_stops_at_failed_debianize
    `{Host, DebianLib, Py2debUtil, PipAccelDeps}
    (package : Package) (requirements' : list Package)
    (replacements : gmap string string) (config : ConfigParser)
    (repo_dir : string) (auto_install verbose : bool)
    (converted : list string) (w : world) :
  let command :=
    String.concat " "
      [os_path_join (os_path_join sys_prefix "bin") "python"; "setup.py";
       "--command-packages=stdeb.command"; "debianize";
       "--ignore-install-requires"] in
  find_build package repo_dir (fs w) = [] →
  (run command (directory package) verbose (fs w)).2 ≠ 0%Z →
  convert_loop (package :: requirements') replacements config repo_dir
    auto_install verbose converted w =
  (emit (Run command (directory package))
     (set_fs (run command (directory package) verbose (fs w)).1 w),
   Raise (Exception ("Failed to debianize package! ("
                     +:+ name package +:+ ")"))).
Proof.
  intros command Hnone Hstatus. cbn [convert_loop]. rewrite Hnone.
  unfold convert_unbuilt, debianize, IGNORE_INSTALL_REQUIRES. cbn [app].
  fold command.
  destruct (run command (directory package) verbose (fs w)) as [fs' status].
  simpl in Hstatus. by rewrite bool_decide_eq_true_2 by done.
Qed.

Lemma convert_stops_at_failed_debianize_witness :
  @find_build host alpha "/var/repo" (fs start) = [] ∧
  (@run failing_util
     "/usr/bin/python setup.py --command-packages=stdeb.command debianize --ignore-install-requires"
     (directory alpha) false (fs start)).2 ≠ 0%Z ∧
  @convert_loop host simple_deb822.lib failing_util deps [alpha; alpha] ∅
    config_with_repository "/var/repo" false false [] start =
  (emit (Run "/usr/bin/python setup.py --command-packages=stdeb.command debianize --ignore-install-requires"
           (directory alpha)) start,
   Raise (Exception "Failed to debianize package! (alpha)")).
Proof.
  assert (@find_build host alpha "/var/repo" (fs start) = []) as Hnone
    by (by vm_compute).
  assert ((@run failing_util
     "/usr/bin/python setup.py --command-packages=stdeb.command debianize --ignore-install-requires"
     (directory alpha) false (fs start)).2 ≠ 0%Z) as Hstatus by done.
  split; [exact Hnone|]. split; [exact Hstatus|].
  exact (@convert_stops_at_failed_debianize host simple_deb822.lib
           failing_util deps alpha [alpha] ∅ config_with_repository
           "/var/repo" false false [] start Hnone Hstatus).
Defined.

(** X14: whatever its outcome, [build] leaves the environment of the process
    changed in one place only: [DH_OPTIONS] is set to [--no-guessing-deps],
    and stays set after the build. *)
Theorem build_sets_DH_OPTIONS `{Host, DebianLib, Py2debUtil}
    (package : Package) (repository : string) (verbose : bool) (w : world) :
  environ (build package repository verbose w).1
  = <["DH_OPTIONS" := "--no-guessing-deps"]> (environ w).
Proof.
  unfold build. simpl.
  destruct (run build_command (directory package) verbose _)
    as [fs' status].
  destruct (bool_decide (status ≠ 0%Z)); simpl; [done|].
  by rewrite scan_for_build_environ.
Qed.

(** X15: when every required package already has a build in the repository
    that can be read, the conversion runs no command at all: the listed
    entries are returned and the one change to the world is the removal of
    the build directory. *)
Theorem convert_all_cached
    `{Host, DebianLib, Py2debUtil, PipAccelDeps, OsPath}
    (requirements : list Package) (entries : list string)
    (replacements : gmap string string)
    (config : ConfigParser) (repository build_dir : string)
    (auto_install verbose : bool) (w : world) (fs' : filesystem) :
  config_get "general" "repository" config = Ok repository →
  Forall2 (λ package entry,
     let found := find_build package
                    (os_path_abspath repository (cwd w)) (fs w) in
     found ≠ [] ∧
     DebFile_debcontrol (List.last found "") (fs w) ≫= format_dependency
     = Ok entry) requirements entries →
  shutil_rmtree build_dir (fs w) = Ok fs' →
  convert_tail requirements replacements config build_dir auto_install
    verbose w
  = (emit (Rmtree build_dir) (set_fs fs' w), Ok entries).
Proof.
  intros Hrepo Hall Hrm. unfold convert_tail. rewrite Hrepo.
  assert (∀ converted,
    convert_loop requirements replacements config
      (os_path_abspath repository (cwd w)) auto_install verbose converted w
    = (w, Ok (converted ++ entries))) as Hloop.
  { induction Hall as [|package entry requirements entries [Hfound Hentry] _ IH];
      intros converted; cbn [convert_loop]; [by rewrite app_nil_r|].
    simpl in Hfound, Hentry.
    destruct (find_build package _ (fs w)) as [|first rest] eqn:Hfb; [done|].
    unfold DebFile_open.
    destruct (DebFile_debcontrol _ (fs w)) as [control|e]; [|done].
    simpl in *. rewrite Hentry. rewrite IH. by rewrite <- app_assoc. }
  rewrite (Hloop []). by rewrite Hrm.
Qed.

Lemma convert_all_cached_witness :
  config_get "general" "repository" config_with_repository = Ok "/var/repo" ∧
  (∃ fs', shutil_rmtree "/tmp/py2deb_x" (fs stocked) = Ok fs') ∧
  ∃ w',
    @convert_tail host simple_deb822.lib util deps paths_from_cwd
      [alpha] ∅ config_with_repository "/tmp/py2deb_x" false false stocked
    = (w', Ok ["python-alpha (=0.9-1)"]) ∧
    log w' = [Rmtree "/tmp/py2deb_x"].
Proof.
  assert (config_get "general" "repository" config_with_repository
          = Ok "/var/repo") as Hrepo by (by vm_compute).
  assert (∃ fs', shutil_rmtree "/tmp/py2deb_x" (fs stocked) = Ok fs')
    as [fs' Hrm].
  { unfold shutil_rmtree.
    assert (os_path_isdir "/tmp/py2deb_x" (fs stocked) = true) as ->
      by (by vm_compute).
    by eexists. }
  split; [exact Hrepo|]. split; [by exists fs'|].
  exists (emit (Rmtree "/tmp/py2deb_x") (set_fs fs' stocked)).
  split; [|done].
  apply (@convert_all_cached host simple_deb822.lib util deps paths_from_cwd
           [alpha] ["python-alpha (=0.9-1)"] ∅ config_with_repository
           "/var/repo" "/tmp/py2deb_x" false false stocked fs' Hrepo);
    [|exact Hrm].
  constructor; [|constructor]. split; by vm_compute.
Defined.
End convert_more_claims.

(** ** The result store of the older converter: what it writes *)

Section store_more.
Import util_converter.
Context `{Hashlib, DebianLib, Py2debConfig, UtilModule}.

Lemma find_dependency_file_effect self fs :
  files (find_dependency_file self fs).1 = files fs ∧
  (dirs (find_dependency_file self fs).1 = dirs fs ∨
   dirs (find_dependency_file self fs).1 = {[DEPENDENCY_STORE]} ∪ dirs fs).
Proof.
  unfold find_dependency_file.
  destruct (read_file (requirements_file self) fs) as [content|e];
    [|by split; [|left]].
  destruct (os_path_isdir DEPENDENCY_STORE fs); [by split; [|left]|].
  unfold os_makedirs.
  destruct (os_path_isfile DEPENDENCY_STORE fs); simpl;
    [by split; [|left]|by split; [|right]].
Qed.

Lemma find_dependency_file_path self fs content :
  read_file (requirements_file self) fs = Ok content →
  ∀ path, (find_dependency_file self fs).2 = Ok path →
          path = dependency_file_of content.
Proof.
  intros Hread path. unfold find_dependency_file. rewrite Hread.
  destruct (os_path_isdir DEPENDENCY_STORE fs); [by intros [= <-]|].
  destruct (os_makedirs DEPENDENCY_STORE fs); simpl; [by intros [= <-]|done].
Qed.

Lemma collect_deplist_raises pkgs fs pkg e :
  pkg ∈ pkgs →
  DebFile_debcontrol (os_path_join PKG_REPO (debfile pkg)) fs
    ≫= format_dependency = Raise e →
  ∀ deplist, ∃ e', collect_deplist pkgs fs deplist = Raise e'.
Proof.
  intros Hin Hbad. induction pkgs as [|pkg0 pkgs IH]; intros deplist.
  { by apply elem_of_nil in Hin. }
  cbn [collect_deplist].
  destruct (DebFile_debcontrol (os_path_join PKG_REPO (debfile pkg0)) fs)
    as [control|e0] eqn:Hc; simpl; [|by eexists].
  destruct (format_dependency control) as [entry|e0] eqn:Hf; simpl;
    [|by eexists].
  apply elem_of_cons in Hin as [->|Hin].
  - rewrite Hc in Hbad. simpl in Hbad. congruence.
  - by apply IH.
Qed.
End store_more.

Section store_more_claims.
Import util_converter store_examples legacy_more_examples.

(** X16: [recall_dependencies] never writes a file, whatever it returns or
    raises; the one change it can make to the machine is to create the
    store directory when it is missing. *)
Theorem recall_dependencies_keeps_files `{Hashlib, Py2debConfig, UtilModule}
    (self : Converter) (fs : filesystem) :
  files (recall_dependencies self fs).1 = files fs ∧
  (dirs (recall_dependencies self fs).1 = dirs fs ∨
   dirs (recall_dependencies self fs).1 = {[DEPENDENCY_STORE]} ∪ dirs fs).
Proof.
  pose proof (find_dependency_file_effect self fs) as Heff.
  unfold recall_dependencies.
  destruct (find_dependency_file self fs) as [fs1 [dependency_file|e]];
    [|done].
  by destruct (negb (os_path_isfile dependency_file fs1)).
Qed.

(** X17: when the package file of one of the converted packages cannot be
    read from the repository as a package with a name and a version,
    [persist_dependencies] raises before it opens the store: nothing is
    written and no directory is made. *)
Theorem persist_dependencies_needs_every_build
    `{Hashlib, DebianLib, Py2debConfig}
    (self : Converter) (fs : filesystem) (pkg : Package) (e : exn) :
  pkg ∈ packages self →
  DebFile_debcontrol (os_path_join PKG_REPO (debfile pkg)) fs
    ≫= format_dependency = Raise e →
  ∃ e', persist_dependencies self fs = (fs, Raise e').
Proof.
  intros Hin Hbad. unfold persist_dependencies.
  destruct (collect_deplist_raises _ _ _ _ Hin Hbad []) as [e' ->].
  by exists e'.
Qed.

Lemma persist_dependencies_needs_every_build_witness :
  beta ∈ packages converter_self ∧
  @DebFile_debcontrol simple_deb822.lib
    (os_path_join (@PKG_REPO paths) (debfile beta)) disk_without_beta
    ≫= format_dependency
  = Raise (IOError "/var/repo/pl-python-beta_2.1-1_all.deb") ∧
  ∃ e', @persist_dependencies toy_digest simple_deb822.lib paths
          converter_self disk_without_beta
        = (disk_without_beta, Raise e').
Proof.
  assert (beta ∈ packages converter_self) as Hin
    by (simpl; apply elem_of_cons; right; apply elem_of_cons; by left).
  assert (@DebFile_debcontrol simple_deb822.lib
            (os_path_join (@PKG_REPO paths) (debfile beta)) disk_without_beta
            ≫= format_dependency
          = Raise (IOError "/var/repo/pl-python-beta_2.1-1_all.deb")) as Hbad
    by (by vm_compute).
  split; [exact Hin|]. split; [exact Hbad|].
  exact (@persist_dependencies_needs_every_build toy_digest simple_deb822.lib
           paths converter_self disk_without_beta beta _ Hin Hbad).
Defined.

(** X18: [persist_dependencies] writes to one path only, the store file
    that belongs to the content of the requirements file: every other file
    keeps its content, and no directory but the store directory is made. *)
Theorem persist_dependencies_frame `{Hashlib, DebianLib, Py2debConfig}
    (self : Converter) (fs : filesystem) (content : string) :
  read_file (requirements_file self) fs = Ok content →
  delete (dependency_file_of content)
    (files (persist_dependencies self fs).1)
  = delete (dependency_file_of content) (files fs) ∧
  (dirs (persist_dependencies self fs).1 = dirs fs ∨
   dirs (persist_dependencies self fs).1 = {[DEPENDENCY_STORE]} ∪ dirs fs).
Proof.
  intros Hread. unfold persist_dependencies.
  destruct (collect_deplist (packages self) fs []) as [deplist|e];
    [|by split; [|left]].
  pose proof (find_dependency_file_effect self fs) as [Hfiles Hdirs].
  pose proof (find_dependency_file_path self fs content Hread) as Hpath.
  destruct (find_dependency_file self fs) as [fs1 [dependency_file|e]];
    simpl in *; [|by rewrite Hfiles].
  rewrite (Hpath dependency_file eq_refl).
  unfold write_file. destruct (os_path_isdir _ fs1); simpl;
    [by rewrite Hfiles|].
  by rewrite delete_insert_eq, Hfiles.
Qed.

Lemma persist_dependencies_frame_witness :
  read_file (requirements_file converter_self) disk = Ok content ∧
  delete store_file
    (files (@persist_dependencies toy_digest simple_deb822.lib paths
              converter_self disk).1)
  = delete store_file (files disk).
Proof.
  assert (read_file (requirements_file converter_self) disk = Ok content)
    as Hread by (by vm_compute).
  split; [exact Hread|].
  exact (proj1 (@persist_dependencies_frame toy_digest simple_deb822.lib
                  paths converter_self disk content Hread)).
Defined.
End store_more_claims.

(** ** [parse_egg_req] and [patch_rules] *)

Section egg_more.
Import util_converter util_converter_rest.
Context `{Host, PkgResources, PackageModule}.

Lemma requires_loop_errors (config : ConfigParser) lines :
  ∀ package,
    (requires_loop config lines package).2 = Ok () ∨
    ∃ line, line ∈ lines ∧ str_strip line ≠ "" ∧
            Requirement_parse line = None ∧
            (requires_loop config lines package).2 = Raise (ValueError line).
Proof.
  induction lines as [|line lines IH]; intros package; [by left|].
  cbn [requires_loop].
  assert (∀ package',
    (requires_loop config lines package').2 = Ok () ∨
    ∃ line0, line0 ∈ line :: lines ∧ str_strip line0 ≠ "" ∧
             Requirement_parse line0 = None ∧
             (requires_loop config lines package').2
             = Raise (ValueError line0)) as IH'.
  { intros package'. destruct (IH package') as [?|(l & ? & ? & ? & ?)];
      [by left|right]. exists l. split; [by right|done]. }
  case_bool_decide as Hblank; [apply IH'|].
  destruct (str_startswith line "["); [by left|].
  destruct (Requirement_parse line) as [parsed|] eqn:Hparse.
  - destruct (has_option "replacements" (key parsed) config) eqn:Hopt;
      [|apply IH'].
    destruct (has_option_get _ _ _ Hopt) as (value & -> & _). apply IH'.
  - right. exists line. split; [left|done].
Qed.

Lemma find_rule_split lines :
  ∀ i n, find_rule i lines = Some n →
    ∃ before rule after,
      lines = before ++ rule :: after ∧ n = i + length before ∧
      Forall (λ line, str_contains line "%:" = false) before ∧
      str_contains rule "%:" = true.
Proof.
  induction lines as [|line lines IH]; intros i n; [done|].
  cbn [find_rule]. destruct (str_contains line "%:") eqn:Hline.
  - intros [= <-]. exists [], line, lines. simpl.
    split; [done|]. split; [lia|]. by split.
  - intros (before & rule & after & -> & -> & Hb & Hr)%IH.
    exists (line :: before), rule, after. simpl.
    split; [done|]. split; [lia|]. split; [by constructor|done].
Qed.

Lemma find_rule_before before rule after :
  Forall (λ line, str_contains line "%:" = false) before →
  str_contains rule "%:" = true →
  ∀ i, find_rule i (before ++ rule :: after) = Some (i + length before).
Proof.
  intros Hb Hr. induction Hb as [|line before Hline _ IH]; intros i; simpl.
  - rewrite Hr. f_equal. lia.
  - rewrite Hline, IH. f_equal. lia.
Qed.

Lemma find_rule_none lines :
  Forall (λ line, str_contains line "%:" = false) lines →
  ∀ i, find_rule i lines = None.
Proof.
  induction 1 as [|line lines Hline _ IH]; intros i; simpl; [done|].
  by rewrite Hline.
Qed.

Lemma py_list_insert_before_rule (before after : list string) rule patch :
  py_list_insert (Z.of_nat (length before) - 1) patch
    (before ++ rule :: after)
  = take (patch_position before after) (before ++ rule :: after)
    ++ patch :: drop (patch_position before after) (before ++ rule :: after).
Proof.
  unfold py_list_insert, patch_position.
  rewrite length_app. cbn [length].
  destruct before as [|line before]; cbn [length].
  - rewrite bool_decide_eq_true_2 by lia.
    replace (Z.to_nat (Z.max 0 (Z.of_nat 0 - 1 + Z.of_nat (0 + S (length after)))))
      with (length after) by lia.
    done.
  - rewrite bool_decide_eq_false_2 by lia.
    replace (Z.to_nat (Z.min (Z.of_nat (S (length before)) - 1)
                         (Z.of_nat (S (length before) + S (length after)))))
      with (S (length before) - 1) by lia.
    done.
Qed.
End egg_more.

Section egg_more_claims.
Import util_converter util_converter_rest legacy_more_examples.

(** X19: [parse_egg_req] fails in two ways only: the one requires.txt that
    the glob found cannot be read, or a line of it that is not blank is
    refused by the requirement parser, and then the [ValueError] of that line
    is raised.  A lookup in the [replacements] section never fails. *)
Theorem parse_egg_req_errors `{Host, PkgResources, PackageModule}
    (self : Converter) (package : Package) (fs : filesystem) :
  let r := (parse_egg_req self package fs).2 in
  r = Ok () ∨
  ∃ requires,
    glob_glob (egg_requires_pattern package) fs = [requires] ∧
    (r = Raise (IOError requires) ∧ files fs !! requires = None
     ∨
     ∃ content line,
       read_file requires fs = Ok content ∧
       line ∈ readlines content ∧ str_strip line ≠ "" ∧
       Requirement_parse line = None ∧
       r = Raise (ValueError line)).
Proof.
  intros r. subst r. unfold parse_egg_req.
  destruct (glob_glob (egg_requires_pattern package) fs)
    as [|requires [|? ?]]; [by left| |by left].
  unfold read_file.
  destruct (files fs !! requires) as [content|] eqn:Hread; simpl.
  - destruct (requires_loop_errors (config self) (readlines content) package)
      as [Hok|(line & Hin & Hblank & Hparse & Hr)]; [by left|right].
    exists requires. split; [done|]. right. exists content, line.
    by rewrite Hread.
  - right. exists requires. split; [done|]. left. by rewrite Hread.
Qed.

(** X20: [Converter.patch_rules] adds its three lines and changes nothing
    else in the rules file.  With the first line that holds "%:" at index
    [i], the patch goes in at index [i-1], that is above the line before the
    rule; when the rule is the first line, Python's [insert(-1, ...)] puts
    the patch above the last line of the file. *)
Theorem Converter_patch_rules_position
    (package : Package) (fs : filesystem) (content : string)
    (before after : list string) (rule : string) :
  let rules_file :=
    os_path_join (os_path_join (directory package) "debian") "rules" in
  let lines := readlines content in
  read_file rules_file fs = Ok content →
  os_path_isdir rules_file fs = false →
  lines = before ++ rule :: after →
  Forall (λ line, str_contains line "%:" = false) before →
  str_contains rule "%:" = true →
  patch_rules package fs =
  ({| files :=
        <[rules_file :=
            String.concat ""
              (take (patch_position before after) lines
               ++ rules_patch :: drop (patch_position before after) lines)]>
          (files fs);
      dirs := dirs fs |}, Ok ()).
Proof.
  intros rules_file lines Hread Hdir Hlines Hbefore Hrule.
  unfold patch_rules. fold rules_file. rewrite Hread. fold lines.
  rewrite Hlines, (find_rule_before _ _ _ Hbefore Hrule 0).
  cbn [Nat.add]. rewrite py_list_insert_before_rule.
  unfold write_file. by rewrite Hdir.
Qed.

Lemma Converter_patch_rules_position_witness :
  read_file "/tmp/py2deb_x/alpha/debian/rules" rules_disk = Ok rules_text ∧
  read_file "/tmp/py2deb_x/alpha/debian/rules"
    (patch_rules store_examples.alpha rules_disk).1
  = Ok ("#!/usr/bin/make -f" +:+ newline
        +:+ rules_patch
        +:+ newline
        +:+ "%:" +:+ newline
        +:+ String "009"%char "dh $@" +:+ newline).
Proof.
  assert (read_file
            (os_path_join
               (os_path_join (directory store_examples.alpha) "debian")
               "rules") rules_disk = Ok rules_text) as Hread
    by (by vm_compute).
  assert (os_path_isdir
            (os_path_join
               (os_path_join (directory store_examples.alpha) "debian")
               "rules") rules_disk = false) as Hdir by (by vm_compute).
  assert (readlines rules_text
          = ["#!/usr/bin/make -f" +:+ newline; newline]
            ++ ("%:" +:+ newline) :: [String "009"%char "dh $@" +:+ newline])
    as Hlines by (by vm_compute).
  assert (Forall (λ line, str_contains line "%:" = false)
            ["#!/usr/bin/make -f" +:+ newline; newline]) as Hbefore
    by (by repeat constructor).
  assert (str_contains ("%:" +:+ newline) "%:" = true) as Hrule
    by (by vm_compute).
  split; [exact Hread|].
  rewrite (Converter_patch_rules_position store_examples.alpha rules_disk
             rules_text _ _ _ Hread Hdir Hlines Hbefore Hrule).
  by vm_compute.
Defined.

(** X21: [patch_rules] of the newer converter on a rules file without a
    line that holds "%:" raises "Failed to patch" with the path of the file,
    and leaves the file as it was. *)
Theorem patch_rules_without_rule
    (package : converter.Package) (fs : filesystem) (content : string) :
  let rules_file :=
    os_path_join (os_path_join (converter.directory package) "debian")
      "rules" in
  read_file rules_file fs = Ok content →
  Forall (λ line, str_contains line "%:" = false) (readlines content) →
  converter_rest.patch_rules package fs =
  (fs, Raise (Exception ("Failed to patch " +:+ rules_file))).
Proof.
  intros rules_file Hread Hnone. unfold converter_rest.patch_rules.
  fold rules_file. rewrite Hread.
  by rewrite (find_rule_none _ Hnone 0).
Qed.

Lemma patch_rules_without_rule_witness :
  read_file "/tmp/py2deb_x/alpha/debian/rules" plain_rules_disk
  = Ok ("all:" +:+ newline) ∧
  Forall (λ line, str_contains line "%:" = false)
    (readlines ("all:" +:+ newline)) ∧
  converter_rest.patch_rules patch_examples.alpha plain_rules_disk =
  (plain_rules_disk,
   Raise (Exception "Failed to patch /tmp/py2deb_x/alpha/debian/rules")).
Proof.
  assert (read_file
            (os_path_join
               (os_path_join (converter.directory patch_examples.alpha)
                  "debian") "rules") plain_rules_disk
          = Ok ("all:" +:+ newline)) as Hread by (by vm_compute).
  assert (Forall (λ line, str_contains line "%:" = false)
            (readlines ("all:" +:+ newline))) as Hnone
    by (by repeat constructor).
  split; [exact Hread|]. split; [exact Hnone|].
  exact (patch_rules_without_rule patch_examples.alpha plain_rules_disk _
           Hread Hnone).
Defined.
End egg_more_claims.

(** ** The older converter: control fields, build dependencies, the loop *)

Section legacy_more.
Import util_converter util_converter_rest.
Context `{Host, DebianLib, Py2debConfig, PkgResources, PackageModule}.

Lemma ascii_lower_idemp c : ascii_lower (ascii_lower c) = ascii_lower c.
Proof. by destruct c as [[] [] [] [] [] [] [] []]. Qed.

Lemma ascii_lower_upper c :
  ascii_is_lower c = true → ascii_lower (ascii_upper c) = c.
Proof. by destruct c as [[] [] [] [] [] [] [] []]. Qed.

Lemma ascii_lower_of_lower c : ascii_is_lower c = true → ascii_lower c = c.
Proof. by destruct c as [[] [] [] [] [] [] [] []]. Qed.

(** Title case changes the case of letters only. *)
Lemma str_lower_title_go s : ∀ b, str_lower (title_go b s) = str_lower s.
Proof.
  induction s as [|c s IH]; intros b; [done|]. cbn [title_go].
  destruct (ascii_is_lower c) eqn:Hl.
  - cbn [str_lower]. rewrite IH. f_equal.
    destruct b; [done|].
    by rewrite ascii_lower_upper, ascii_lower_of_lower.
  - destruct (ascii_is_upper c); cbn [str_lower]; rewrite IH; [|done].
    f_equal. destruct b; [|done]. apply ascii_lower_idemp.
Qed.

Lemma str_lower_title s : str_lower (str_title s) = str_lower s.
Proof. apply str_lower_title_go. Qed.

Lemma str_lower_idemp s : str_lower (str_lower s) = str_lower s.
Proof.
  induction s as [|c s IH]; [done|]. simpl.
  by rewrite IH, ascii_lower_idemp.
Qed.

Lemma split_go_words s :
  ∀ cur, has_space cur = false →
         Forall is_word (split_go cur s).
Proof.
  assert (∀ cur c, has_space cur = false → is_space c = false →
                   has_space (cur +:+ String c "") = false) as Happ.
  { induction cur as [|c0 cur IH]; intros c Hcur Hc; simpl in *.
    - by rewrite Hc.
    - apply orb_false_iff in Hcur as [-> Hcur]. simpl. by apply IH. }
  assert (∀ cur, has_space cur = false →
                 Forall is_word (if bool_decide (cur = "") then []
                                 else [cur])) as Hcur.
  { intros cur Hsp. case_bool_decide; [constructor|].
    by repeat constructor. }
  induction s as [|c s IH]; intros cur Hsp; cbn [split_go]; [by apply Hcur|].
  fold (is_space c). destruct (is_space c) eqn:Hc.
  - apply Forall_app. split; [by apply Hcur|by apply IH].
  - apply IH. by apply Happ.
Qed.

Lemma str_split_words s : Forall is_word (str_split s).
Proof. by apply split_go_words. Qed.

Lemma scan_for_build_cwd package topdir items w :
  cwd (scan_for_build package topdir items w).1 = cwd w.
Proof.
  induction items as [|item items IH]; simpl; [done|].
  destruct (fnmatch item _); [|done].
  by destruct (shutil_move _ PKG_REPO _).
Qed.

End legacy_more.

Section legacy_more_claims.
Import util_converter util_converter_rest legacy_more_examples.

(** X22: the fields that [_control_patch] takes from the configuration never
    include [Build-Depends], in whatever case the option is spelled: that
    option is kept for [install_build_dep]. *)
Theorem Converter_control_patch_no_build_depends
    (self : Converter) (pkg_name : string) :
  deb822_get "Build-Depends" (_control_patch self pkg_name) = None.
Proof.
  unfold _control_patch.
  change (foldl (λ d kv, deb822_set kv.1 kv.2 d) [] ?l)
    with (deb822_update [] l).
  rewrite deb822_get_update. simpl.
  rewrite (proj2 (last_assigned_None _ "Build-Depends")); [done|].
  intros kv (kv0 & -> & Hin)%list_elem_of_fmap.
  apply list_elem_of_filter in Hin as [Hkeep _]. simpl.
  apply not_true_is_false. intros Heq%field_eqb_eq.
  rewrite str_lower_title in Heq. by apply Hkeep.
Qed.

(** X23: after [Converter.patch_control] has computed the binary paragraph,
    its [Package] field is the [plname] of the package, whatever the control
    file, the configuration and the package's own patch say: the name is
    assigned last. *)
Theorem Converter_patch_paragraph_package `{PackageModule}
    (self : Converter) (package : Package) (paragraph : Deb822) :
  deb822_get "Package" (patch_paragraph self package paragraph)
  = Some (plname package).
Proof. unfold patch_paragraph. by rewrite deb822_get_set. Qed.

(** X24: [Converter.debianize] and [Converter.build] change the working
    directory of the process to the directory of the package and leave it
    there, whether they return or raise. *)
Theorem Converter_steps_change_cwd `{Host, Py2debConfig}
    (package : Package) (w : world) :
  cwd (debianize package w).1 = directory package ∧
  cwd (build package w).1 = directory package.
Proof.
  split.
  - unfold debianize. simpl.
    destruct (popen_wait _ (directory package) (fs w))
      as [[fs' output] returncode].
    by destruct (bool_decide (returncode > 0)%Z).
  - unfold build. simpl.
    destruct (popen_wait _ (directory package) (fs w))
      as [[fs' output] returncode].
    destruct (bool_decide (returncode > 0)%Z); [done|].
    by rewrite scan_for_build_cwd.
Qed.

(** X25: [apply_workarounds] never raises.  It leaves every package but
    Fabric (in any case of the name) alone; for Fabric, no directory
    [paramiko] and no file under it is left in the package directory. *)
Theorem apply_workarounds_removes_paramiko (package : Package) (w : world) :
  let paramiko := os_path_join (directory package) "paramiko" in
  let w' := (apply_workarounds package w).1 in
  (apply_workarounds package w).2 = Ok () ∧
  (str_lower (name package) ≠ "fabric" → w' = w) ∧
  (str_lower (name package) = "fabric" →
   os_path_isdir paramiko (fs w') = false ∧
   ∀ path, str_startswith path (paramiko +:+ "/") = true →
           os_path_isdir paramiko (fs w) = true →
           files (fs w') !! path = None).
Proof.
  intros paramiko w'. subst w'. unfold apply_workarounds. fold paramiko.
  destruct (decide (str_lower (name package) = "fabric")) as [Hf|Hf].
  - rewrite bool_decide_eq_true_2 by done.
    destruct (os_path_isdir paramiko (fs w)) eqn:Hdir.
    + unfold shutil_rmtree. rewrite Hdir. simpl.
      split; [done|]. split; [done|]. intros _. split.
      * apply bool_decide_eq_false_2. intros Hin.
        apply elem_of_filter in Hin as [[Hne _] _]. by apply Hne.
      * intros path Hpath _. apply map_lookup_filter_None. right.
        intros content _ Hno. simpl in Hno. apply Hno. by rewrite Hpath.
    + split; [done|]. split; [done|]. intros _. split; [done|].
      by intros path _ ?.
  - rewrite bool_decide_eq_false_2 by done.
    split; [done|]. split; [done|]. by intros ?.
Qed.

(** X26: [install_build_dep] never fails on the configuration.  Without a
    [build-depends] option for the package it runs nothing; with one it runs
    [sudo apt-get install -y] once, followed by the words of the value, each
    of them a word without white space. *)
Theorem install_build_dep_outcomes `{Host}
    (self : Converter) (package : Package) (w : world) :
  let w' := (install_build_dep self package w).1 in
  let r := (install_build_dep self package w).2 in
  match config self !! name package
        ≫= (λ options, options !! "build-depends") with
  | None => w' = w ∧ r = Ok ()
  | Some bdep =>
      log w' = log w ++ [Popen (["sudo"; "apt-get"; "install"; "-y"]
                                ++ str_split bdep) (cwd w)] ∧
      Forall is_word (str_split bdep) ∧
      (r = Ok () ∨
       r = Raise (Exception ("Failed to install build dependencies: "
                             +:+ repr_tuple (str_split bdep))))
  end.
Proof.
  intros w' r. subst w' r. unfold install_build_dep.
  destruct (has_option (name package) "build-depends" (config self))
    eqn:Hopt.
  - destruct (has_option_get _ _ _ Hopt) as (bdep & -> & Hcfg).
    change (str_lower "build-depends") with "build-depends" in Hcfg.
    rewrite Hcfg. unfold _install_build_dep.
    destruct (popen_wait _ (cwd w) (fs w)) as [[fs' output] returncode].
    split; [by destruct (bool_decide (returncode > 0)%Z)|].
    split; [apply str_split_words|].
    destruct (bool_decide (returncode > 0)%Z); [by right|by left].
  - pose proof (has_option_false _ _ _ Hopt) as Hcfg.
    change (str_lower "build-depends") with "build-depends" in Hcfg.
    by rewrite Hcfg.
Qed.

(** X27: with a [preinstall] section in the configuration, [preinstall]
    runs [sudo apt-get install -y] exactly once, even when the section is
    empty; what follows are words without white space, and a word is among
    them exactly when it is a word of the value of one of the options. *)
Theorem preinstall_installs_words `{Host}
    (self : Converter) (w : world) (options : gmap string string) :
  config self !! "preinstall" = Some options →
  ∃ pkgs,
    log (preinstall self w).1
    = log w ++ [Popen (["sudo"; "apt-get"; "install"; "-y"] ++ pkgs) (cwd w)] ∧
    Forall is_word pkgs ∧
    ∀ pkg, pkg ∈ pkgs ↔
           ∃ option value, options !! option = Some value ∧
                           pkg ∈ str_split value.
Proof.
  intros Hsec. unfold preinstall, has_section, config_items. rewrite Hsec.
  rewrite bool_decide_eq_true_2 by done.
  assert (∀ items acc,
            foldl (λ dependencies (kv : string * string),
                     dependencies ++ str_split kv.2) acc items
            = acc ++ mjoin ((λ kv, str_split kv.2) <$> items)) as Hfold.
  { induction items as [|kv items IH]; intros acc; simpl.
    - by rewrite app_nil_r.
    - by rewrite IH, app_assoc. }
  rewrite Hfold. cbn [app].
  exists (mjoin ((λ kv, str_split kv.2) <$> map_to_list options)).
  split; [|split].
  - unfold _install_build_dep.
    destruct (popen_wait _ (cwd w) (fs w)) as [[fs' output] returncode].
    by destruct (bool_decide (returncode > 0)%Z).
  - apply Forall_forall. intros pkg (l & Hin & Hl)%list_elem_of_join.
    apply list_elem_of_fmap in Hl as (kv & -> & _).
    by apply (proj1 (Forall_forall _ _) (str_split_words kv.2)).
  - intros pkg. rewrite list_elem_of_join. split.
    + intros (l & Hin & (kv & -> & Hkv)%list_elem_of_fmap).
      exists kv.1, kv.2. split; [|done].
      apply elem_of_map_to_list. by destruct kv.
    + intros (option & value & Hopt & Hin).
      exists (str_split value). split; [done|].
      apply list_elem_of_fmap. exists (option, value). split; [done|].
      by apply elem_of_map_to_list.
Qed.

Lemma preinstall_installs_words_witness :
  config preinstall_self !! "preinstall"
  = Some {[ "mysql" := "libmysqlclient-dev  gcc" ]} ∧
  ∃ pkgs,
    log (@preinstall build_examples.host preinstall_self
           (at_root fabric_disk)).1
    = [Popen (["sudo"; "apt-get"; "install"; "-y"] ++ pkgs) "/"] ∧
    Forall is_word pkgs.
Proof.
  assert (config preinstall_self !! "preinstall"
          = Some {[ "mysql" := "libmysqlclient-dev  gcc" ]}) as Hsec
    by (by vm_compute).
  split; [exact Hsec|].
  destruct (@preinstall_installs_words build_examples.host preinstall_self
              (at_root fabric_disk) _ Hsec) as (pkgs & Hlog & Hwords & _).
  exists pkgs. split; [exact Hlog|exact Hwords].
Defined.

(** X28: when every package is already built, the loop of
    [Converter.convert] prints one "is already built, skipping..." line per
    package and does nothing else: the file system, the environment and the
    working directory stay as they were and no package is changed. *)
Theorem Converter_convert_all_built
    `{Host, DebianLib, Py2debConfig, PkgResources, PackageModule}
    (self : Converter) (pkgs done : list Package) (w : world) :
  Forall (λ package, is_built package (fs w) = true) pkgs →
  convert_loop self pkgs done w =
  ({| fs := fs w; environ := environ w; cwd := cwd w;
      log := log w ++ ((λ package,
                          Print (plname package
                                 +:+ " is already built, skipping..."))
                         <$> pkgs) |},
   done ++ pkgs, Ok ()).
Proof.
  revert done w. induction pkgs as [|package pkgs IH]; intros done w Hall.
  { simpl. rewrite !app_nil_r. by destruct w. }
  inversion Hall as [|? ? Hbuilt Hrest]; subst.
  cbn [convert_loop]. rewrite Hbuilt. rewrite IH by done. simpl.
  by rewrite <- !app_assoc.
Qed.

Lemma Converter_convert_all_built_witness :
  Forall (λ package,
            @is_built legacy_examples.package_module package
              (fs (at_root store_examples.disk)) = true)
    [store_examples.alpha; store_examples.beta] ∧
  log (@convert_loop build_examples.host simple_deb822.lib
         store_examples.paths egg_examples.resources
         legacy_examples.package_module store_examples.converter_self
         [store_examples.alpha; store_examples.beta] []
         (at_root store_examples.disk)).1.1
  = [Print "pl-python-alpha is already built, skipping...";
     Print "pl-python-beta is already built, skipping..."].
Proof.
  assert (Forall (λ package,
            @is_built legacy_examples.package_module package
              (fs (at_root store_examples.disk)) = true)
    [store_examples.alpha; store_examples.beta]) as Hall
    by (repeat constructor; by vm_compute).
  split; [exact Hall|].
  by rewrite (@Converter_convert_all_built build_examples.host
                simple_deb822.lib store_examples.paths egg_examples.resources
                legacy_examples.package_module store_examples.converter_self
                [store_examples.alpha; store_examples.beta] []
                (at_root store_examples.disk) Hall).
Defined.
End legacy_more_claims.
